(** * SpamCheckApp: user accounts, the global contact directory and the
      registration / profile endpoints

    A shallow embedding of
      - [spamchecker/models.py]            ([User], [GlobalContact]),
      - [spamchecker/Serializers/user.py]  ([UserSerializer]),
      - [spamchecker/Views/User/userRegistration.py] and
        [spamchecker/Views/User/profile.py].

    Python [str] values are modelled by [string]; every [ascii] stands for the
    Unicode code point of the same number (U+0000 .. U+00FF).  [None] is the
    [None] of [option].  Python [int] values are modelled by [Z] and Python
    [float] values by [spec_float], read at binary64. *)

From Stdlib Require Import String Ascii List ZArith Lia Bool SpecFloat.
From stdpp Require Import gmap strings list fin_maps pretty.
Import ListNotations.

Local Open Scope string_scope.
#[local] Arguments String.append !_ _ : simpl nomatch.
Local Open Scope list_scope.

(** ** Exceptions and results *)

Inductive exn : Type :=
  | ValidationError (detail : string)
  | TypeError
  | AttributeError
  | IndexError
  | ZeroDivisionError
  | OverflowError
  | IntegrityError
  | MultipleObjectsReturned.

Inductive result (A : Type) : Type :=
  | Ok (a : A)
  | Raise (e : exn).
Arguments Ok {A} a.
Arguments Raise {A} e.

(** ** Python string primitives *)

Module Py.

(** [str.isdigit] on one character: the decimal digits and, in the modelled
    range, the superscript digits U+00B2, U+00B3 and U+00B9. *)
Definition char_isdigit (c : ascii) : bool :=
  let n := nat_of_ascii c in
  (((48 <=? n) && (n <=? 57)) || (n =? 178) || (n =? 179) || (n =? 185))%nat.

(** The decimal digits [0] .. [9]. *)
Definition char_isdecimal (c : ascii) : bool :=
  let n := nat_of_ascii c in ((48 <=? n) && (n <=? 57))%nat.

Fixpoint all_chars (p : ascii -> bool) (s : string) : bool :=
  match s with
  | EmptyString => true
  | String c s' => p c && all_chars p s'
  end.

(** [s.isdigit()]: every character is a digit and there is at least one. *)
Definition isdigit (s : string) : bool :=
  match s with
  | EmptyString => false
  | _ => all_chars char_isdigit s
  end.

(** [c in s] for a character. *)
Fixpoint has_char (c : ascii) (s : string) : bool :=
  match s with
  | EmptyString => false
  | String d s' => Ascii.eqb c d || has_char c s'
  end.

(** [needle in hay] for strings. *)
Fixpoint contains (needle hay : string) : bool :=
  String.prefix needle hay ||
  match hay with
  | EmptyString => false
  | String _ hay' => contains needle hay'
  end.

(** [str.isspace] on one character of the modelled range. *)
Definition char_isspace (c : ascii) : bool :=
  let n := nat_of_ascii c in
  (((9 <=? n) && (n <=? 13)) || ((28 <=? n) && (n <=? 32)) ||
   (n =? 133) || (n =? 160))%nat.

Fixpoint lstrip (s : string) : string :=
  match s with
  | EmptyString => EmptyString
  | String c s' => if char_isspace c then lstrip s' else s
  end.

Fixpoint rstrip (s : string) : string :=
  match s with
  | EmptyString => EmptyString
  | String c s' =>
      match rstrip s' with
      | EmptyString => if char_isspace c then EmptyString else String c EmptyString
      | r => String c r
      end
  end.

(** [s.strip()]. *)
Definition strip (s : string) : string := rstrip (lstrip s).

(** The part of an address after its last [@], when it has one
    ([value.rsplit("@", 1)]). *)
Fixpoint domain_part (s : string) : option string :=
  match s with
  | EmptyString => None
  | String c s' =>
      match domain_part s' with
      | Some d => Some d
      | None => if Ascii.eqb c "@" then Some s' else None
      end
  end.

End Py.

(** ** [UserSerializer]: the two field validators *)

Module UserSerializer.

Definition phone_not_numeric : string := "Phone number must be numeric.".
Definition email_blocked : string :=
  "Email addresses from example.com are not allowed.".

(** [validate_phone_number(self, value)] *)
Definition validate_phone_number (value : string) : result string :=
  if negb (Py.isdigit value)
  then Raise (ValidationError phone_not_numeric)
  else Ok value.

(** [validate_email(self, value)]; [value] is [None] when the client sent
    [null], and ['@example.com' in None] raises [TypeError]. *)
Definition validate_email (value : option string) : result (option string) :=
  match value with
  | None => Raise TypeError
  | Some s =>
      if Py.contains "@example.com" s
      then Raise (ValidationError email_blocked)
      else Ok value
  end.

End UserSerializer.

(** ** The store and the request monad

    A request runs against a [World]: the two tables touched by this slice of
    the application, the clock read by [auto_now] / [auto_now_add], and the
    trace of the effectful steps taken so far.  An uncaught exception leaves
    the handler as [Raise]; the framework turns it into a 500 response. *)

Module UserRow.
Record t : Type := mk {
  salutation : option string;
  first_name : string;
  last_name : string;
  occupation : option string;
  phone_number : string;
  country_code : string;
  email : option string;
  password : string;
  date_joined : option Z
}.
(** A Python instance: its primary key ([None] until saved) and its fields. *)
Definition instance : Type := option nat * t.
End UserRow.

Module GlobalContactRow.
Record t : Type := mk {
  phone_number : string;
  name : string;
  country_code : string;
  is_registered_user : bool;
  spam_count : Z;
  total_reports : Z;
  email : option string;
  last_updated : Z;
  user : option nat
}.
End GlobalContactRow.

Inductive event : Type :=
  | MakePassword (raw : option string)
  | IsValid
  | SaveUser (pk : nat)
  | SaveGlobalContact (pk : nat).

Record World : Type := mkWorld {
  users : gmap nat UserRow.t;
  global_contacts : gmap nat GlobalContactRow.t;
  clock : Z;
  trace : list event
}.

Definition M (A : Type) : Type := World -> result A * World.

#[global] Instance M_ret : MRet M := fun A a w => (Ok a, w).
#[global] Instance M_bind : MBind M := fun A B f m w =>
  match m w with
  | (Ok a, w') => f a w'
  | (Raise e, w') => (Raise e, w')
  end.

Definition raise {A : Type} (e : exn) : M A := fun w => (Raise e, w).
Definition ask : M World := fun w => (Ok w, w).
Definition emit (e : event) : M unit := fun w =>
  (Ok tt, mkWorld (users w) (global_contacts w) (clock w) (trace w ++ [e])).
Definition put_users (t : gmap nat UserRow.t) : M unit := fun w =>
  (Ok tt, mkWorld t (global_contacts w) (clock w) (trace w)).
Definition put_global_contacts (t : gmap nat GlobalContactRow.t) : M unit := fun w =>
  (Ok tt, mkWorld (users w) t (clock w) (trace w)).

(** The key the table gives to the next inserted row. *)
Definition next_pk {A : Type} (t : gmap nat A) : nat :=
  S (max_list (fst <$> map_to_list t)).

(** ** [django.db.models.Model.save] for the two tables *)

Module Model.

(** Some row other than [self_pk] already holds phone number [p]. *)
Definition user_phone_taken (p : string) (self_pk : option nat)
    (t : gmap nat UserRow.t) : bool :=
  bool_decide (map_Exists (fun k u => UserRow.phone_number u = p /\ Some k <> self_pk) t).

Definition contact_phone_taken (p : string) (self_pk : option nat)
    (t : gmap nat GlobalContactRow.t) : bool :=
  bool_decide
    (map_Exists (fun k c => GlobalContactRow.phone_number c = p /\ Some k <> self_pk) t).

Definition set_date_joined (d : Z) (u : UserRow.t) : UserRow.t :=
  UserRow.mk (UserRow.salutation u) (UserRow.first_name u) (UserRow.last_name u)
    (UserRow.occupation u) (UserRow.phone_number u) (UserRow.country_code u)
    (UserRow.email u) (UserRow.password u) (Some d).

Definition set_last_updated (d : Z) (c : GlobalContactRow.t) : GlobalContactRow.t :=
  GlobalContactRow.mk (GlobalContactRow.phone_number c) (GlobalContactRow.name c)
    (GlobalContactRow.country_code c) (GlobalContactRow.is_registered_user c)
    (GlobalContactRow.spam_count c) (GlobalContactRow.total_reports c)
    (GlobalContactRow.email c) d (GlobalContactRow.user c).

(** [super().save()] of a [User]: UPDATE the row of the instance's key when
    there is one, INSERT otherwise; [phone_number] is [unique];
    [date_joined] is [auto_now_add].  The UPDATE writes the instance as it
    is: an instance that has a key was loaded from its row and carries the
    row's [date_joined].  (An instance built by hand with the key of a row
    and no [date_joined] is refused by the NOT NULL column; that refusal is
    not modelled.) *)
Definition save_user (self : UserRow.instance) : M UserRow.instance :=
  w ← ask;
  let '(pk, u) := self in
  if user_phone_taken (UserRow.phone_number u) pk (users w)
  then raise IntegrityError
  else
    match pk with
    | Some k =>
        match users w !! k with
        | Some _ =>
            put_users (<[k := u]> (users w));;
            emit (SaveUser k);;
            mret (Some k, u)
        | None =>
            let u' := set_date_joined (clock w) u in
            put_users (<[k := u']> (users w));;
            emit (SaveUser k);;
            mret (Some k, u')
        end
    | None =>
        let k := next_pk (users w) in
        let u' := set_date_joined (clock w) u in
        put_users (<[k := u']> (users w));;
        emit (SaveUser k);;
        mret (Some k, u')
    end.

(** [Model.save] of a [GlobalContact]; [last_updated] is [auto_now]. *)
Definition save_global_contact (self : option nat * GlobalContactRow.t)
    : M (nat * GlobalContactRow.t) :=
  w ← ask;
  let '(pk, c) := self in
  if contact_phone_taken (GlobalContactRow.phone_number c) pk (global_contacts w)
  then raise IntegrityError
  else
    let k := match pk with
             | Some k => k
             | None => next_pk (global_contacts w)
             end in
    let c' := set_last_updated (clock w) c in
    put_global_contacts (<[k := c']> (global_contacts w));;
    emit (SaveGlobalContact k);;
    mret (k, c').

End Model.

(** ** [models.py] *)

(** A Python [float]: an IEEE 754 binary64 value. *)
Definition float : Type := spec_float.

Inductive number : Type :=
  | PyInt (z : Z)
  | PyFloat (f : float).

(** A Python integer as an operand of a division: sign, magnitude, and
    exponent 0.  The magnitude is not bounded. *)
Definition int_operand (z : Z) : spec_float :=
  match z with
  | Z0 => S754_zero false
  | Zpos p => S754_finite false p 0
  | Zneg p => S754_finite true p 0
  end.

(** The quotient of two integers rounded once to binary64 (53 bits of
    precision, exponents below 1024), to nearest with ties to even. *)
Definition float_quotient (a b : Z) : float :=
  SFdiv 53 1024 (int_operand a) (int_operand b).


(** [a / b] on Python integers: [ZeroDivisionError] for a zero divisor;
    otherwise the correctly rounded quotient, or [OverflowError] when it is
    too large for a [float]. *)
Definition truediv (a b : Z) : result number :=
  if (b =? 0)%Z then Raise ZeroDivisionError
  else
    match float_quotient a b with
    | S754_infinity _ => Raise OverflowError
    | f => Ok (PyFloat f)
    end.

(** [0 <= f <= 1] for a [float]: [f] is a zero, or it is positive and its
    mantissa [m] and exponent [e] give [m * 2 ^ e <= 1]. *)
Definition in_unit_interval (f : float) : bool :=
  match f with
  | S754_zero _ => true
  | S754_finite false m e => ((e <=? 0) && (Z.pos m <=? 2 ^ (- e)))%Z
  | _ => false
  end.


Module GlobalContact.

(** The rows whose [phone_number] is [p]. *)
Definition filter_phone (p : string) (t : gmap nat GlobalContactRow.t)
    : list (nat * GlobalContactRow.t) :=
  map_to_list (filter (fun kc => GlobalContactRow.phone_number kc.2 = p) t).

(** [GlobalContact.objects.get_or_create(phone_number=p, defaults={...})]
    with the four defaults [User.save] passes; the fields left out take
    their model defaults. *)
Definition get_or_create (p : string)
    (name : string) (is_registered_user : bool) (country_code : string)
    (email : option string) : M (nat * GlobalContactRow.t * bool) :=
  w ← ask;
  match filter_phone p (global_contacts w) with
  | [] =>
      let fresh :=
        GlobalContactRow.mk p name country_code is_registered_user 0 0 email 0 None in
      kc ← Model.save_global_contact (None, fresh);
      mret (kc, true)
  | [kc] => mret (kc, false)
  | _ => raise MultipleObjectsReturned
  end.

(** [GlobalContact.spam_likelihood] *)
Definition spam_likelihood (self : GlobalContactRow.t) : result number :=
  if (GlobalContactRow.total_reports self =? 0)%Z then Ok (PyInt 0)
  else truediv (GlobalContactRow.spam_count self) (GlobalContactRow.total_reports self).

End GlobalContact.

Module User.

(** [f"{self.first_name} {self.last_name}"] *)
Definition full_name (u : UserRow.t) : string :=
  String.append (UserRow.first_name u) (String.append " " (UserRow.last_name u)).

(** [User.save] *)
Definition save (self : UserRow.instance) : M UserRow.instance :=
  self' ← Model.save_user self;
  let u := self'.2 in
  r ← GlobalContact.get_or_create (UserRow.phone_number u)
        (full_name u) true (UserRow.country_code u) (UserRow.email u);
  let '(k, global_contact, created) := r in
  if negb created then
    let global_contact :=
      GlobalContactRow.mk
        (GlobalContactRow.phone_number global_contact)
        (full_name u)
        (UserRow.country_code u)
        true
        (GlobalContactRow.spam_count global_contact)
        (GlobalContactRow.total_reports global_contact)
        (UserRow.email u)
        (GlobalContactRow.last_updated global_contact)
        self'.1 in
    Model.save_global_contact (Some k, global_contact);;
    mret self'
  else mret self'.

End User.


(** ** Requests and responses

    A request body is a JSON object whose members are strings or [null]. *)

Inductive pyval : Type :=
  | PNone
  | PStr (s : string).

#[local] Unset Elimination Schemes.
Inductive json : Type :=
  | JNull
  | JStr (s : string)
  | JNum (n : Z)
  | JDateTime (t : Z)
  | JObj (members : gmap string json).
#[local] Set Elimination Schemes.

Record Response : Type := mkResponse {
  status : nat;
  body : json
}.

Definition HTTP_200_OK : nat := 200.
Definition HTTP_201_CREATED : nat := 201.
Definition HTTP_400_BAD_REQUEST : nat := 400.

(** The two library functions whose results the application only passes
    along: [django.contrib.auth.hashers.make_password] and Django's
    [EmailValidator]. *)
Record Framework : Type := mkFramework {
  make_password : option string -> string;
  EmailValidator : string -> bool
}.

(** ** [Serializers/user.py]: the fields [ModelSerializer] builds from [Meta] *)

Module Meta.

(** The columns of [User] a serializer field can be built from
    ([models.py], lines 68-75). *)
Record ModelField : Type := mkModelField {
  mf_name : string;
  mf_max_length : nat;
  mf_blank : bool;
  mf_null : bool;
  mf_unique : bool;
  mf_email : bool
}.

Definition model : list ModelField :=
  [ mkModelField "salutation" 10 true true false false;
    mkModelField "first_name" 50 false false false false;
    mkModelField "last_name" 50 false false false false;
    mkModelField "occupation" 100 true true false false;
    mkModelField "phone_number" 15 false false true false;
    mkModelField "country_code" 5 false false false false;
    mkModelField "email" 254 true true false true;
    mkModelField "password" 255 false false false false ].

Definition fields : list string :=
  [ "id"; "salutation"; "first_name"; "last_name"; "occupation";
    "phone_number"; "country_code"; "email"; "date_joined" ].

Definition read_only_fields : list string := [ "id"; "date_joined" ].

(** [extra_kwargs]: the [required] and [invalid] messages. *)
Definition extra_kwargs : list (string * (string * option string)) :=
  [ ("first_name", ("First name is required.", None));
    ("last_name", ("Last name is required.", None));
    ("country_code", ("Country code is required.", None));
    ("phone_number", ("Phone number is required.", None));
    ("email", ("Email is required.", Some "Enter a valid email address.")) ].

End Meta.

Module Serializer.

Record Field : Type := mkField {
  field_name : string;
  required : bool;
  allow_null : bool;
  allow_blank : bool;
  max_length : nat;
  unique : bool;
  is_email : bool;
  msg_required : string;
  msg_invalid : string
}.

Definition assoc {A : Type} (k : string) (l : list (string * A)) : option A :=
  snd <$> List.find (fun kv => String.eqb k kv.1) l.

(** [ModelSerializer.build_standard_field]: a column that is [blank] or
    [null] is not required; [null] allows [None]; [blank] allows [""]. *)
Definition build_field (mf : Meta.ModelField) : Field :=
  let kw := assoc (Meta.mf_name mf) Meta.extra_kwargs in
  mkField (Meta.mf_name mf)
    (negb (Meta.mf_blank mf || Meta.mf_null mf))
    (Meta.mf_null mf)
    (Meta.mf_blank mf)
    (Meta.mf_max_length mf)
    (Meta.mf_unique mf)
    (Meta.mf_email mf)
    (default "This field is required." (fst <$> kw))
    (default (if Meta.mf_email mf then "Enter a valid email address."
              else "Not a valid string.") (kw ≫= snd)).

(** [self._writable_fields], in the order of [Meta.fields]. *)
Definition writable_fields : list Field :=
  omap (fun name =>
          if bool_decide (name ∈ Meta.read_only_fields) then None
          else build_field <$>
                 List.find (fun mf => String.eqb name (Meta.mf_name mf)) Meta.model)
       Meta.fields.

Definition msg_null : string := "This field may not be null.".
Definition msg_blank : string := "This field may not be blank.".
Definition msg_unique : string := "user with this phone number already exists.".
Definition msg_null_chars : string := "Null characters are not allowed.".
Definition msg_max_length (n : nat) : string :=
  String.append "Ensure this field has no more than "
    (String.append (pretty n) " characters.").

(** [Field.run_validators]: every validator runs and the messages of those
    that fail are collected, in the order the field holds them. *)
Definition run_validators (fw : Framework) (t : gmap nat UserRow.t)
    (instance_pk : option nat) (f : Field) (value : string) : list string :=
  (if unique f && Model.user_phone_taken value instance_pk t
   then [msg_unique] else []) ++
  (if (max_length f <? String.length value)%nat
   then [msg_max_length (max_length f)] else []) ++
  (if Py.has_char "000"%char value then [msg_null_chars] else []) ++
  (if is_email f && negb (EmailValidator fw value) then [msg_invalid f] else []).

Inductive outcome : Type :=
  | SkipField
  | Validated (v : option string)
  | Invalid (detail : list string).

(** [CharField.run_validation]; [data] is [None] for a key the request
    does not have ([empty]). *)
Definition run_validation (fw : Framework) (t : gmap nat UserRow.t)
    (instance_pk : option nat) (partial : bool) (f : Field)
    (data : option pyval) : outcome :=
  match data with
  | None =>
      if partial then SkipField
      else if required f then Invalid [msg_required f]
      else SkipField
  | Some PNone =>
      if allow_null f then Validated None else Invalid [msg_null]
  | Some (PStr s) =>
      if String.eqb s "" || String.eqb (Py.strip s) "" then
        if allow_blank f then Validated (Some "") else Invalid [msg_blank]
      else
        let value := Py.strip s in
        match run_validators fw t instance_pk f value with
        | [] => Validated (Some value)
        | detail => Invalid detail
        end
  end.

(** [getattr(self, 'validate_' + field.field_name, None)], applied. *)
Definition validate_method (name : string) (v : option string)
    : result (option string) :=
  if String.eqb name "phone_number" then
    match v with
    | Some s =>
        match UserSerializer.validate_phone_number s with
        | Ok s' => Ok (Some s')
        | Raise e => Raise e
        end
    | None => Raise AttributeError
    end
  else if String.eqb name "email" then UserSerializer.validate_email v
  else Ok v.

(** The body of the [try] in [Serializer.to_internal_value]:
    [field.run_validation] and then the [validate_<name>] method.  A
    [ValidationError] becomes [Invalid]; any other exception is raised. *)
Definition run_field (fw : Framework) (t : gmap nat UserRow.t)
    (instance_pk : option nat) (partial : bool) (data : gmap string pyval)
    (f : Field) : result outcome :=
  match run_validation fw t instance_pk partial f (data !! field_name f) with
  | SkipField => Ok SkipField
  | Invalid detail => Ok (Invalid detail)
  | Validated v =>
      match validate_method (field_name f) v with
      | Ok v' => Ok (Validated v')
      | Raise (ValidationError m) => Ok (Invalid [m])
      | Raise e => Raise e
      end
  end.

(** [Serializer.to_internal_value]: every field is visited; a failure is
    recorded under the field's name, a validated value is kept, a skipped
    field leaves no trace. *)
Fixpoint to_internal_value (fw : Framework) (t : gmap nat UserRow.t)
    (instance_pk : option nat) (partial : bool) (fs : list Field)
    (data : gmap string pyval)
    (ret : gmap string (option string)) (errors : gmap string (list string))
    : result (gmap string (option string) * gmap string (list string)) :=
  match fs with
  | [] => Ok (ret, errors)
  | f :: fs' =>
      let continue := to_internal_value fw t instance_pk partial fs' data in
      match run_field fw t instance_pk partial data f with
      | Raise e => Raise e
      | Ok SkipField => continue ret errors
      | Ok (Invalid detail) => continue ret (<[field_name f := detail]> errors)
      | Ok (Validated v) => continue (<[field_name f := v]> ret) errors
      end
  end.

(** [serializer.is_valid()]: [inr validated_data], or [inl errors]. *)
Definition is_valid (fw : Framework) (t : gmap nat UserRow.t)
    (instance_pk : option nat) (partial : bool) (data : gmap string pyval)
    : result (gmap string (list string) + gmap string (option string)) :=
  match to_internal_value fw t instance_pk partial writable_fields data ∅ ∅ with
  | Raise e => Raise e
  | Ok (ret, errors) =>
      if bool_decide (errors = ∅) then Ok (inr ret) else Ok (inl errors)
  end.

(** [serializer.errors] after [is_valid()]: empty when validation passed. *)
Definition errors (v : gmap string (list string) + gmap string (option string))
    : gmap string (list string) :=
  match v with
  | inl serializer_errors => serializer_errors
  | inr _ => ∅
  end.

End Serializer.

Definition lift {A : Type} (r : result A) : M A := fun w => (r, w).

Module ModelSerializer.

(** A validated value bound for a column that is not nullable. *)
Definition not_null (name : string) (validated_data : gmap string (option string))
    (current : string) : result string :=
  match validated_data !! name with
  | Some (Some s) => Ok s
  | Some None => Raise IntegrityError
  | None => Ok current
  end.

Definition nullable (name : string) (validated_data : gmap string (option string))
    (current : option string) : option string :=
  match validated_data !! name with
  | Some v => v
  | None => current
  end.

(** [setattr(instance, attr, value)] for every item of [validated_data]. *)
Definition setattrs (validated_data : gmap string (option string))
    (u : UserRow.t) : result UserRow.t :=
  match not_null "first_name" validated_data (UserRow.first_name u),
        not_null "last_name" validated_data (UserRow.last_name u),
        not_null "phone_number" validated_data (UserRow.phone_number u),
        not_null "country_code" validated_data (UserRow.country_code u) with
  | Ok first, Ok last, Ok phone, Ok country =>
      Ok (UserRow.mk
            (nullable "salutation" validated_data (UserRow.salutation u))
            first last
            (nullable "occupation" validated_data (UserRow.occupation u))
            phone country
            (nullable "email" validated_data (UserRow.email u))
            (UserRow.password u)
            (UserRow.date_joined u))
  | _, _, _, _ => Raise IntegrityError
  end.

(** [User()] with no arguments: every column at its default. *)
Definition blank_user : UserRow.t :=
  UserRow.mk None "" "" None "" "" None "" None.

(** [ModelSerializer.create]: [User.objects.create] with the validated data
    as keyword arguments. *)
Definition create (validated_data : gmap string (option string))
    : M UserRow.instance :=
  u ← lift (setattrs validated_data blank_user);
  User.save (None, u).

(** [ModelSerializer.update] *)
Definition update (instance : UserRow.instance)
    (validated_data : gmap string (option string)) : M UserRow.instance :=
  u ← lift (setattrs validated_data instance.2);
  User.save (instance.1, u).

Definition opt_json (v : option string) : json :=
  match v with
  | Some s => JStr s
  | None => JNull
  end.

Definition attr_json (instance : UserRow.instance) (name : string) : json :=
  let u := instance.2 in
  if String.eqb name "id" then
    match instance.1 with Some k => JNum (Z.of_nat k) | None => JNull end
  else if String.eqb name "salutation" then opt_json (UserRow.salutation u)
  else if String.eqb name "first_name" then JStr (UserRow.first_name u)
  else if String.eqb name "last_name" then JStr (UserRow.last_name u)
  else if String.eqb name "occupation" then opt_json (UserRow.occupation u)
  else if String.eqb name "phone_number" then JStr (UserRow.phone_number u)
  else if String.eqb name "country_code" then JStr (UserRow.country_code u)
  else if String.eqb name "email" then opt_json (UserRow.email u)
  else if String.eqb name "date_joined" then
    match UserRow.date_joined u with Some d => JDateTime d | None => JNull end
  else JNull.

(** [serializer.data]: one member for every name of [Meta.fields]. *)
Definition to_representation (instance : UserRow.instance) : json :=
  JObj (list_to_map ((fun name => (name, attr_json instance name)) <$> Meta.fields)).

End ModelSerializer.

(** ** The views *)

(** The loop shared by both [format_serializer_errors]:
    [formatted_errors[field] = error_list[0]] for every item. *)
Definition first_messages (errors : gmap string (list string))
    : result (gmap string string) :=
  map_fold
    (fun field error_list acc =>
       match acc with
       | Raise e => Raise e
       | Ok formatted_errors =>
           match error_list with
           | [] => Raise IndexError
           | m :: _ => Ok (<[field := m]> formatted_errors)
           end
       end)
    (Ok ∅) errors.

(** What a function hands back to its caller as JSON; [None] is [null]. *)
Definition details_json (d : option (gmap string string)) : json :=
  match d with
  | Some m => JObj (JStr <$> m)
  | None => JNull
  end.

Module UserRegistrationAPIView.

(** [format_serializer_errors]: ends with [return formatted_errors]. *)
Definition format_serializer_errors (errors : gmap string (list string))
    : result (option (gmap string string)) :=
  match first_messages errors with
  | Ok formatted_errors => Ok (Some formatted_errors)
  | Raise e => Raise e
  end.

(** [User.objects.filter(phone_number=phone_number).exists()] *)
Definition phone_exists (phone_number : option pyval) (t : gmap nat UserRow.t)
    : bool :=
  match phone_number with
  | Some (PStr s) => Model.user_phone_taken s None t
  | _ => false
  end.

(** [data.get('password')] *)
Definition get_str (key : string) (data : gmap string pyval) : option string :=
  match data !! key with
  | Some (PStr s) => Some s
  | _ => None
  end.

Definition post (fw : Framework) (request_data : gmap string pyval) : M Response :=
  let data := request_data in
  let phone_number := data !! "phone_number" in
  w ← ask;
  if phone_exists phone_number (users w) then
    mret (mkResponse HTTP_400_BAD_REQUEST
            (JObj {[ "error" := JStr "A user with this phone number already exists." ]}))
  else
    let raw := get_str "password" data in
    emit (MakePassword raw);;
    let data := <["password" := PStr (make_password fw raw)]> data in
    emit IsValid;;
    v ← lift (Serializer.is_valid fw (users w) None false data);
    match v with
    | inr validated_data =>
        ModelSerializer.create validated_data;;
        mret (mkResponse HTTP_201_CREATED
                (JObj {[ "message" := JStr "User registered successfully." ]}))
    | inl serializer_errors =>
        errors ← lift (format_serializer_errors serializer_errors);
        mret (mkResponse HTTP_400_BAD_REQUEST
                (JObj (<[ "error" := JStr "Validation failed." ]>
                         {[ "details" := details_json errors ]})))
    end.

End UserRegistrationAPIView.

Module UserProfileAPIView.

(** [format_serializer_errors] as [profile.py] has it: the loop runs and
    the function ends without a [return], so the caller receives [None]. *)
Definition format_serializer_errors (errors : gmap string (list string))
    : result (option (gmap string string)) :=
  match first_messages errors with
  | Ok formatted_errors => Ok None
  | Raise e => Raise e
  end.

(** [get]; [user] is [request.user], the account the session resolves to. *)
Definition get (user : UserRow.instance) : M Response :=
  mret (mkResponse HTTP_200_OK (ModelSerializer.to_representation user)).

Definition patch (fw : Framework) (user : UserRow.instance)
    (request_data : gmap string pyval) : M Response :=
  w ← ask;
  emit IsValid;;
  v ← lift (Serializer.is_valid fw (users w) user.1 true request_data);
  match v with
  | inr validated_data =>
      user' ← ModelSerializer.update user validated_data;
      mret (mkResponse HTTP_200_OK
              (JObj (<[ "message" := JStr "Profile updated successfully." ]>
                       {[ "data" := ModelSerializer.to_representation user' ]})))
  | inl serializer_errors =>
      errors ← lift (format_serializer_errors serializer_errors);
      mret (mkResponse HTTP_400_BAD_REQUEST
              (JObj (<[ "error" := JStr "Validation failed." ]>
                       {[ "details" := details_json errors ]})))
  end.

End UserProfileAPIView.

(** A framework to run the handlers on concrete requests: hashing returns an
    unusable-password marker and an address is well formed when it has an
    [@]. *)
Definition framework0 : Framework :=
  mkFramework (fun _ => "!") (Py.has_char "@"%char).

(** ** Sample data *)

Module Sample.

Definition ana : UserRow.t :=
  UserRow.mk None "Ana" "Li" None "15551234567" "1" None "" None.

Definition ana_saved : UserRow.t :=
  UserRow.mk None "Ana" "Li" None "15551234567" "1" None "" (Some 100%Z).

(** Nothing stored yet; the clock reads 100. *)
Definition empty_world : World := mkWorld ∅ ∅ 100 [].

(** The directory already has an entry for Ana's number, with three spam
    reports out of five, and no account. *)
Definition reported : GlobalContactRow.t :=
  GlobalContactRow.mk "15551234567" "Unknown caller" "44" false 3 5 None 50 None.

Definition reported_world : World := mkWorld ∅ {[ 7 := reported ]} 100 [].

(** Ana is registered. *)
Definition ana_world : World :=
  mkWorld {[ 1 := ana_saved ]}
    {[ 1 := GlobalContactRow.mk "15551234567" "Ana Li" "1" true 0 0 None 100 None ]}
    100 [].

Definition ana_request : gmap string pyval :=
  list_to_map
    [ ("first_name", PStr "Ana"); ("last_name", PStr "Li");
      ("phone_number", PStr "15551234567"); ("country_code", PStr "1");
      ("password", PStr "x") ].

End Sample.

(** ** [CustomUserManager]

    The keyword arguments of [create_user] are modelled as far as [User] can
    tell them apart: keywords that name one of the six profile columns, with
    a string or [None] as value, and keywords that name no field or property
    of [User] (such as [is_staff]), whose values are never read.
    [phone_number] and [password] are parameters of their own. *)

Module Column.

Inductive t : Type :=
  | salutation
  | first_name
  | last_name
  | occupation
  | country_code
  | email.

Definition index (c : t) : nat :=
  match c with
  | salutation => 0
  | first_name => 1
  | last_name => 2
  | occupation => 3
  | country_code => 4
  | email => 5
  end.

Definition of_index (n : nat) : t :=
  match n with
  | 0 => salutation
  | 1 => first_name
  | 2 => last_name
  | 3 => occupation
  | 4 => country_code
  | _ => email
  end.

End Column.

#[global] Instance column_eq_dec : EqDecision Column.t.
Proof. solve_decision. Defined.

#[global] Instance column_countable : Countable Column.t.
Proof.
  apply (inj_countable' Column.index Column.of_index). intros []; reflexivity.
Defined.

Record extra_fields : Type := mkExtra {
  columns : gmap Column.t pyval;
  unexpected : gset string
}.

(** What a manager method hands back when it does not return a user. *)
Inductive raised : Type :=
  | ValueError (msg : string)
  | Uncaught (e : exn).

Module CustomUserManager.

(** [not phone_number] *)
Definition falsy (phone_number : option string) : bool :=
  match phone_number with
  | None => true
  | Some s => String.eqb s ""
  end.

(** A keyword for a nullable column, or the column's default [None]. *)
Definition nullable_kw (c : Column.t) (kw : gmap Column.t pyval) : option string :=
  match kw !! c with
  | Some (PStr s) => Some s
  | Some PNone => None
  | None => None
  end.

(** A keyword for a column that is not nullable, or the column's default
    [""]; [None] there is refused by the INSERT. *)
Definition not_null_kw (c : Column.t) (kw : gmap Column.t pyval) : result string :=
  match kw !! c with
  | Some (PStr s) => Ok s
  | Some PNone => Raise IntegrityError
  | None => Ok ""
  end.

(** [self.model(phone_number=phone_number, **extra_fields)] followed by
    [user.set_password(password)]: a keyword that is no attribute of [User]
    makes the constructor raise [TypeError]. *)
Definition model (fw : Framework) (phone_number : string) (password : option string)
    (extra : extra_fields) : M UserRow.t :=
  if bool_decide (unexpected extra = ∅) then
    emit (MakePassword password);;
    match not_null_kw Column.first_name (columns extra),
          not_null_kw Column.last_name (columns extra),
          not_null_kw Column.country_code (columns extra) with
    | Ok first, Ok last, Ok country =>
        mret (UserRow.mk
                (nullable_kw Column.salutation (columns extra))
                first last
                (nullable_kw Column.occupation (columns extra))
                phone_number country
                (nullable_kw Column.email (columns extra))
                (make_password fw password)
                None)
    | _, _, _ => raise IntegrityError
    end
  else raise TypeError.

(** [create_user] *)
Definition create_user (fw : Framework) (phone_number : option string)
    (password : option string) (extra : extra_fields)
    : World -> (raised + UserRow.instance) * World :=
  fun w =>
    if falsy phone_number then (inl (ValueError "The Phone Number must be set"), w)
    else
      match (user ← model fw (default "" phone_number) password extra;
             User.save (None, user)) w with
      | (Ok user, w') => (inr user, w')
      | (Raise e, w') => (inl (Uncaught e), w')
      end.

(** [create_superuser]: [setdefault] adds the two keywords when they are not
    there. *)
Definition create_superuser (fw : Framework) (phone_number : option string)
    (password : option string) (extra : extra_fields)
    : World -> (raised + UserRow.instance) * World :=
  let extra :=
    mkExtra (columns extra) ({[ "is_staff" ]} ∪ unexpected extra) in
  let extra :=
    mkExtra (columns extra) ({[ "is_superuser" ]} ∪ unexpected extra) in
  create_user fw phone_number password extra.

End CustomUserManager.

(** ** [__str__] *)

Module Str.

(** [User.__str__] *)
Definition User (self : UserRow.t) : string :=
  String.append (UserRow.first_name self)
    (String.append " "
       (String.append (UserRow.last_name self)
          (String.append " ("
             (String.append (UserRow.country_code self)
                (String.append " "
                   (String.append (UserRow.phone_number self) ")")))))).

(** [GlobalContact.__str__] *)
Definition GlobalContact (self : GlobalContactRow.t) : string :=
  String.append (GlobalContactRow.name self)
    (String.append " ("
       (String.append (GlobalContactRow.country_code self)
          (String.append " "
             (String.append (GlobalContactRow.phone_number self) ")")))).

End Str.

(** ** Store invariants *)

(** No two accounts hold the same phone number ([unique=True]). *)
Definition users_unique (t : gmap nat UserRow.t) : Prop :=
  forall k1 k2 u1 u2,
    t !! k1 = Some u1 -> t !! k2 = Some u2 ->
    UserRow.phone_number u1 = UserRow.phone_number u2 -> k1 = k2.

(** No two directory entries hold the same phone number. *)
Definition directory_unique (t : gmap nat GlobalContactRow.t) : Prop :=
  forall k1 k2 c1 c2,
    t !! k1 = Some c1 -> t !! k2 = Some c2 ->
    GlobalContactRow.phone_number c1 = GlobalContactRow.phone_number c2 -> k1 = k2.

(** A directory entry mirrors an account. *)
Definition mirrors (c : GlobalContactRow.t) (u : UserRow.t) : Prop :=
  GlobalContactRow.phone_number c = UserRow.phone_number u /\
  GlobalContactRow.name c = User.full_name u /\
  GlobalContactRow.is_registered_user c = true /\
  GlobalContactRow.country_code c = UserRow.country_code u /\
  GlobalContactRow.email c = UserRow.email u.

(** The two [unique] constraints together. *)
Definition store_ok (w : World) : Prop :=
  users_unique (users w) /\ directory_unique (global_contacts w).

(** * Properties *)

(** ** Strings *)

Lemma prefix_app (n h : string) :
  String.prefix n h = true <-> exists b, h = String.append n b.
Proof.
  revert h. induction n as [|c n IH]; intros [|d h]; simpl.
  - split; [exists EmptyString; reflexivity | reflexivity].
  - split; [exists (String d h); reflexivity | reflexivity].
  - split; [discriminate | intros [b Hb]; discriminate].
  - destruct (ascii_dec c d) as [->|Hne].
    + rewrite IH. split; intros [b Hb]; exists b; simpl in *; congruence.
    + split; [discriminate | intros [b Hb]; simpl in Hb; congruence].
Qed.

Lemma contains_app (n h : string) :
  Py.contains n h = true <->
  exists a b, h = String.append a (String.append n b).
Proof.
  induction h as [|d h IH].
  - cbn [Py.contains]. rewrite orb_false_r, prefix_app. split.
    + intros [b Hb]. exists EmptyString, b. exact Hb.
    + intros [a [b Hb]]. destruct a; [exists b; exact Hb | discriminate].
  - cbn [Py.contains]. rewrite orb_true_iff, prefix_app, IH. split.
    + intros [[b Hb] | [a [b Hb]]].
      * exists EmptyString, b. exact Hb.
      * exists (String d a), b. simpl. congruence.
    + intros [a [b Hb]]. destruct a as [|e a].
      * left. exists b. exact Hb.
      * right. exists a, b. simpl in Hb. congruence.
Qed.

Lemma domain_part_app (s d : string) :
  Py.domain_part s = Some d -> exists a, s = String.append a (String "@" d).
Proof.
  revert d. induction s as [|c s IH]; intros d; simpl; [discriminate|].
  destruct (Py.domain_part s) as [d'|].
  - intros [= ->]. destruct (IH d eq_refl) as [a ->].
    exists (String c a). reflexivity.
  - destruct (Ascii.eqb_spec c "@") as [->|]; [|discriminate].
    intros [= ->]. exists EmptyString. reflexivity.
Qed.

Lemma all_chars_forall (p : ascii -> bool) (s : string) :
  Py.all_chars p s = true <->
  forall c, In c (list_ascii_of_string s) -> p c = true.
Proof.
  induction s as [|d s IH]; simpl.
  - split; [intros _ c [] | reflexivity].
  - rewrite andb_true_iff, IH. split.
    + intros [Hd Hs] c [<-|Hc]; auto.
    + intros H. split; [apply H; left; reflexivity | intros c Hc; apply H; right; exact Hc].
Qed.

Lemma all_chars_exists (p : ascii -> bool) (s : string) :
  Py.all_chars p s = false <->
  exists c, In c (list_ascii_of_string s) /\ p c = false.
Proof.
  induction s as [|d s IH]; simpl.
  - split; [discriminate | intros [c [[] _]]].
  - rewrite andb_false_iff, IH. split.
    + intros [Hd | [c [Hc Hp]]]; [exists d | exists c]; auto.
    + intros [c [[<-|Hc] Hp]]; [left; exact Hp | right; exists c; auto].
Qed.

Lemma decimal_is_digit (c : ascii) :
  Py.char_isdecimal c = true -> Py.char_isdigit c = true.
Proof.
  unfold Py.char_isdecimal, Py.char_isdigit. cbv zeta. intros ->. reflexivity.
Qed.

(** ** [validate_phone_number], the method on its own *)

(** Applied to the empty string, the method rejects it. *)
Example validate_phone_number_of_empty :
  UserSerializer.validate_phone_number "" =
  Raise (ValidationError "Phone number must be numeric.").
Proof. reflexivity. Qed.

(** The superscript two (U+00B2) is no decimal digit, and the method
    accepts it. *)
Example validate_phone_number_superscript :
  let s := String (ascii_of_nat 178) EmptyString in
  UserSerializer.validate_phone_number s = Ok s /\
  Py.all_chars Py.char_isdecimal s = false.
Proof. split; reflexivity. Qed.

(** The method rejects its argument exactly when [str.isdigit] does, and
    returns it unchanged otherwise. *)
Lemma validate_phone_number_isdigit (s : string) :
  UserSerializer.validate_phone_number s =
  if Py.isdigit s then Ok s
  else Raise (ValidationError "Phone number must be numeric.").
Proof.
  unfold UserSerializer.validate_phone_number. destruct (Py.isdigit s); reflexivity.
Qed.

(** ** [validate_email] (C5) *)

(** The check is a substring test: an address is rejected exactly when
    [@example.com] occurs somewhere in it. *)
Lemma validate_email_rejects_iff (s : string) :
  UserSerializer.validate_email (Some s) =
    Raise (ValidationError "Email addresses from example.com are not allowed.") <->
  exists a b, s = String.append a (String.append "@example.com" b).
Proof.
  unfold UserSerializer.validate_email. rewrite <- contains_app.
  destruct (Py.contains "@example.com" s); split; try reflexivity; discriminate.
Qed.

(** Every address whose domain is exactly [example.com] is rejected. *)
Lemma validate_email_rejects_sentinel (s : string) :
  Py.domain_part s = Some "example.com" ->
  UserSerializer.validate_email (Some s) =
    Raise (ValidationError "Email addresses from example.com are not allowed.").
Proof.
  intros [a ->]%domain_part_app. apply validate_email_rejects_iff.
  exists a, EmptyString. reflexivity.
Qed.

(** C5: an address of another domain, [example.community], is rejected with
    the message that names [example.com]; so is one of [example.com.au]. *)
Theorem validate_email_rejects_other_domains :
  (Py.domain_part "bob@example.community" = Some "example.community" /\
   UserSerializer.validate_email (Some "bob@example.community") =
     Raise (ValidationError "Email addresses from example.com are not allowed."))
  /\
  (Py.domain_part "bob@example.com.au" = Some "example.com.au" /\
   UserSerializer.validate_email (Some "bob@example.com.au") =
     Raise (ValidationError "Email addresses from example.com are not allowed.")).
Proof. repeat split. Qed.

(** ** [spam_likelihood] (C9) *)

(** The rounding of [SpecFloat], as far as the division of two integers
    needs it: mantissas stay non-negative, shifting to the right does not
    enlarge them, and the exponent of the result is bounded by the number of
    digits of the quotient. *)

Lemma digits2_pos_size (p : positive) : digits2_pos p = Pos.size p.
Proof. induction p; simpl; congruence. Qed.


Lemma Zdigits2_le (m k : Z) :
  (0 <= k)%Z -> (0 <= m < 2 ^ k)%Z -> (Zdigits2 m <= k)%Z.
Proof.
  intros Hk [H0 Hm]. destruct m as [|p|p]; simpl; [lia| |lia].
  rewrite digits2_pos_size.
  pose proof (Pos.size_le p) as Hle.
  assert (2 ^ Z.pos (Pos.size p) <= 2 * Z.pos p)%Z as Hz.
  { rewrite <- Pos2Z.inj_pow. change (2 * Z.pos p)%Z with (Z.pos p~0). lia. }
  assert (2 ^ Z.pos (Pos.size p) < 2 ^ (k + 1))%Z as Hlt.
  { rewrite Z.pow_add_r, Z.pow_1_r by lia. lia. }
  apply Z.pow_lt_mono_r_iff in Hlt; lia.
Qed.










Example spam_likelihood_three_of_four :
  GlobalContact.spam_likelihood
    (GlobalContactRow.mk "15551234567" "Spam Caller" "1" false 3 4 None 0 None)
  = Ok (PyFloat (S754_finite false 6755399441055744 (-53))) /\
  (6755399441055744 * 4 = 3 * 2 ^ 53)%Z.
Proof. split; [vm_compute|]; reflexivity. Qed.

Example spam_likelihood_no_reports :
  GlobalContact.spam_likelihood
    (GlobalContactRow.mk "15551234567" "Ana Li" "1" true 0 0 None 100 None)
  = Ok (PyInt 0).
Proof. reflexivity. Qed.

(** ** The store *)

Lemma next_pk_fresh {A : Type} (t : gmap nat A) : t !! next_pk t = None.
Proof.
  destruct (t !! next_pk t) as [x|] eqn:E; [|reflexivity].
  apply elem_of_map_to_list in E.
  assert (next_pk t ∈ (fst <$> map_to_list t)) as Hin.
  { apply list_elem_of_fmap. exists (next_pk t, x). split; [reflexivity | exact E]. }
  apply max_list_elem_of_le in Hin. unfold next_pk in Hin at 1. lia.
Qed.

Lemma user_phone_taken_true (p : string) (pk : option nat) (t : gmap nat UserRow.t) :
  Model.user_phone_taken p pk t = true <->
  exists k u, t !! k = Some u /\ UserRow.phone_number u = p /\ Some k <> pk.
Proof.
  unfold Model.user_phone_taken. rewrite bool_decide_eq_true.
  apply map_Exists_lookup.
Qed.

Lemma contact_phone_taken_false (p : string) (pk : option nat)
    (t : gmap nat GlobalContactRow.t) :
  Model.contact_phone_taken p pk t = false <->
  forall k c, t !! k = Some c -> GlobalContactRow.phone_number c = p -> Some k = pk.
Proof.
  unfold Model.contact_phone_taken. rewrite bool_decide_eq_false, map_Exists_lookup.
  split.
  - intros H k c Hk Hp. destruct (decide (Some k = pk)) as [|Hne]; [assumption|].
    exfalso. apply H. exists k, c. auto.
  - intros H [k [c [Hk [Hp Hne]]]]. apply Hne. eauto.
Qed.

Lemma filter_phone_nil (p : string) (t : gmap nat GlobalContactRow.t) :
  (forall k c, t !! k = Some c -> GlobalContactRow.phone_number c <> p) ->
  GlobalContact.filter_phone p t = [].
Proof.
  intros H. unfold GlobalContact.filter_phone.
  apply map_to_list_empty_iff, map_empty. intros k.
  destruct (filter _ t !! k) as [c|] eqn:E; [|reflexivity].
  apply map_lookup_filter_Some in E as [Hk Hp]. destruct (H k c Hk Hp).
Qed.

Lemma filter_phone_one (p : string) (t : gmap nat GlobalContactRow.t)
    (k : nat) (c : GlobalContactRow.t) :
  t !! k = Some c ->
  GlobalContactRow.phone_number c = p ->
  (forall k' c', t !! k' = Some c' -> GlobalContactRow.phone_number c' = p -> k' = k) ->
  GlobalContact.filter_phone p t = [(k, c)].
Proof.
  intros Hk Hp Huniq. unfold GlobalContact.filter_phone.
  replace (filter (fun kc => GlobalContactRow.phone_number kc.2 = p) t)
    with ({[ k := c ]} : gmap nat GlobalContactRow.t).
  - apply map_to_list_singleton.
  - apply map_eq. intros i. destruct (decide (i = k)) as [->|Hne].
    + rewrite lookup_singleton_eq. symmetry.
      apply map_lookup_filter_Some. auto.
    + rewrite lookup_singleton_ne by auto. symmetry.
      destruct (filter _ t !! i) as [c'|] eqn:E; [|reflexivity].
      apply map_lookup_filter_Some in E as [Hi Hp']. destruct (Hne (Huniq i c' Hi Hp')).
Qed.

(** [super().save()] leaves the directory and the clock alone, returns an
    instance with a key, and stores the instance under that key. *)
Lemma save_user_frame (self self' : UserRow.instance) (w w1 : World) :
  Model.save_user self w = (Ok self', w1) ->
  global_contacts w1 = global_contacts w /\ clock w1 = clock w /\
  (exists k, self'.1 = Some k /\ users w1 !! k = Some self'.2 /\
             trace w1 = trace w ++ [SaveUser k]) /\
  UserRow.phone_number self'.2 = UserRow.phone_number self.2 /\
  UserRow.first_name self'.2 = UserRow.first_name self.2 /\
  UserRow.last_name self'.2 = UserRow.last_name self.2 /\
  UserRow.country_code self'.2 = UserRow.country_code self.2 /\
  UserRow.email self'.2 = UserRow.email self.2.
Proof.
  destruct self as [pk u]. unfold Model.save_user.
  cbv [mbind M_bind mret M_ret ask raise emit put_users].
  destruct (Model.user_phone_taken _ _ _); [discriminate|].
  destruct pk as [k|]; [destruct (users w !! k)|];
    intros [= <- <-]; simpl; (split_and!; try reflexivity);
    eexists; (split_and!; [reflexivity | apply lookup_insert_eq | reflexivity]).
Qed.

(** ** [User.save] when the directory has the entry (C2) *)

(** C2, as stated, fails: the five fields are not the only ones the save
    overwrites.  The entry for Ana's number was last updated at 50; her
    account is saved when the clock reads 100, and the entry's
    [last_updated] is 100 afterwards: the column is [auto_now], and
    [global_contact.save()] writes it. *)
Lemma User_save_refreshes_last_updated :
  global_contacts Sample.reported_world !! 7 =
    Some (GlobalContactRow.mk "15551234567" "Unknown caller" "44" false 3 5 None 50 None)
  /\
  global_contacts (User.save (None, Sample.ana) Sample.reported_world).2 !! 7 =
    Some (GlobalContactRow.mk "15551234567" "Ana Li" "1" true 3 5 None 100 (Some 1))
  /\
  GlobalContactRow.mk "15551234567" "Ana Li" "1" true 3 5 None 100 (Some 1) <>
  GlobalContactRow.mk "15551234567" "Ana Li" "1" true 3 5 None 50 (Some 1).
Proof. split_and!; [vm_compute; reflexivity..|discriminate]. Qed.

(** C2 (amended): when the directory holds exactly one entry for the
    account's phone number, a save whose [super().save()] step succeeds
    succeeds as a whole and rewrites that entry in place: name, is-registered
    flag, country code, email and account link are the account's,
    [last_updated] is the clock ([auto_now]), phone number and both report
    counters are as before.  Every other entry is untouched, no entry is
    added, and the phone number still has exactly one entry. *)
Theorem User_save_existing_entry
    (self self' : UserRow.instance) (w w1 : World)
    (k : nat) (c : GlobalContactRow.t) :
  Model.save_user self w = (Ok self', w1) ->
  global_contacts w !! k = Some c ->
  GlobalContactRow.phone_number c = UserRow.phone_number self.2 ->
  (forall k' c', global_contacts w !! k' = Some c' ->
     GlobalContactRow.phone_number c' = UserRow.phone_number self.2 -> k' = k) ->
  let c' :=
    GlobalContactRow.mk
      (GlobalContactRow.phone_number c)
      (String.append (UserRow.first_name self.2)
         (String.append " " (UserRow.last_name self.2)))
      (UserRow.country_code self.2)
      true
      (GlobalContactRow.spam_count c)
      (GlobalContactRow.total_reports c)
      (UserRow.email self.2)
      (clock w)
      self'.1 in
  let directory := <[k := c']> (global_contacts w) in
  User.save self w =
    (Ok self',
     mkWorld (users w1) directory (clock w) (trace w1 ++ [SaveGlobalContact k])) /\
  (exists pk, self'.1 = Some pk /\ users w1 !! pk = Some self'.2) /\
  (forall k' c'', directory !! k' = Some c'' ->
     GlobalContactRow.phone_number c'' = UserRow.phone_number self.2 -> k' = k) /\
  (forall k', k' <> k -> directory !! k' = global_contacts w !! k') /\
  size directory = size (global_contacts w).
Proof.
  intros Hsave Hk Hp Huniq c' directory.
  destruct (save_user_frame _ _ _ _ Hsave)
    as (Hgc & Hclock & (pk & Hpk & Hrow & _) & Hphone & Hfirst & Hlast & Hcc & Hmail).
  split_and!.
  - unfold User.save. cbv [mbind M_bind]. rewrite Hsave.
    unfold GlobalContact.get_or_create. cbv [mbind M_bind ask mret M_ret].
    rewrite Hgc, Hphone, (filter_phone_one _ _ k c Hk Hp Huniq). cbv [negb].
    unfold Model.save_global_contact.
    cbv [mbind M_bind ask mret M_ret emit put_global_contacts raise].
    cbn [GlobalContactRow.phone_number]. rewrite Hgc.
    replace (Model.contact_phone_taken (GlobalContactRow.phone_number c) (Some k)
               (global_contacts w)) with false.
    + unfold User.full_name, Model.set_last_updated. simpl.
      rewrite Hclock, Hfirst, Hlast, Hcc, Hmail. reflexivity.
    + symmetry. apply contact_phone_taken_false. intros k' c'' Hk' Hp'.
      f_equal. apply (Huniq k' c'' Hk'). congruence.
  - exists pk. auto.
  - intros k' c'' Hlook Hp'. destruct (decide (k' = k)) as [|Hne]; [assumption|].
    unfold directory in Hlook. rewrite lookup_insert_ne in Hlook by auto. eauto.
  - intros k' Hne. unfold directory. apply lookup_insert_ne. auto.
  - unfold directory. apply map_size_insert_Some. eauto.
Qed.

Lemma User_save_existing_entry_witness :
  User.save (None, Sample.ana) Sample.reported_world =
    (Ok (Some 1, Sample.ana_saved),
     mkWorld {[ 1 := Sample.ana_saved ]}
       (<[ 7 := GlobalContactRow.mk "15551234567" "Ana Li" "1" true 3 5 None 100 (Some 1) ]>
          {[ 7 := Sample.reported ]})
       100 [SaveUser 1; SaveGlobalContact 7]).
Proof.
  refine (proj1 (User_save_existing_entry (None, Sample.ana) (Some 1, Sample.ana_saved)
                   Sample.reported_world
                   (mkWorld {[ 1 := Sample.ana_saved ]} {[ 7 := Sample.reported ]} 100
                      [SaveUser 1])
                   7 Sample.reported _ _ _ _)).
  - vm_compute. reflexivity.
  - reflexivity.
  - reflexivity.
  - intros k' c' H _. cbn [global_contacts Sample.reported_world] in H.
    apply lookup_singleton_Some in H as [<- _]. reflexivity.
Defined.

(** ** [User.save] when the directory has no entry (C1) *)

(** When the directory has no entry for the account's phone number, a save
    whose [super().save()] step succeeds adds exactly one entry, under a fresh
    key: name, is-registered flag, country code and email are the account's,
    both counters are 0, and the account link is empty. *)
Lemma User_save_new_entry (self self' : UserRow.instance) (w w1 : World) :
  Model.save_user self w = (Ok self', w1) ->
  (forall k c, global_contacts w !! k = Some c ->
     GlobalContactRow.phone_number c <> UserRow.phone_number self.2) ->
  let k := next_pk (global_contacts w) in
  let c :=
    GlobalContactRow.mk (UserRow.phone_number self.2)
      (String.append (UserRow.first_name self.2)
         (String.append " " (UserRow.last_name self.2)))
      (UserRow.country_code self.2) true 0 0 (UserRow.email self.2) (clock w) None in
  global_contacts w !! k = None /\
  User.save self w =
    (Ok self',
     mkWorld (users w1) (<[k := c]> (global_contacts w)) (clock w)
       (trace w1 ++ [SaveGlobalContact k])).
Proof.
  intros Hsave Hnone k c. split; [apply next_pk_fresh|].
  destruct (save_user_frame _ _ _ _ Hsave)
    as (Hgc & Hclock & _ & Hphone & Hfirst & Hlast & Hcc & Hmail).
  unfold User.save. cbv [mbind M_bind]. rewrite Hsave.
  unfold GlobalContact.get_or_create. cbv [mbind M_bind ask mret M_ret].
  rewrite Hgc, Hphone, (filter_phone_nil _ _ Hnone).
  unfold Model.save_global_contact.
  cbv [mbind M_bind ask mret M_ret emit put_global_contacts raise].
  cbn [GlobalContactRow.phone_number]. rewrite Hgc.
  replace (Model.contact_phone_taken (UserRow.phone_number self.2) None
             (global_contacts w)) with false.
  - unfold User.full_name, Model.set_last_updated. simpl.
    rewrite Hclock, Hfirst, Hlast, Hcc, Hmail. reflexivity.
  - symmetry. apply contact_phone_taken_false. intros k' c' Hk' Hp'.
    destruct (Hnone k' c' Hk' Hp').
Qed.

(** C1: saving the new account of Ana Li into an empty store creates one
    directory entry with her name, the is-registered flag, her country code
    and email, and no link to her account: [user] is [None]. *)
Theorem User_save_new_entry_unlinked :
  User.save (None, Sample.ana) Sample.empty_world =
    (Ok (Some 1, Sample.ana_saved),
     mkWorld {[ 1 := Sample.ana_saved ]}
       {[ 1 := GlobalContactRow.mk "15551234567" "Ana Li" "1" true 0 0 None 100 None ]}
       100 [SaveUser 1; SaveGlobalContact 1]).
Proof. vm_compute. reflexivity. Qed.

(** A second save of the same account, now that the entry exists, sets the
    link. *)
Example User_save_again_links :
  User.save (Some 1, Sample.ana_saved) Sample.ana_world =
    (Ok (Some 1, Sample.ana_saved),
     mkWorld {[ 1 := Sample.ana_saved ]}
       {[ 1 := GlobalContactRow.mk "15551234567" "Ana Li" "1" true 0 0 None 100 (Some 1) ]}
       100 [SaveUser 1; SaveGlobalContact 1]).
Proof. vm_compute. reflexivity. Qed.

(** ** Registration with a registered phone number (C4) *)

(** C4: a registration whose phone number belongs to an existing account is
    answered with status 400 and the duplicate message, and the world is left
    as it was: no account or directory entry is written and the trace gains
    no hashing, validation or save step. *)
Theorem post_duplicate_phone
    (fw : Framework) (data : gmap string pyval) (w : World)
    (p : string) (k : nat) (u : UserRow.t) :
  data !! "phone_number" = Some (PStr p) ->
  users w !! k = Some u ->
  UserRow.phone_number u = p ->
  UserRegistrationAPIView.post fw data w =
    (Ok (mkResponse 400
           (JObj {[ "error" := JStr "A user with this phone number already exists." ]})),
     w).
Proof.
  intros Hdata Hk Hp. unfold UserRegistrationAPIView.post.
  cbv [mbind M_bind ask mret M_ret]. rewrite Hdata.
  unfold UserRegistrationAPIView.phone_exists.
  replace (Model.user_phone_taken p None (users w)) with true; [reflexivity|].
  symmetry. apply user_phone_taken_true. exists k, u. auto.
Qed.

Lemma post_duplicate_phone_witness :
  UserRegistrationAPIView.post framework0 Sample.ana_request Sample.ana_world =
    (Ok (mkResponse 400
           (JObj {[ "error" := JStr "A user with this phone number already exists." ]})),
     Sample.ana_world).
Proof.
  apply (post_duplicate_phone framework0 Sample.ana_request Sample.ana_world
           "15551234567" 1 Sample.ana_saved); reflexivity.
Defined.

(** ** The serializer *)

Lemma writable_fields_eq :
  Serializer.writable_fields =
  [ Serializer.mkField "salutation" false true true 10 false false
      "This field is required." "Not a valid string.";
    Serializer.mkField "first_name" true false false 50 false false
      "First name is required." "Not a valid string.";
    Serializer.mkField "last_name" true false false 50 false false
      "Last name is required." "Not a valid string.";
    Serializer.mkField "occupation" false true true 100 false false
      "This field is required." "Not a valid string.";
    Serializer.mkField "phone_number" true false false 15 true false
      "Phone number is required." "Not a valid string.";
    Serializer.mkField "country_code" true false false 5 false false
      "Country code is required." "Not a valid string.";
    Serializer.mkField "email" false true true 254 false true
      "Email is required." "Enter a valid email address." ].
Proof. vm_compute. reflexivity. Qed.

Section ToInternalValue.

Variable fw : Framework.
Variable t : gmap nat UserRow.t.
Variable instance_pk : option nat.
Variable partial : bool.
Variable data : gmap string pyval.

Local Abbreviation run := (Serializer.run_field fw t instance_pk partial data).
Local Abbreviation tiv fs :=
  (Serializer.to_internal_value fw t instance_pk partial fs data).

Lemma run_validators_strip (f : Serializer.Field) (s : string) (v : option string) :
  Serializer.run_validation fw t instance_pk partial f (Some (PStr s)) =
    Serializer.Validated v ->
  v = Some (Py.strip s).
Proof.
  unfold Serializer.run_validation.
  destruct (String.eqb s "" || String.eqb (Py.strip s) "") eqn:E.
  - destruct (Serializer.allow_blank f); [|discriminate]. intros [= <-].
    apply orb_true_iff in E as [E|E].
    + apply String.eqb_eq in E. subst s. reflexivity.
    + apply String.eqb_eq in E. rewrite E. reflexivity.
  - destruct (Serializer.run_validators _ _ _ _ _); [|discriminate].
    intros [= <-]. reflexivity.
Qed.

Lemma validate_method_ok (name : string) (v v' : option string) :
  Serializer.validate_method name v = Ok v' -> v' = v.
Proof.
  unfold Serializer.validate_method.
  destruct (String.eqb name "phone_number").
  - destruct v as [s|]; [|discriminate].
    unfold UserSerializer.validate_phone_number.
    destruct (negb (Py.isdigit s)); [discriminate | intros [= <-]; reflexivity].
  - destruct (String.eqb name "email"); [|intros [= <-]; reflexivity].
    destruct v as [s|]; simpl; [|discriminate].
    destruct (Py.contains _ s); [discriminate | intros [= <-]; reflexivity].
Qed.

(** A field that was kept holds the stripped string the request supplied,
    or [None] for a supplied [null]. *)
Lemma run_field_validated (f : Serializer.Field) (v : option string) :
  run f = Ok (Serializer.Validated v) ->
  (exists s, data !! Serializer.field_name f = Some (PStr s) /\ v = Some (Py.strip s)) \/
  (data !! Serializer.field_name f = Some PNone /\ v = None /\
   Serializer.allow_null f = true).
Proof.
  unfold Serializer.run_field.
  destruct (Serializer.run_validation _ _ _ _ f _) as [|v0|d] eqn:E; try discriminate.
  destruct (Serializer.validate_method _ v0) as [v1|[]] eqn:Ev; try discriminate.
  intros [= <-]. apply validate_method_ok in Ev. subst v1.
  destruct (data !! Serializer.field_name f) as [[|s]|].
  - right. simpl in E. destruct (Serializer.allow_null f); [|discriminate].
    injection E as <-. auto.
  - left. exists s. split; [reflexivity|]. apply (run_validators_strip f s v0 E).
  - simpl in E. destruct partial; [discriminate|].
    destruct (Serializer.required f); discriminate.
Qed.

(** A field is skipped only when the request does not have it. *)
Lemma run_field_skipped (f : Serializer.Field) :
  run f = Ok Serializer.SkipField ->
  data !! Serializer.field_name f = None /\
  (partial = true \/ Serializer.required f = false).
Proof.
  unfold Serializer.run_field.
  destruct (data !! Serializer.field_name f) as [[|s]|]; simpl.
  - destruct (Serializer.allow_null f); [|discriminate].
    destruct (Serializer.validate_method _ None) as [|[]]; discriminate.
  - destruct (String.eqb s "" || String.eqb (Py.strip s) "").
    + destruct (Serializer.allow_blank f); [|discriminate].
      destruct (Serializer.validate_method _ _) as [|[]]; discriminate.
    + destruct (Serializer.run_validators _ _ _ _ _); [|discriminate].
      destruct (Serializer.validate_method _ _) as [|[]]; discriminate.
  - destruct partial; [auto|]. destruct (Serializer.required f); [discriminate | auto].
Qed.

(** A required field the request does not have fails with its message. *)
Lemma run_field_required (f : Serializer.Field) :
  partial = false -> Serializer.required f = true ->
  data !! Serializer.field_name f = None ->
  run f = Ok (Serializer.Invalid [Serializer.msg_required f]).
Proof.
  intros Hp Hr Hd. unfold Serializer.run_field, Serializer.run_validation.
  rewrite Hd, Hp, Hr. reflexivity.
Qed.

(** Failure details are never empty. *)
Lemma run_field_invalid_nonempty (f : Serializer.Field) (d : list string) :
  run f = Ok (Serializer.Invalid d) -> d <> [].
Proof.
  unfold Serializer.run_field, Serializer.run_validation.
  destruct (data !! Serializer.field_name f) as [[|s]|].
  - destruct (Serializer.allow_null f).
    + destruct (Serializer.validate_method _ _) as [|[]]; intros [= <-]; discriminate.
    + intros [= <-]; discriminate.
  - destruct (String.eqb s "" || String.eqb (Py.strip s) "").
    + destruct (Serializer.allow_blank f).
      * destruct (Serializer.validate_method _ _) as [|[]]; intros [= <-]; discriminate.
      * intros [= <-]; discriminate.
    + destruct (Serializer.run_validators _ _ _ _ _) as [|m ms].
      * destruct (Serializer.validate_method _ _) as [|[]]; intros [= <-]; discriminate.
      * intros [= <-]; discriminate.
  - destruct partial; [discriminate|].
    destruct (Serializer.required f); [intros [= <-]|]; discriminate.
Qed.

(** Only a [null] reaching a [validate_] method that cannot take it leaves
    the loop with an exception. *)
Lemma run_field_raise (f : Serializer.Field) (e : exn) :
  run f = Raise e ->
  data !! Serializer.field_name f = Some PNone /\
  Serializer.allow_null f = true /\
  (Serializer.field_name f = "phone_number" \/ Serializer.field_name f = "email").
Proof.
  unfold Serializer.run_field.
  destruct (Serializer.run_validation _ _ _ _ f _) as [|v0|d] eqn:E; try discriminate.
  destruct (Serializer.validate_method _ v0) as [v1|e'] eqn:Ev; [discriminate|].
  intros He.
  assert (v0 = None /\
          (Serializer.field_name f = "phone_number" \/
           Serializer.field_name f = "email")) as [-> Hname].
  { revert Ev He. unfold Serializer.validate_method.
    destruct (String.eqb_spec (Serializer.field_name f) "phone_number") as [Hn|_].
    - destruct v0 as [s|]; [|auto]. unfold UserSerializer.validate_phone_number.
      destruct (negb (Py.isdigit s)); [|discriminate]. intros [= <-]. discriminate.
    - destruct (String.eqb_spec (Serializer.field_name f) "email") as [Hn|_];
        [|discriminate].
      destruct v0 as [s|]; [|auto]. simpl.
      destruct (Py.contains _ s); [|discriminate]. intros [= <-]. discriminate. }
  split_and!; [| |exact Hname].
  - destruct (data !! Serializer.field_name f) as [[|s]|]; [reflexivity| |].
    + apply run_validators_strip in E. discriminate.
    + simpl in E. destruct partial; [discriminate|].
      destruct (Serializer.required f); discriminate.
  - destruct (data !! Serializer.field_name f) as [[|s]|].
    + simpl in E. destruct (Serializer.allow_null f); [reflexivity | discriminate].
    + apply run_validators_strip in E. discriminate.
    + simpl in E. destruct partial; [discriminate|].
      destruct (Serializer.required f); discriminate.
Qed.

(** The loop leaves alone every name that is not one of its fields. *)
Lemma to_internal_value_frame (fs : list Serializer.Field) (n : string)
    (ret ret' : gmap string (option string)) (errors errors' : gmap string (list string)) :
  n ∉ (Serializer.field_name <$> fs) ->
  tiv fs ret errors = Ok (ret', errors') ->
  ret' !! n = ret !! n /\ errors' !! n = errors !! n.
Proof.
  revert ret errors. induction fs as [|f fs IH]; intros ret errors Hn; simpl.
  - intros [= <- <-]. auto.
  - rewrite fmap_cons, not_elem_of_cons in Hn. destruct Hn as [Hne Hn].
    destruct (run f) as [[|v|d]|e]; [| | |discriminate];
      intros H; apply (IH _ _ Hn) in H as [-> ->];
      rewrite ?lookup_insert_ne by auto; auto.
Qed.

(** What the loop records for each of its fields. *)
Lemma to_internal_value_field (fs : list Serializer.Field) (f : Serializer.Field)
    (ret ret' : gmap string (option string)) (errors errors' : gmap string (list string)) :
  NoDup (Serializer.field_name <$> fs) ->
  f ∈ fs ->
  tiv fs ret errors = Ok (ret', errors') ->
  match run f with
  | Ok Serializer.SkipField =>
      ret' !! Serializer.field_name f = ret !! Serializer.field_name f /\
      errors' !! Serializer.field_name f = errors !! Serializer.field_name f
  | Ok (Serializer.Validated v) =>
      ret' !! Serializer.field_name f = Some v /\
      errors' !! Serializer.field_name f = errors !! Serializer.field_name f
  | Ok (Serializer.Invalid d) =>
      ret' !! Serializer.field_name f = ret !! Serializer.field_name f /\
      errors' !! Serializer.field_name f = Some d
  | Raise _ => False
  end.
Proof.
  revert ret errors. induction fs as [|g fs IH]; intros ret errors Hnd Hin.
  - inversion Hin.
  - rewrite fmap_cons in Hnd. apply NoDup_cons in Hnd as [Hg Hnd].
    apply elem_of_cons in Hin as [->|Hin].
    + simpl. destruct (run g) as [[|v|d]|e]; [| | |discriminate];
        intros H; apply (to_internal_value_frame _ _ _ _ _ _ Hg) in H as [-> ->];
        rewrite ?lookup_insert_eq; auto.
    + assert (Serializer.field_name f <> Serializer.field_name g) as Hne.
      { intros E. apply Hg. rewrite <- E. apply list_elem_of_fmap. eauto. }
      simpl. destruct (run g) as [[|v|d]|e]; [| | |discriminate];
        intros H; specialize (IH _ _ Hnd Hin H);
        destruct (run f) as [[|v'|d']|e']; try exact IH;
        rewrite ?lookup_insert_ne in IH by auto; exact IH.
Qed.

(** The loop ends normally when no field raises. *)
Lemma to_internal_value_total (fs : list Serializer.Field)
    (ret : gmap string (option string)) (errors : gmap string (list string)) :
  (forall f e, f ∈ fs -> run f <> Raise e) ->
  exists ret' errors', tiv fs ret errors = Ok (ret', errors').
Proof.
  revert ret errors. induction fs as [|f fs IH]; intros ret errors Hno; simpl.
  - eauto.
  - assert (forall g e, g ∈ fs -> run g <> Raise e) as Hno'.
    { intros g e Hg. apply Hno. apply elem_of_cons. auto. }
    destruct (run f) as [[|v|d]|e] eqn:E; [apply IH; auto..|].
    destruct (Hno f e); [apply elem_of_cons; auto | exact E].
Qed.

(** Every recorded failure has a first message. *)
Lemma to_internal_value_nonempty (fs : list Serializer.Field)
    (ret ret' : gmap string (option string)) (errors errors' : gmap string (list string)) :
  (forall n d, errors !! n = Some d -> d <> []) ->
  tiv fs ret errors = Ok (ret', errors') ->
  forall n d, errors' !! n = Some d -> d <> [].
Proof.
  revert ret errors. induction fs as [|f fs IH]; intros ret errors Hne; simpl.
  - intros [= <- <-]. exact Hne.
  - destruct (run f) as [[|v|d]|e] eqn:E; [| | |discriminate];
      apply IH; auto.
    intros n d' [[_ <-]|[_ H]]%lookup_insert_Some; [|eauto].
    apply (run_field_invalid_nonempty f d E).
Qed.

End ToInternalValue.


(** ** [format_serializer_errors] *)

(** When every failure list has a first element, the loop of
    [format_serializer_errors] ends normally and maps every failing field to
    the first message of its list. *)
Lemma first_messages_ok (errors : gmap string (list string)) :
  (forall n d, errors !! n = Some d -> d <> []) ->
  exists formatted, first_messages errors = Ok formatted /\
    forall n, formatted !! n = errors !! n ≫= head.
Proof.
  unfold first_messages.
  apply (map_fold_weak_ind
           (fun r (m : gmap string (list string)) =>
              (forall n d, m !! n = Some d -> d <> []) ->
              exists formatted, r = Ok formatted /\
                forall n, formatted !! n = m !! n ≫= head)).
  - intros _. exists ∅. split; [reflexivity|]. intros n. rewrite !lookup_empty. reflexivity.
  - intros i x m r Hi IH Hall.
    destruct IH as [formatted [-> Hfm]].
    { intros n d Hn. apply (Hall n d). rewrite lookup_insert_ne; [exact Hn|].
      intros <-. congruence. }
    destruct x as [|m0 x].
    { destruct (Hall i []); [apply lookup_insert_eq | reflexivity]. }
    exists (<[i := m0]> formatted). split; [reflexivity|]. intros n.
    destruct (decide (n = i)) as [->|Hne].
    + rewrite !lookup_insert_eq. reflexivity.
    + rewrite !lookup_insert_ne by auto. apply Hfm.
Qed.

Lemma is_valid_errors_nonempty (fw : Framework) (t : gmap nat UserRow.t)
    (pk : option nat) (partial : bool) (data : gmap string pyval)
    (errors : gmap string (list string)) :
  Serializer.is_valid fw t pk partial data = Ok (inl errors) ->
  forall n d, errors !! n = Some d -> d <> [].
Proof.
  unfold Serializer.is_valid.
  destruct (Serializer.to_internal_value _ _ _ _ _ _ _ _) as [[ret errs]|e] eqn:E;
    [|discriminate].
  destruct (bool_decide (errs = ∅)); intros [= <-].
  apply (to_internal_value_nonempty _ _ _ _ _ _ _ _ _ _) with (2 := E).
  intros n d H. rewrite lookup_empty in H. discriminate.
Qed.

(** ** PATCH /profile/ with invalid fields (C3) *)

(** Whenever the serializer reports failures, [PATCH /profile/] answers 400
    with the error "Validation failed." and [null] as details, and writes
    nothing. *)
Lemma patch_invalid (fw : Framework) (user : UserRow.instance)
    (request_data : gmap string pyval) (w : World)
    (errors : gmap string (list string)) :
  Serializer.is_valid fw (users w) user.1 true request_data = Ok (inl errors) ->
  UserProfileAPIView.patch fw user request_data w =
    (Ok (mkResponse 400
           (JObj (<[ "error" := JStr "Validation failed." ]> {[ "details" := JNull ]}))),
     mkWorld (users w) (global_contacts w) (clock w) (trace w ++ [IsValid])).
Proof.
  intros Hv. unfold UserProfileAPIView.patch.
  cbv [mbind M_bind ask emit lift mret M_ret]. cbn [users]. rewrite Hv.
  unfold UserProfileAPIView.format_serializer_errors.
  destruct (first_messages_ok errors (is_valid_errors_nonempty _ _ _ _ _ _ Hv))
    as [formatted [-> _]].
  reflexivity.
Qed.

(** C3: a PATCH that changes the phone number of Ana's account to [12a]
    fails validation and is answered 400 with "Validation failed."; the
    account is not modified, and the details are [null], not the map from
    [phone_number] to "Phone number must be numeric.". *)
Theorem patch_invalid_details_null :
  UserProfileAPIView.patch framework0 (Some 1, Sample.ana_saved)
    {[ "phone_number" := PStr "12a" ]} Sample.ana_world =
  (Ok (mkResponse 400
         (JObj (<[ "error" := JStr "Validation failed." ]> {[ "details" := JNull ]}))),
   mkWorld (users Sample.ana_world) (global_contacts Sample.ana_world) 100 [IsValid]).
Proof. vm_compute. reflexivity. Qed.

(** The registration view, on the same failure, does return the map. *)
Example post_invalid_details_map :
  UserRegistrationAPIView.post framework0
    (<[ "phone_number" := PStr "12a" ]> Sample.ana_request) Sample.empty_world =
  (Ok (mkResponse 400
         (JObj (<[ "error" := JStr "Validation failed." ]>
                  {[ "details" :=
                       JObj {[ "phone_number" := JStr "Phone number must be numeric." ]} ]}))),
   mkWorld ∅ ∅ 100 [MakePassword (Some "x"); IsValid]).
Proof. vm_compute. reflexivity. Qed.


(** ** Registration without a required field (C7) *)

Lemma writable_fields_NoDup :
  NoDup (Serializer.field_name <$> Serializer.writable_fields).
Proof. apply (bool_decide_unpack _). vm_compute. exact I. Qed.

Lemma writable_fields_names (f : Serializer.Field) :
  f ∈ Serializer.writable_fields ->
  Serializer.field_name f <> "password" /\
  (Serializer.field_name f = "phone_number" -> Serializer.allow_null f = false).
Proof.
  rewrite writable_fields_eq. intros H.
  repeat (apply elem_of_cons in H as [->|H]); try (split; [discriminate | reflexivity]);
    try (split; [discriminate | discriminate]).
  inversion H.
Qed.

(** The four fields [ModelSerializer] makes required, with the messages
    [extra_kwargs] gives them. *)
Lemma required_fields (name msg : string) :
  (name, msg) ∈ [ ("first_name", "First name is required.");
                 ("last_name", "Last name is required.");
                 ("country_code", "Country code is required.");
                 ("phone_number", "Phone number is required.") ] ->
  exists f, f ∈ Serializer.writable_fields /\ Serializer.field_name f = name /\
            Serializer.required f = true /\ Serializer.msg_required f = msg.
Proof.
  rewrite writable_fields_eq. intros H.
  repeat (apply elem_of_cons in H as [[= -> ->]|H]); [..|inversion H].
  - eexists. split; [apply list_elem_of_further, list_elem_of_here|].
    split_and!; reflexivity.
  - eexists. split; [do 2 apply list_elem_of_further; apply list_elem_of_here|].
    split_and!; reflexivity.
  - eexists. split; [do 5 apply list_elem_of_further; apply list_elem_of_here|].
    split_and!; reflexivity.
  - eexists. split; [do 4 apply list_elem_of_further; apply list_elem_of_here|].
    split_and!; reflexivity.
Qed.

(** Validation of a registration ends normally unless the email is [null]. *)
Lemma registration_no_raise (fw : Framework) (t : gmap nat UserRow.t)
    (pk : option nat) (partial : bool) (data : gmap string pyval)
    (f : Serializer.Field) (e : exn) :
  data !! "email" <> Some PNone ->
  f ∈ Serializer.writable_fields ->
  Serializer.run_field fw t pk partial data f <> Raise e.
Proof.
  intros Hmail Hf Hraise.
  apply run_field_raise in Hraise as (Hnull & Hallow & [Hn|Hn]).
  - apply writable_fields_names in Hf as [_ Hf]. rewrite (Hf Hn) in Hallow. discriminate.
  - rewrite Hn in Hnull. contradiction.
Qed.

Lemma run_field_password (fw : Framework) (t : gmap nat UserRow.t)
    (pk : option nat) (partial : bool) (data : gmap string pyval) (v : pyval)
    (f : Serializer.Field) :
  f ∈ Serializer.writable_fields ->
  Serializer.run_field fw t pk partial (<[ "password" := v ]> data) f =
  Serializer.run_field fw t pk partial data f.
Proof.
  intros [Hne _]%writable_fields_names. unfold Serializer.run_field.
  rewrite lookup_insert_ne by auto. reflexivity.
Qed.

(** C7, as stated, fails in three ways.  A registration without an email is
    accepted: the column is [blank=True, null=True], so the serializer field
    is not required.  A registration without a first name whose phone number
    is already registered gets the duplicate answer, which has no details.
    A registration without a first name whose email is [null] ends in a
    [TypeError]. *)
Lemma post_missing_field_counterexamples :
  (Sample.ana_request !! "email" = None /\
   UserRegistrationAPIView.post framework0 Sample.ana_request Sample.empty_world =
     (Ok (mkResponse 201 (JObj {[ "message" := JStr "User registered successfully." ]})),
      mkWorld {[ 1 := Sample.ana_saved ]}
        {[ 1 := GlobalContactRow.mk "15551234567" "Ana Li" "1" true 0 0 None 100 None ]}
        100 [MakePassword (Some "x"); IsValid; SaveUser 1; SaveGlobalContact 1]))
  /\
  (delete "first_name" Sample.ana_request !! "first_name" = None /\
   UserRegistrationAPIView.post framework0 (delete "first_name" Sample.ana_request)
     Sample.ana_world =
     (Ok (mkResponse 400
            (JObj {[ "error" := JStr "A user with this phone number already exists." ]})),
      Sample.ana_world))
  /\
  (let data := <[ "email" := PNone ]> (delete "first_name" Sample.ana_request) in
   data !! "first_name" = None /\
   UserRegistrationAPIView.post framework0 data Sample.empty_world =
     (Raise TypeError, mkWorld ∅ ∅ 100 [MakePassword (Some "x"); IsValid])).
Proof. vm_compute. repeat split. Qed.

(** C7 (amended): for a registration whose phone number belongs to no
    account and whose email is not [null], if first name, last name, country
    code or phone number is absent, the answer is 400 with "Validation
    failed." and a details map that gives that field its required-field
    message; no account and no directory entry is written. *)
Theorem post_missing_required
    (fw : Framework) (data : gmap string pyval) (w : World) (name msg : string) :
  (name, msg) ∈ [ ("first_name", "First name is required.");
                 ("last_name", "Last name is required.");
                 ("country_code", "Country code is required.");
                 ("phone_number", "Phone number is required.") ] ->
  data !! name = None ->
  (forall p k u, data !! "phone_number" = Some (PStr p) ->
     users w !! k = Some u -> UserRow.phone_number u <> p) ->
  data !! "email" <> Some PNone ->
  exists details : gmap string string,
    UserRegistrationAPIView.post fw data w =
      (Ok (mkResponse 400
             (JObj (<[ "error" := JStr "Validation failed." ]>
                      {[ "details" := JObj (JStr <$> details) ]}))),
       mkWorld (users w) (global_contacts w) (clock w)
         (trace w ++ [MakePassword (UserRegistrationAPIView.get_str "password" data);
                      IsValid]))
    /\ details !! name = Some msg.
Proof.
  intros Hreq Habsent Hnew Hmail.
  destruct (required_fields name msg Hreq) as (f & Hf & Hname & Hrequired & Hmsg).
  unfold UserRegistrationAPIView.post.
  cbv [mbind M_bind ask emit lift mret M_ret]. cbn [users global_contacts clock trace].
  assert (UserRegistrationAPIView.phone_exists (data !! "phone_number") (users w) = false)
    as ->.
  { unfold UserRegistrationAPIView.phone_exists.
    destruct (data !! "phone_number") as [[|p]|] eqn:Ep; try reflexivity.
    apply not_true_is_false. intros (k & u & Hk & Hp & _)%user_phone_taken_true.
    apply (Hnew p k u eq_refl Hk Hp). }
  set (data' := <[ "password" := _ ]> data).
  set (raw := UserRegistrationAPIView.get_str "password" data).
  assert (data' !! "email" <> Some PNone) as Hmail'.
  { unfold data'. rewrite lookup_insert_ne by discriminate. exact Hmail. }
  destruct (to_internal_value_total fw (users w) None false data'
              Serializer.writable_fields ∅ ∅) as (ret & errors & Htiv).
  { intros g e Hg. apply registration_no_raise; assumption. }
  pose proof (to_internal_value_field _ _ _ _ _ _ f _ _ _ _
                writable_fields_NoDup Hf Htiv) as Hfield.
  unfold data' in Hfield at 1. rewrite run_field_password in Hfield by exact Hf.
  rewrite (run_field_required _ _ _ _ _ f eq_refl Hrequired) in Hfield
    by (rewrite Hname; exact Habsent).
  destruct Hfield as [_ Herr]. rewrite Hname, Hmsg in Herr.
  unfold Serializer.is_valid. rewrite Htiv.
  rewrite bool_decide_eq_false_2.
  2:{ intros ->. rewrite lookup_empty in Herr. discriminate. }
  unfold UserRegistrationAPIView.format_serializer_errors.
  destruct (first_messages_ok errors) as (formatted & -> & Hfm).
  { apply (to_internal_value_nonempty _ _ _ _ _ _ _ _ _ _) with (2 := Htiv).
    intros n d H. rewrite lookup_empty in H. discriminate. }
  exists formatted. split.
  - rewrite <- !app_assoc. reflexivity.
  - rewrite Hfm, Herr. reflexivity.
Qed.

Lemma post_missing_required_witness :
  exists details : gmap string string,
    UserRegistrationAPIView.post framework0 (delete "first_name" Sample.ana_request)
      Sample.empty_world =
      (Ok (mkResponse 400
             (JObj (<[ "error" := JStr "Validation failed." ]>
                      {[ "details" := JObj (JStr <$> details) ]}))),
       mkWorld ∅ ∅ 100 [MakePassword (Some "x"); IsValid])
    /\ details !! "first_name" = Some "First name is required.".
Proof.
  destruct (post_missing_required framework0 (delete "first_name" Sample.ana_request)
              Sample.empty_world "first_name" "First name is required.")
    as (details & Hpost & Hdetails).
  - apply list_elem_of_here.
  - reflexivity.
  - intros p k u _ H. cbn [users Sample.empty_world] in H.
    rewrite lookup_empty in H. discriminate.
  - discriminate.
  - exists details. split; [exact Hpost | exact Hdetails].
Defined.


(** ** Registration, then GET /profile/ (C8) *)

(** [User.save] changes the accounts exactly as its [super().save()] step
    does. *)
Lemma User_save_users (self i : UserRow.instance) (w w' : World) :
  User.save self w = (Ok i, w') ->
  exists w1, Model.save_user self w = (Ok i, w1) /\ users w' = users w1.
Proof.
  unfold User.save. cbv [mbind M_bind].
  destruct (Model.save_user self w) as [[self'|e] w1]; [|discriminate].
  unfold GlobalContact.get_or_create, Model.save_global_contact.
  cbv [mbind M_bind ask mret M_ret emit put_global_contacts raise].
  destruct (GlobalContact.filter_phone _ _) as [|[k c] [|]]; [| |discriminate].
  - destruct (Model.contact_phone_taken _ _ _); [discriminate|].
    simpl. intros [= -> <-]. eauto.
  - simpl. destruct (Model.contact_phone_taken _ _ _); [discriminate|].
    intros [= -> <-]. eauto.
Qed.

(** The first save of an instance without a key inserts it under the next
    key, with [date_joined] read from the clock. *)
Lemma save_user_insert (u : UserRow.t) (i : UserRow.instance) (w w1 : World) :
  Model.save_user (None, u) w = (Ok i, w1) ->
  i = (Some (next_pk (users w)), Model.set_date_joined (clock w) u) /\
  users w1 = <[next_pk (users w) := Model.set_date_joined (clock w) u]> (users w).
Proof.
  unfold Model.save_user. cbv [mbind M_bind ask mret M_ret emit put_users raise].
  destruct (Model.user_phone_taken _ _ _); [discriminate|].
  intros [= <- <-]. auto.
Qed.

(** What a successful validation keeps for each field, in terms of the
    request. *)
Lemma is_valid_field (fw : Framework) (t : gmap nat UserRow.t) (pk : option nat)
    (partial : bool) (data : gmap string pyval)
    (validated_data : gmap string (option string)) (f : Serializer.Field) :
  Serializer.is_valid fw t pk partial data = Ok (inr validated_data) ->
  f ∈ Serializer.writable_fields ->
  match data !! Serializer.field_name f with
  | Some (PStr s) =>
      validated_data !! Serializer.field_name f = Some (Some (Py.strip s))
  | Some PNone =>
      validated_data !! Serializer.field_name f = Some None /\
      Serializer.allow_null f = true
  | None =>
      validated_data !! Serializer.field_name f = None /\
      (partial = true \/ Serializer.required f = false)
  end.
Proof.
  unfold Serializer.is_valid.
  destruct (Serializer.to_internal_value _ _ _ _ _ _ _ _) as [[ret errors]|e] eqn:E;
    [|discriminate].
  destruct (bool_decide_reflect (errors = ∅)) as [->|]; intros [= <-]; intros Hf.
  pose proof (to_internal_value_field _ _ _ _ _ _ f _ _ _ _
                writable_fields_NoDup Hf E) as H.
  destruct (Serializer.run_field fw t pk partial data f) as [[|v|d]|e] eqn:Er.
  - apply run_field_skipped in Er as [-> Hwhy]. destruct H as [-> _].
    rewrite lookup_empty. auto.
  - destruct H as [-> _].
    apply run_field_validated in Er as [(s & -> & ->)|(-> & -> & Hnull)]; auto.
  - destruct H as [_ H]. rewrite lookup_empty in H. discriminate.
  - destruct H.
Qed.

(** A successful registration supplied the four required fields as strings
    and stores every field as the stripped string supplied ([None] for an
    optional field that was absent). *)
Lemma registration_row (fw : Framework) (t : gmap nat UserRow.t)
    (data : gmap string pyval) (validated_data : gmap string (option string))
    (u : UserRow.t) :
  Serializer.is_valid fw t None false data = Ok (inr validated_data) ->
  ModelSerializer.setattrs validated_data ModelSerializer.blank_user = Ok u ->
  let optional (name : string) : option string :=
    match data !! name with
    | Some (PStr s) => Some (Py.strip s)
    | _ => None
    end in
  (exists s, data !! "first_name" = Some (PStr s) /\ UserRow.first_name u = Py.strip s) /\
  (exists s, data !! "last_name" = Some (PStr s) /\ UserRow.last_name u = Py.strip s) /\
  (exists s, data !! "phone_number" = Some (PStr s) /\
             UserRow.phone_number u = Py.strip s) /\
  (exists s, data !! "country_code" = Some (PStr s) /\
             UserRow.country_code u = Py.strip s) /\
  UserRow.salutation u = optional "salutation" /\
  UserRow.occupation u = optional "occupation" /\
  UserRow.email u = optional "email" /\
  UserRow.date_joined u = None.
Proof.
  intros Hv Hset optional.
  assert (Forall
            (fun f =>
               match data !! Serializer.field_name f with
               | Some (PStr s) =>
                   validated_data !! Serializer.field_name f = Some (Some (Py.strip s))
               | Some PNone =>
                   validated_data !! Serializer.field_name f = Some None /\
                   Serializer.allow_null f = true
               | None =>
                   validated_data !! Serializer.field_name f = None /\
                   (false = true \/ Serializer.required f = false)
               end) Serializer.writable_fields) as Hall.
  { apply Forall_forall. intros f Hf. apply (is_valid_field _ _ _ _ _ _ f Hv Hf). }
  rewrite writable_fields_eq in Hall.
  apply Forall_cons in Hall as [Hsal Hall]. apply Forall_cons in Hall as [Hfirst Hall].
  apply Forall_cons in Hall as [Hlast Hall]. apply Forall_cons in Hall as [Hocc Hall].
  apply Forall_cons in Hall as [Hphone Hall]. apply Forall_cons in Hall as [Hcc Hall].
  apply Forall_cons in Hall as [Hmail _].
  cbn [Serializer.field_name Serializer.allow_null Serializer.required] in *.
  destruct (data !! "first_name") as [[|first]|];
    [destruct Hfirst; discriminate| |destruct Hfirst as [_ []]; discriminate].
  destruct (data !! "last_name") as [[|last]|];
    [destruct Hlast; discriminate| |destruct Hlast as [_ []]; discriminate].
  destruct (data !! "phone_number") as [[|phone]|];
    [destruct Hphone; discriminate| |destruct Hphone as [_ []]; discriminate].
  destruct (data !! "country_code") as [[|cc]|];
    [destruct Hcc; discriminate| |destruct Hcc as [_ []]; discriminate].
  unfold ModelSerializer.setattrs, ModelSerializer.not_null in Hset.
  rewrite Hfirst, Hlast, Hphone, Hcc in Hset. injection Hset as <-.
  cbn [UserRow.first_name UserRow.last_name UserRow.phone_number UserRow.country_code
       UserRow.salutation UserRow.occupation UserRow.email UserRow.date_joined
       ModelSerializer.blank_user].
  unfold ModelSerializer.nullable, optional.
  split_and!; eauto.
  - destruct (data !! "salutation") as [[|s]|]; [destruct Hsal as [-> _]
                                                | rewrite Hsal
                                                | destruct Hsal as [-> _]]; reflexivity.
  - destruct (data !! "occupation") as [[|s]|]; [destruct Hocc as [-> _]
                                                | rewrite Hocc
                                                | destruct Hocc as [-> _]]; reflexivity.
  - destruct (data !! "email") as [[|s]|]; [destruct Hmail as [-> _]
                                           | rewrite Hmail
                                           | destruct Hmail as [-> _]]; reflexivity.
Qed.

(** C8, as stated, fails: the first name " Ana", supplied with a leading
    space, comes back from the profile as "Ana".  The serializer's character
    fields strip surrounding whitespace before the value is stored. *)
Lemma register_then_get_profile_stripped :
  let data := <[ "first_name" := PStr " Ana" ]> Sample.ana_request in
  let w' :=
    mkWorld {[ 1 := Sample.ana_saved ]}
      {[ 1 := GlobalContactRow.mk "15551234567" "Ana Li" "1" true 0 0 None 100 None ]}
      100 [MakePassword (Some "x"); IsValid; SaveUser 1; SaveGlobalContact 1] in
  UserRegistrationAPIView.post framework0 data Sample.empty_world =
    (Ok (mkResponse 201 (JObj {[ "message" := JStr "User registered successfully." ]})),
     w') /\
  users w' !! 1 = Some Sample.ana_saved /\
  exists members,
    UserProfileAPIView.get (Some 1, Sample.ana_saved) w' =
      (Ok (mkResponse 200 (JObj members)), w') /\
    members !! "first_name" = Some (JStr "Ana") /\
    data !! "first_name" = Some (PStr " Ana").
Proof.
  split; [vm_compute; reflexivity|]. split; [reflexivity|].
  eexists. split; [reflexivity|]. split; reflexivity.
Qed.

(** C8 (amended): after a successful registration the new account is stored
    under a fresh key, and GET /profile/ for that account answers 200 with
    exactly the nine members of [Meta.fields]: the key, the registration time,
    and for each of the seven profile fields the supplied string with
    surrounding whitespace stripped ([null] for an optional field that was not
    supplied).  The four required fields were supplied as strings.  There is
    no [password] member. *)
Theorem register_then_get_profile
    (fw : Framework) (data : gmap string pyval) (w w' : World) (response : Response) :
  UserRegistrationAPIView.post fw data w = (Ok response, w') ->
  status response = 201 ->
  let echoed (name : string) : json :=
    match data !! name with
    | Some (PStr s) => JStr (Py.strip s)
    | _ => JNull
    end in
  exists (pk : nat) (u : UserRow.t) (members : gmap string json),
    users w !! pk = None /\
    users w' !! pk = Some u /\
    UserProfileAPIView.get (Some pk, u) w' = (Ok (mkResponse 200 (JObj members)), w') /\
    members =
      list_to_map
        [ ("id", JNum (Z.of_nat pk));
          ("salutation", echoed "salutation");
          ("first_name", echoed "first_name");
          ("last_name", echoed "last_name");
          ("occupation", echoed "occupation");
          ("phone_number", echoed "phone_number");
          ("country_code", echoed "country_code");
          ("email", echoed "email");
          ("date_joined", JDateTime (clock w)) ] /\
    members !! "password" = None /\
    (forall name,
       name ∈ ["first_name"; "last_name"; "phone_number"; "country_code"] ->
       exists s, data !! name = Some (PStr s)).
Proof.
  intros Hpost Hstatus echoed.
  unfold UserRegistrationAPIView.post in Hpost.
  cbv [mbind M_bind ask emit lift mret M_ret] in Hpost.
  cbn [users global_contacts clock trace] in Hpost.
  destruct (UserRegistrationAPIView.phone_exists _ _).
  { injection Hpost as <- <-. discriminate. }
  set (data' := <[ "password" := _ ]> data) in Hpost.
  destruct (Serializer.is_valid fw (users w) None false data')
    as [[errors|validated_data]|e] eqn:Hv; [| |discriminate].
  { destruct (UserRegistrationAPIView.format_serializer_errors errors);
      [injection Hpost as <- <-|]; discriminate. }
  unfold ModelSerializer.create in Hpost.
  cbv [mbind M_bind lift] in Hpost.
  destruct (ModelSerializer.setattrs validated_data ModelSerializer.blank_user)
    as [u|e] eqn:Hset; [|discriminate].
  destruct (User.save (None, u) _) as [[i|e] w3] eqn:Hsave; [|discriminate].
  cbv [mret M_ret] in Hpost. injection Hpost as _ <-.
  apply User_save_users in Hsave as (w1 & Hsave & Husers).
  apply save_user_insert in Hsave as [-> Hw1]. cbn [users clock] in Hw1.
  destruct (registration_row _ _ _ _ _ Hv Hset)
    as ((first & Dfirst & Hfirst) & (last & Dlast & Hlast) & (phone & Dphone & Hphone) &
        (cc & Dcc & Hcc) & Hsal & Hocc & Hmail & Hjoined).
  unfold data' in Dfirst, Dlast, Dphone, Dcc, Hsal, Hocc, Hmail.
  rewrite lookup_insert_ne in Dfirst, Dlast, Dphone, Dcc, Hsal, Hocc, Hmail by discriminate.
  exists (next_pk (users w)). eexists. eexists.
  split; [apply next_pk_fresh|].
  split; [rewrite Husers, Hw1; apply lookup_insert_eq|].
  split; [reflexivity|].
  split.
  - unfold ModelSerializer.to_representation, ModelSerializer.attr_json, echoed.
    cbn [fmap list_fmap Meta.fields String.eqb Ascii.eqb Bool.eqb fst snd].
    cbn [Model.set_date_joined UserRow.salutation UserRow.first_name UserRow.last_name
         UserRow.occupation UserRow.phone_number UserRow.country_code UserRow.email
         UserRow.date_joined clock].
    rewrite Hsal, Hfirst, Hlast, Hocc, Hphone, Hcc, Hmail, Dfirst, Dlast, Dphone, Dcc.
    destruct (data !! "salutation") as [[|?]|], (data !! "occupation") as [[|?]|],
      (data !! "email") as [[|?]|]; reflexivity.
  - split; [reflexivity|].
    intros name Hname.
    repeat (apply elem_of_cons in Hname as [->|Hname]); eauto. inversion Hname.
Qed.

Lemma register_then_get_profile_witness :
  let w' :=
    mkWorld {[ 1 := Sample.ana_saved ]}
      {[ 1 := GlobalContactRow.mk "15551234567" "Ana Li" "1" true 0 0 None 100 None ]}
      100 [MakePassword (Some "x"); IsValid; SaveUser 1; SaveGlobalContact 1] in
  exists (pk : nat) (u : UserRow.t) (members : gmap string json),
    users w' !! pk = Some u /\
    UserProfileAPIView.get (Some pk, u) w' = (Ok (mkResponse 200 (JObj members)), w') /\
    members !! "first_name" = Some (JStr "Ana") /\
    members !! "phone_number" = Some (JStr "15551234567") /\
    members !! "email" = Some JNull.
Proof.
  intros w'.
  destruct (register_then_get_profile framework0 Sample.ana_request Sample.empty_world w'
              (mkResponse 201 (JObj {[ "message" := JStr "User registered successfully." ]})))
    as (pk & u & members & _ & Hrow & Hget & -> & _ & _).
  - vm_compute. reflexivity.
  - reflexivity.
  - exists pk, u. eexists. split; [exact Hrow|]. split; [exact Hget|].
    split_and!; reflexivity.
Defined.


(** * Further properties *)

(** ** [User.save] and the two tables *)

Lemma filter_phone_elem (p : string) (t : gmap nat GlobalContactRow.t)
    (k : nat) (c : GlobalContactRow.t) :
  (k, c) ∈ GlobalContact.filter_phone p t ->
  t !! k = Some c /\ GlobalContactRow.phone_number c = p.
Proof.
  unfold GlobalContact.filter_phone. intros H.
  apply elem_of_map_to_list in H. apply map_lookup_filter_Some in H. exact H.
Qed.

Lemma filter_phone_nil_inv (p : string) (t : gmap nat GlobalContactRow.t)
    (k : nat) (c : GlobalContactRow.t) :
  GlobalContact.filter_phone p t = [] ->
  t !! k = Some c -> GlobalContactRow.phone_number c <> p.
Proof.
  unfold GlobalContact.filter_phone. intros H Hk Hp.
  apply map_to_list_empty_iff in H.
  assert (filter (fun kc : nat * GlobalContactRow.t =>
                    GlobalContactRow.phone_number kc.2 = p) t !! k = Some c) as Hf.
  { apply map_lookup_filter_Some. auto. }
  rewrite H, lookup_empty in Hf. discriminate.
Qed.

(** Every way [User.save] can end: [super().save()] raises and nothing is
    written; or the account is written and then the directory step raises,
    creates the entry, or rewrites the one entry found. *)
Lemma User_save_cases (self : UserRow.instance) (w w' : World)
    (r : result UserRow.instance) :
  User.save self w = (r, w') ->
  (exists e, r = Raise e /\ w' = w /\ Model.save_user self w = (Raise e, w)) \/
  (exists i w1,
     Model.save_user self w = (Ok i, w1) /\ users w' = users w1 /\
     let p := UserRow.phone_number self.2 in
     ((exists e, r = Raise e /\ global_contacts w' = global_contacts w) \/
      (r = Ok i /\ GlobalContact.filter_phone p (global_contacts w) = [] /\
       global_contacts w' =
         <[next_pk (global_contacts w) :=
             GlobalContactRow.mk p (User.full_name i.2) (UserRow.country_code i.2)
               true 0 0 (UserRow.email i.2) (clock w) None]> (global_contacts w)) \/
      (r = Ok i /\
       exists k c, GlobalContact.filter_phone p (global_contacts w) = [(k, c)] /\
         global_contacts w' =
           <[k := GlobalContactRow.mk (GlobalContactRow.phone_number c)
                    (User.full_name i.2) (UserRow.country_code i.2) true
                    (GlobalContactRow.spam_count c) (GlobalContactRow.total_reports c)
                    (UserRow.email i.2) (clock w) i.1]> (global_contacts w)))).
Proof.
  unfold User.save. cbv [mbind M_bind].
  destruct (Model.save_user self w) as [[i|e] w1] eqn:Hsave.
  2:{ intros [= <- <-]. left. exists e.
      assert (w1 = w) as ->; [|auto].
      revert Hsave. destruct self as [pk u]. unfold Model.save_user.
      cbv [mbind M_bind mret M_ret ask raise emit put_users].
      destruct (Model.user_phone_taken _ _ _); [intros [=]; congruence|].
      destruct pk as [k|]; [destruct (users w !! k)|]; discriminate. }
  destruct (save_user_frame _ _ _ _ Hsave)
    as (Hgc & Hclock & _ & Hphone & _).
  intros H. right. exists i, w1. split; [reflexivity|]. revert H.
  unfold GlobalContact.get_or_create, Model.save_global_contact.
  cbv [mbind M_bind ask mret M_ret emit put_global_contacts raise].
  rewrite Hgc, Hphone.
  destruct (GlobalContact.filter_phone _ _) as [|[k c] [|]] eqn:Hf; rewrite ?Hgc, ?Hclock.
  - cbn [GlobalContactRow.phone_number].
    destruct (Model.contact_phone_taken _ _ _).
    + intros [= <- <-]. split; [reflexivity|]. left. eauto.
    + intros [= <- <-]. split; [reflexivity|]. right. left.
      unfold Model.set_last_updated. simpl. rewrite ?Hgc, ?Hclock. auto.
  - cbn [negb GlobalContactRow.phone_number].
    destruct (Model.contact_phone_taken _ _ _).
    + intros [= <- <-]. split; [reflexivity|]. left. eauto.
    + intros [= <- <-]. split; [reflexivity|]. right. right.
      split; [reflexivity|]. exists k, c.
      unfold Model.set_last_updated. simpl. rewrite ?Hgc, ?Hclock. auto.
  - intros [= <- <-]. split; [reflexivity|]. left. eauto.
Qed.

(** A successful [super().save()] stores the instance under its key, and no
    other account holds its phone number. *)
Lemma save_user_insert_any (self i : UserRow.instance) (w w1 : World) :
  Model.save_user self w = (Ok i, w1) ->
  exists k, i.1 = Some k /\ users w1 = <[k := i.2]> (users w) /\
    forall k' u', users w !! k' = Some u' ->
      UserRow.phone_number u' = UserRow.phone_number i.2 -> k' = k.
Proof.
  destruct self as [pk u]. unfold Model.save_user.
  cbv [mbind M_bind mret M_ret ask raise emit put_users].
  destruct (Model.user_phone_taken _ _ _) eqn:Htaken; [discriminate|].
  assert (forall k' u', users w !! k' = Some u' ->
            UserRow.phone_number u' = UserRow.phone_number u -> Some k' = pk) as Hfree.
  { intros k' u' Hk' Hp. destruct (decide (Some k' = pk)) as [|Hne]; [assumption|].
    assert (Model.user_phone_taken (UserRow.phone_number u) pk (users w) = true) as E.
    { apply user_phone_taken_true. eauto. }
    congruence. }
  destruct pk as [k|]; [destruct (users w !! k)|]; intros [= <- <-]; simpl.
  - exists k. split_and!; [reflexivity..|]. intros k' u' Hk' Hp.
    specialize (Hfree k' u' Hk' Hp). congruence.
  - exists k. split_and!; [reflexivity..|]. intros k' u' Hk' Hp.
    specialize (Hfree k' u' Hk' Hp). congruence.
  - exists (next_pk (users w)). split_and!; [reflexivity..|]. intros k' u' Hk' Hp.
    specialize (Hfree k' u' Hk' Hp). discriminate.
Qed.

Lemma users_unique_insert (t : gmap nat UserRow.t) (k : nat) (u : UserRow.t) :
  users_unique t ->
  (forall k' u', t !! k' = Some u' ->
     UserRow.phone_number u' = UserRow.phone_number u -> k' = k) ->
  users_unique (<[k := u]> t).
Proof.
  intros Hu Hfree k1 k2 u1 u2 H1 H2 Hp.
  apply lookup_insert_Some in H1 as [[<- <-]|[Hn1 H1]];
    apply lookup_insert_Some in H2 as [[<- <-]|[Hn2 H2]].
  - reflexivity.
  - symmetry. eauto.
  - symmetry in Hp. eauto.
  - eauto.
Qed.

Lemma directory_unique_insert (t : gmap nat GlobalContactRow.t) (k : nat)
    (c : GlobalContactRow.t) :
  directory_unique t ->
  (forall k' c', t !! k' = Some c' ->
     GlobalContactRow.phone_number c' = GlobalContactRow.phone_number c -> k' = k) ->
  directory_unique (<[k := c]> t).
Proof.
  intros Hu Hfree k1 k2 c1 c2 H1 H2 Hp.
  apply lookup_insert_Some in H1 as [[<- <-]|[Hn1 H1]];
    apply lookup_insert_Some in H2 as [[<- <-]|[Hn2 H2]].
  - reflexivity.
  - symmetry. eauto.
  - symmetry in Hp. eauto.
  - eauto.
Qed.

(** In a directory with unique phone numbers a lookup by phone number finds
    nothing or one entry. *)
Lemma filter_phone_unique (p : string) (t : gmap nat GlobalContactRow.t) :
  directory_unique t ->
  GlobalContact.filter_phone p t = [] \/
  exists k c, GlobalContact.filter_phone p t = [(k, c)].
Proof.
  intros Hu.
  pose proof (NoDup_map_to_list
                (filter (fun kc : nat * GlobalContactRow.t =>
                           GlobalContactRow.phone_number kc.2 = p) t)) as Hnd.
  pose proof (filter_phone_elem p t) as Helem.
  unfold GlobalContact.filter_phone in *.
  destruct (map_to_list _) as [|[k1 c1] [|[k2 c2] l]]; [auto | eauto |].
  exfalso.
  destruct (Helem k1 c1) as [H1 P1]; [apply list_elem_of_here|].
  destruct (Helem k2 c2) as [H2 P2]; [apply list_elem_of_further, list_elem_of_here|].
  assert (k1 = k2) as -> by (apply (Hu k1 k2 c1 c2); congruence).
  assert (c1 = c2) as -> by congruence.
  apply NoDup_cons in Hnd as [Hnot _]. apply Hnot. apply list_elem_of_here.
Qed.

(** X8: whatever the outcome of [User.save], directory entries of other phone
    numbers are exactly as before; in particular the entry of a phone number
    the account has just given up stays as it was. *)
Theorem User_save_other_entries
    (self : UserRow.instance) (w w' : World) (r : result UserRow.instance)
    (k : nat) (c : GlobalContactRow.t) :
  User.save self w = (r, w') ->
  global_contacts w !! k = Some c ->
  GlobalContactRow.phone_number c <> UserRow.phone_number self.2 ->
  global_contacts w' !! k = Some c.
Proof.
  intros Hsave Hk Hp.
  apply User_save_cases in Hsave
    as [(e & _ & -> & _)|(i & w1 & _ & _ & [(e & _ & ->)|[(_ & _ & ->)|(_ & k0 & c0 & Hf & ->)]])];
    try assumption.
  - rewrite lookup_insert_ne; [assumption|].
    intros <-. rewrite next_pk_fresh in Hk. discriminate.
  - destruct (filter_phone_elem (UserRow.phone_number self.2) (global_contacts w) k0 c0)
      as [Hk0 Hp0].
    { rewrite Hf. apply list_elem_of_here. }
    rewrite lookup_insert_ne; [assumption|]. intros <-. congruence.
Qed.

Lemma User_save_other_entries_witness :
  let stale := GlobalContactRow.mk "15550000000" "Ana Li" "1" true 0 0 None 90 (Some 1) in
  let w := mkWorld {[ 1 := Sample.ana_saved ]} {[ 1 := stale ]} 100 [] in
  let w' :=
    mkWorld {[ 1 := Sample.ana_saved ]}
      (<[ 2 := GlobalContactRow.mk "15551234567" "Ana Li" "1" true 0 0 None 100 None ]>
         {[ 1 := stale ]})
      100 [SaveUser 1; SaveGlobalContact 2] in
  User.save (Some 1, Sample.ana_saved) w = (Ok (Some 1, Sample.ana_saved), w') /\
  global_contacts w' !! 1 = Some stale.
Proof.
  intros stale w w'.
  assert (User.save (Some 1, Sample.ana_saved) w = (Ok (Some 1, Sample.ana_saved), w'))
    as Hsave by (vm_compute; reflexivity).
  split; [exact Hsave|].
  apply (User_save_other_entries (Some 1, Sample.ana_saved) w w'
           (Ok (Some 1, Sample.ana_saved)) 1 stale Hsave).
  - reflexivity.
  - discriminate.
Defined.

(** Whatever the outcome of [User.save], both [unique] constraints still
    hold. *)
Lemma User_save_store_ok (self : UserRow.instance) (w w' : World)
    (r : result UserRow.instance) :
  store_ok w -> User.save self w = (r, w') -> store_ok w'.
Proof.
  intros [Hu Hd] Hsave. unfold store_ok.
  apply User_save_cases in Hsave
    as [(e & _ & -> & _)|(i & w1 & Hsu & -> & Hcases)]; [auto|].
  pose proof (save_user_frame _ _ _ _ Hsu) as (_ & _ & _ & Hphone & _).
  apply save_user_insert_any in Hsu as (k & _ & -> & Hfree).
  split; [apply users_unique_insert; assumption|].
  destruct Hcases as [(e & _ & ->)|[(_ & Hf & ->)|(_ & k0 & c0 & Hf & ->)]];
    [assumption| |].
  - apply directory_unique_insert; [assumption|].
    intros k' c' Hk' Hp'. destruct (filter_phone_nil_inv _ _ k' c' Hf Hk'). exact Hp'.
  - destruct (filter_phone_elem (UserRow.phone_number self.2) (global_contacts w) k0 c0)
      as [Hk0 Hp0].
    { rewrite Hf. apply list_elem_of_here. }
    apply directory_unique_insert; [assumption|].
    intros k' c' Hk' Hp'. cbn [GlobalContactRow.phone_number] in Hp'.
    apply (Hd k' k0 c' c0 Hk' Hk0 Hp').
Qed.

(** The update branch of [User.save], for a lookup that found one entry. *)
Lemma User_save_found (self self' : UserRow.instance) (w w1 : World)
    (k : nat) (c : GlobalContactRow.t) :
  Model.save_user self w = (Ok self', w1) ->
  GlobalContact.filter_phone (UserRow.phone_number self.2) (global_contacts w) = [(k, c)] ->
  (forall k' c', global_contacts w !! k' = Some c' ->
     GlobalContactRow.phone_number c' = UserRow.phone_number self.2 -> k' = k) ->
  User.save self w =
    (Ok self',
     mkWorld (users w1)
       (<[k := GlobalContactRow.mk (GlobalContactRow.phone_number c)
                 (User.full_name self'.2) (UserRow.country_code self'.2) true
                 (GlobalContactRow.spam_count c) (GlobalContactRow.total_reports c)
                 (UserRow.email self'.2) (clock w) self'.1]> (global_contacts w))
       (clock w) (trace w1 ++ [SaveGlobalContact k])).
Proof.
  intros Hsave Hf Huniq.
  destruct (save_user_frame _ _ _ _ Hsave) as (Hgc & Hclock & _ & Hphone & _).
  destruct (filter_phone_elem _ _ k c ltac:(rewrite Hf; apply list_elem_of_here))
    as [Hk Hp].
  unfold User.save. cbv [mbind M_bind]. rewrite Hsave.
  unfold GlobalContact.get_or_create. cbv [mbind M_bind ask mret M_ret].
  rewrite Hgc, Hphone, Hf. cbv [negb].
  unfold Model.save_global_contact.
  cbv [mbind M_bind ask mret M_ret emit put_global_contacts raise].
  cbn [GlobalContactRow.phone_number]. rewrite Hgc.
  replace (Model.contact_phone_taken (GlobalContactRow.phone_number c) (Some k)
             (global_contacts w)) with false.
  - unfold Model.set_last_updated. simpl. rewrite Hclock. reflexivity.
  - symmetry. apply contact_phone_taken_false. intros k' c'' Hk' Hp'.
    f_equal. apply (Huniq k' c'' Hk'). congruence.
Qed.

(** In a directory with unique phone numbers [User.save] goes through
    whenever its [super().save()] step does, and leaves an entry that mirrors
    the saved account. *)
Lemma User_save_total (self self' : UserRow.instance) (w w1 : World) :
  directory_unique (global_contacts w) ->
  Model.save_user self w = (Ok self', w1) ->
  exists w' k c,
    User.save self w = (Ok self', w') /\
    users w' = users w1 /\
    directory_unique (global_contacts w') /\
    global_contacts w' !! k = Some c /\
    mirrors c self'.2.
Proof.
  intros Hd Hsave.
  destruct (save_user_frame _ _ _ _ Hsave) as (_ & _ & _ & Hphone & _ & _ & _ & _).
  destruct (filter_phone_unique (UserRow.phone_number self.2) (global_contacts w) Hd)
    as [Hf|(k & c & Hf)].
  - destruct (User_save_new_entry self self' w w1 Hsave) as [Hfresh Heq].
    { intros k c Hk. apply (filter_phone_nil_inv _ _ k c Hf Hk). }
    eexists. exists (next_pk (global_contacts w)). eexists.
    split; [exact Heq|]. cbn [users global_contacts].
    split; [reflexivity|]. split.
    + apply directory_unique_insert; [assumption|].
      intros k' c' Hk' Hp'. destruct (filter_phone_nil_inv _ _ k' c' Hf Hk'). exact Hp'.
    + split; [apply lookup_insert_eq|].
      pose proof (save_user_frame _ _ _ _ Hsave)
        as (_ & _ & _ & _ & Hfirst & Hlast & Hcc & Hmail).
      unfold mirrors, User.full_name. cbn. rewrite Hphone, Hfirst, Hlast, Hcc, Hmail.
      split_and!; reflexivity.
  - destruct (filter_phone_elem _ _ k c ltac:(rewrite Hf; apply list_elem_of_here))
      as [Hk Hp].
    assert (forall k' c', global_contacts w !! k' = Some c' ->
              GlobalContactRow.phone_number c' = UserRow.phone_number self.2 -> k' = k)
      as Huniq.
    { intros k' c' Hk' Hp'. apply (Hd k' k c' c Hk' Hk). congruence. }
    eexists. exists k. eexists.
    split; [apply (User_save_found self self' w w1 k c Hsave Hf Huniq)|].
    cbn [users global_contacts]. split; [reflexivity|]. split.
    + apply directory_unique_insert; [assumption|].
      intros k' c' Hk' Hp'. cbn [GlobalContactRow.phone_number] in Hp'.
      apply (Hd k' k c' c Hk' Hk Hp').
    + split; [apply lookup_insert_eq|].
      unfold mirrors. cbn. rewrite Hp, Hphone. split_and!; reflexivity.
Qed.

(** X9: in a directory with unique phone numbers, a save whose
    [super().save()] step succeeds succeeds as a whole, and afterwards the
    directory still has unique phone numbers and holds an entry that mirrors
    the saved account: same phone number, name "first last", the
    is-registered flag, the account's country code and email. *)
Theorem User_save_mirrors (self self' : UserRow.instance) (w w1 : World) :
  directory_unique (global_contacts w) ->
  Model.save_user self w = (Ok self', w1) ->
  exists w' k c,
    User.save self w = (Ok self', w') /\
    users w' = users w1 /\
    directory_unique (global_contacts w') /\
    global_contacts w' !! k = Some c /\
    mirrors c self'.2.
Proof. exact (User_save_total self self' w w1). Qed.

Lemma User_save_mirrors_witness :
  exists w' k c,
    User.save (None, Sample.ana) Sample.reported_world = (Ok (Some 1, Sample.ana_saved), w') /\
    users w' = {[ 1 := Sample.ana_saved ]} /\
    directory_unique (global_contacts w') /\
    global_contacts w' !! k = Some c /\
    mirrors c Sample.ana_saved.
Proof.
  destruct (User_save_mirrors (None, Sample.ana) (Some 1, Sample.ana_saved)
              Sample.reported_world
              (mkWorld {[ 1 := Sample.ana_saved ]} {[ 7 := Sample.reported ]} 100
                 [SaveUser 1]))
    as (w' & k & c & H1 & H2 & H3 & H4 & H5).
  - intros k1 k2 c1 c2 H1 H2 _. cbn [global_contacts Sample.reported_world] in H1, H2.
    apply lookup_singleton_Some in H1 as [<- _].
    apply lookup_singleton_Some in H2 as [<- _]. reflexivity.
  - vm_compute. reflexivity.
  - exists w', k, c. split_and!; assumption.
Defined.

(** ** The registration view, case by case *)

Lemma store_ok_tables (w w' : World) :
  users w' = users w -> global_contacts w' = global_contacts w ->
  store_ok w -> store_ok w'.
Proof. unfold store_ok. intros -> ->. auto. Qed.

(** The [password] member of the request plays no part in validation: it is
    not one of the serializer's fields. *)
Lemma to_internal_value_password (fw : Framework) (t : gmap nat UserRow.t)
    (pk : option nat) (partial : bool) (data : gmap string pyval) (v : pyval)
    (fs : list Serializer.Field)
    (ret : gmap string (option string)) (errors : gmap string (list string)) :
  (forall f, f ∈ fs -> f ∈ Serializer.writable_fields) ->
  Serializer.to_internal_value fw t pk partial fs (<[ "password" := v ]> data) ret errors =
  Serializer.to_internal_value fw t pk partial fs data ret errors.
Proof.
  revert ret errors. induction fs as [|f fs IH]; intros ret errors Hsub; [reflexivity|].
  simpl. rewrite run_field_password by (apply Hsub, list_elem_of_here).
  assert (forall g, g ∈ fs -> g ∈ Serializer.writable_fields) as Hsub'.
  { intros g Hg. apply Hsub, list_elem_of_further, Hg. }
  destruct (Serializer.run_field fw t pk partial data f) as [[|v0|d]|e];
    try reflexivity; apply IH; exact Hsub'.
Qed.

Lemma is_valid_password (fw : Framework) (t : gmap nat UserRow.t)
    (pk : option nat) (partial : bool) (data : gmap string pyval) (v : pyval) :
  Serializer.is_valid fw t pk partial (<[ "password" := v ]> data) =
  Serializer.is_valid fw t pk partial data.
Proof.
  unfold Serializer.is_valid. rewrite to_internal_value_password; auto.
Qed.

(** Every way [post] can end. *)
Lemma post_cases (fw : Framework) (data : gmap string pyval) (w w' : World)
    (r : result Response) :
  UserRegistrationAPIView.post fw data w = (r, w') ->
  let w0 :=
    mkWorld (users w) (global_contacts w) (clock w)
      (trace w ++ [MakePassword (UserRegistrationAPIView.get_str "password" data);
                   IsValid]) in
  (UserRegistrationAPIView.phone_exists (data !! "phone_number") (users w) = true /\
   r = Ok (mkResponse 400
             (JObj {[ "error" := JStr "A user with this phone number already exists." ]})) /\
   w' = w) \/
  (UserRegistrationAPIView.phone_exists (data !! "phone_number") (users w) = false /\
   ((exists e, Serializer.is_valid fw (users w) None false data = Raise e /\
               r = Raise e /\ w' = w0) \/
    (exists errors, Serializer.is_valid fw (users w) None false data = Ok (inl errors) /\
       w' = w0 /\
       match UserRegistrationAPIView.format_serializer_errors errors with
       | Ok details =>
           r = Ok (mkResponse 400
                     (JObj (<[ "error" := JStr "Validation failed." ]>
                              {[ "details" := details_json details ]})))
       | Raise e => r = Raise e
       end) \/
    (exists validated_data,
       Serializer.is_valid fw (users w) None false data = Ok (inr validated_data) /\
       match ModelSerializer.setattrs validated_data ModelSerializer.blank_user with
       | Ok u =>
           exists r', User.save (None, u) w0 = (r', w') /\
             match r' with
             | Ok _ =>
                 r = Ok (mkResponse 201
                           (JObj {[ "message" := JStr "User registered successfully." ]}))
             | Raise e => r = Raise e
             end
       | Raise e => r = Raise e /\ w' = w0
       end))).
Proof.
  unfold UserRegistrationAPIView.post.
  cbv [mbind M_bind ask emit lift mret M_ret]. cbn [users global_contacts clock trace].
  destruct (UserRegistrationAPIView.phone_exists _ _).
  { intros [= <- <-]. left. auto. }
  rewrite is_valid_password, <- app_assoc. cbn [app].
  intros H. right. split; [reflexivity|]. revert H.
  destruct (Serializer.is_valid fw (users w) None false data)
    as [[errors|validated_data]|e].
  - intros H. right. left. exists errors. split; [reflexivity|]. revert H.
    destruct (UserRegistrationAPIView.format_serializer_errors errors);
      intros [= <- <-]; auto.
  - intros H. right. right. exists validated_data. split; [reflexivity|]. revert H.
    unfold ModelSerializer.create. cbv [mbind M_bind lift].
    destruct (ModelSerializer.setattrs validated_data ModelSerializer.blank_user) as [u|e].
    + destruct (User.save (None, u) _) as [[i|e] w3] eqn:Hsave;
        cbv [mret M_ret]; intros [= <- <-]; eexists; (split; [reflexivity|]); reflexivity.
    + intros [= <- <-]. auto.
  - intros [= <- <-]. left. eauto.
Qed.

(** X1: when the duplicate check does not fire and the serializer reports
    failures, registration answers 400 with "Validation failed." and a
    details map that gives every failing field the first message of its
    list; nothing is written. *)
Theorem post_invalid (fw : Framework) (data : gmap string pyval) (w : World)
    (errors : gmap string (list string)) :
  UserRegistrationAPIView.phone_exists (data !! "phone_number") (users w) = false ->
  Serializer.is_valid fw (users w) None false data = Ok (inl errors) ->
  exists details : gmap string string,
    UserRegistrationAPIView.post fw data w =
      (Ok (mkResponse 400
             (JObj (<[ "error" := JStr "Validation failed." ]>
                      {[ "details" := JObj (JStr <$> details) ]}))),
       mkWorld (users w) (global_contacts w) (clock w)
         (trace w ++ [MakePassword (UserRegistrationAPIView.get_str "password" data);
                      IsValid]))
    /\ (forall n, details !! n = errors !! n ≫= head)
    /\ dom details = dom errors.
Proof.
  intros Hnew Hv.
  destruct (first_messages_ok errors (is_valid_errors_nonempty _ _ _ _ _ _ Hv))
    as (details & Hfm & Hlook).
  exists details.
  destruct (UserRegistrationAPIView.post fw data w) as [r w'] eqn:Hpost.
  apply post_cases in Hpost
    as [(Hdup & _)|(_ & [(e & He & _)|[(errors' & He & -> & Hr)|(vd & He & _)]])];
    try congruence.
  assert (errors' = errors) as -> by congruence.
  unfold UserRegistrationAPIView.format_serializer_errors in Hr. rewrite Hfm in Hr.
  subst r. split; [reflexivity|]. split; [exact Hlook|].
  apply set_eq. intros n. rewrite !elem_of_dom, Hlook.
  destruct (errors !! n) as [d|] eqn:Hn; simpl.
  - destruct d as [|m d].
    + destruct (is_valid_errors_nonempty _ _ _ _ _ _ Hv n [] Hn). reflexivity.
    + simpl. split; eauto.
  - split; intros [? [=]].
Qed.

Lemma post_invalid_witness :
  exists details : gmap string string,
    UserRegistrationAPIView.post framework0
      (<[ "phone_number" := PStr "12a" ]> Sample.ana_request) Sample.empty_world =
      (Ok (mkResponse 400
             (JObj (<[ "error" := JStr "Validation failed." ]>
                      {[ "details" := JObj (JStr <$> details) ]}))),
       mkWorld ∅ ∅ 100 [MakePassword (Some "x"); IsValid])
    /\ details !! "phone_number" = Some "Phone number must be numeric.".
Proof.
  destruct (post_invalid framework0
              (<[ "phone_number" := PStr "12a" ]> Sample.ana_request) Sample.empty_world
              {[ "phone_number" := ["Phone number must be numeric."] ]})
    as (details & Hpost & Hlook & _).
  - reflexivity.
  - vm_compute. reflexivity.
  - exists details. split; [exact Hpost|]. rewrite Hlook. reflexivity.
Defined.

(** X5: a registration that is answered 400 leaves both tables as they
    were. *)
Theorem post_400_writes_nothing (fw : Framework) (data : gmap string pyval)
    (w w' : World) (response : Response) :
  UserRegistrationAPIView.post fw data w = (Ok response, w') ->
  status response = 400 ->
  users w' = users w /\ global_contacts w' = global_contacts w.
Proof.
  intros Hpost Hstatus.
  apply post_cases in Hpost
    as [(_ & _ & ->)|(_ & [(e & _ & [=] & _)|[(errors & _ & -> & _)|(vd & _ & Hr)]])];
    auto.
  destruct (ModelSerializer.setattrs vd ModelSerializer.blank_user) as [u|e].
  - destruct Hr as (r' & _ & Hr). destruct r' as [i|e]; [|discriminate].
    injection Hr as ->. discriminate.
  - destruct Hr as [[=] _].
Qed.

Lemma post_400_writes_nothing_witness :
  let w' := mkWorld ∅ ∅ 100 [MakePassword (Some "x"); IsValid] in
  users w' = users Sample.empty_world /\
  global_contacts w' = global_contacts Sample.empty_world.
Proof.
  intros w'.
  apply (post_400_writes_nothing framework0
           (<[ "phone_number" := PStr "12a" ]> Sample.ana_request) Sample.empty_world w'
           (mkResponse 400
              (JObj (<[ "error" := JStr "Validation failed." ]>
                       {[ "details" :=
                            JObj {[ "phone_number" := JStr "Phone number must be numeric." ]} ]})))).
  - vm_compute. reflexivity.
  - reflexivity.
Defined.

(** A raising loop was left by one of its fields. *)
Lemma to_internal_value_raise (fw : Framework) (t : gmap nat UserRow.t)
    (pk : option nat) (partial : bool) (data : gmap string pyval)
    (fs : list Serializer.Field)
    (ret : gmap string (option string)) (errors : gmap string (list string)) (e : exn) :
  Serializer.to_internal_value fw t pk partial fs data ret errors = Raise e ->
  exists f, f ∈ fs /\ Serializer.run_field fw t pk partial data f = Raise e.
Proof.
  revert ret errors. induction fs as [|f fs IH]; intros ret errors; simpl; [discriminate|].
  destruct (Serializer.run_field fw t pk partial data f) as [[|v|d]|e'] eqn:E.
  - intros (g & Hg & Hr)%IH. exists g. split; [apply list_elem_of_further|]; assumption.
  - intros (g & Hg & Hr)%IH. exists g. split; [apply list_elem_of_further|]; assumption.
  - intros (g & Hg & Hr)%IH. exists g. split; [apply list_elem_of_further|]; assumption.
  - intros [= <-]. exists f. split; [apply list_elem_of_here | exact E].
Qed.

(** A [null] email makes validation raise [TypeError], for a full and for a
    partial serializer alike. *)
Lemma is_valid_null_email (fw : Framework) (t : gmap nat UserRow.t)
    (pk : option nat) (partial : bool) (data : gmap string pyval) :
  data !! "email" = Some PNone ->
  Serializer.is_valid fw t pk partial data = Raise TypeError.
Proof.
  intros Hmail. unfold Serializer.is_valid.
  destruct (Serializer.to_internal_value _ _ _ _ _ _ _ _) as [[ret errors]|e] eqn:E.
  - exfalso.
    assert (Serializer.mkField "email" false true true 254 false true
              "Email is required." "Enter a valid email address."
            ∈ Serializer.writable_fields) as Hin.
    { rewrite writable_fields_eq. do 6 apply list_elem_of_further. apply list_elem_of_here. }
    pose proof (to_internal_value_field fw t pk partial data Serializer.writable_fields
                  _ _ _ _ _ writable_fields_NoDup Hin E) as H.
    unfold Serializer.run_field, Serializer.run_validation in H.
    cbn [Serializer.field_name Serializer.allow_null] in H. rewrite Hmail in H.
    exact H.
  - apply to_internal_value_raise in E as (f & Hf & Hr). f_equal.
    pose proof (run_field_raise _ _ _ _ _ _ _ Hr) as (Hnull & Hallow & [Hn|Hn]).
    + apply writable_fields_names in Hf as [_ Hf]. rewrite (Hf Hn) in Hallow. discriminate.
    + revert Hr. unfold Serializer.run_field, Serializer.run_validation.
      rewrite Hnull, Hallow, Hn. cbn. intros [= <-]. reflexivity.
Qed.

(** X2: a registration whose email is [null] and whose phone number is not
    registered ends in a [TypeError] raised by [validate_email]; the password
    has been hashed, and nothing is written. *)
Theorem post_null_email (fw : Framework) (data : gmap string pyval) (w : World) :
  data !! "email" = Some PNone ->
  UserRegistrationAPIView.phone_exists (data !! "phone_number") (users w) = false ->
  UserRegistrationAPIView.post fw data w =
    (Raise TypeError,
     mkWorld (users w) (global_contacts w) (clock w)
       (trace w ++ [MakePassword (UserRegistrationAPIView.get_str "password" data);
                    IsValid])).
Proof.
  intros Hmail Hnew.
  pose proof (is_valid_null_email fw (users w) None false data Hmail) as Hv.
  destruct (UserRegistrationAPIView.post fw data w) as [r w'] eqn:Hpost.
  apply post_cases in Hpost
    as [(Hdup & _)|(_ & [(e & He & -> & ->)|[(errors' & He & _)|(vd & He & _)]])];
    congruence.
Qed.

Lemma post_null_email_witness :
  UserRegistrationAPIView.post framework0 (<[ "email" := PNone ]> Sample.ana_request)
    Sample.empty_world =
  (Raise TypeError, mkWorld ∅ ∅ 100 [MakePassword (Some "x"); IsValid]).
Proof.
  etransitivity.
  - apply (post_null_email framework0 (<[ "email" := PNone ]> Sample.ana_request)
             Sample.empty_world); reflexivity.
  - vm_compute. reflexivity.
Defined.

(** [setattrs] never touches the password or the registration time. *)
Lemma setattrs_kept (validated_data : gmap string (option string)) (u u' : UserRow.t) :
  ModelSerializer.setattrs validated_data u = Ok u' ->
  UserRow.password u' = UserRow.password u /\
  UserRow.date_joined u' = UserRow.date_joined u.
Proof.
  unfold ModelSerializer.setattrs.
  destruct (ModelSerializer.not_null "first_name" _ _); [|discriminate].
  destruct (ModelSerializer.not_null "last_name" _ _); [|discriminate].
  destruct (ModelSerializer.not_null "phone_number" _ _); [|discriminate].
  destruct (ModelSerializer.not_null "country_code" _ _); [|discriminate].
  intros [= <-]. auto.
Qed.

(** X3: a registration answered 201 has inserted exactly one account, under
    a key that was free, and changed no other account; the stored password
    of the new account is the empty string whatever password the request
    carried (the digest [post] computes is not among the serializer's
    fields), and its registration time is the clock. *)
Theorem post_created (fw : Framework) (data : gmap string pyval)
    (w w' : World) (response : Response) :
  UserRegistrationAPIView.post fw data w = (Ok response, w') ->
  status response = 201 ->
  exists u,
    users w !! next_pk (users w) = None /\
    users w' = <[next_pk (users w) := u]> (users w) /\
    UserRow.password u = "" /\
    UserRow.date_joined u = Some (clock w).
Proof.
  intros Hpost Hstatus.
  apply post_cases in Hpost
    as [(_ & Hr & _)|(_ & [(e & _ & [=] & _)|[(errors & _ & _ & Hr)|(vd & _ & Hr)]])].
  { injection Hr as ->. discriminate. }
  { destruct (UserRegistrationAPIView.format_serializer_errors errors);
      [injection Hr as ->|]; discriminate. }
  destruct (ModelSerializer.setattrs vd ModelSerializer.blank_user) as [u0|e] eqn:Hset;
    [|destruct Hr as [[=] _]].
  destruct Hr as ([i|e] & Hsave & Hr); [|discriminate].
  apply User_save_users in Hsave as (w1 & Hsave & ->).
  apply save_user_insert in Hsave as [-> ->]. cbn [users clock].
  apply setattrs_kept in Hset as [Hpw _].
  eexists. split; [apply next_pk_fresh|]. split; [reflexivity|].
  split; [exact Hpw | reflexivity].
Qed.

Lemma post_created_witness :
  exists u,
    users Sample.empty_world !! next_pk (users Sample.empty_world) = None /\
    {[ 1 := Sample.ana_saved ]} =
      <[next_pk (users Sample.empty_world) := u]> (users Sample.empty_world) /\
    UserRow.password u = "" /\
    UserRow.date_joined u = Some (clock Sample.empty_world).
Proof.
  destruct (post_created framework0 Sample.ana_request Sample.empty_world
              (mkWorld {[ 1 := Sample.ana_saved ]}
                 {[ 1 := GlobalContactRow.mk "15551234567" "Ana Li" "1" true 0 0 None 100
                           None ]}
                 100 [MakePassword (Some "x"); IsValid; SaveUser 1; SaveGlobalContact 1])
              (mkResponse 201
                 (JObj {[ "message" := JStr "User registered successfully." ]})))
    as (u & H1 & H2 & H3 & H4).
  - vm_compute. reflexivity.
  - reflexivity.
  - exists u. split_and!; assumption.
Defined.

Lemma run_validators_nil (fw : Framework) (t : gmap nat UserRow.t) (pk : option nat)
    (f : Serializer.Field) (v : string) :
  Serializer.run_validators fw t pk f v = [] ->
  (Serializer.unique f = true -> Model.user_phone_taken v pk t = false) /\
  (String.length v <= Serializer.max_length f)%nat /\
  (Serializer.is_email f = true -> EmailValidator fw v = true).
Proof.
  unfold Serializer.run_validators.
  intros (H1 & (H2 & (_ & H4)%app_eq_nil)%app_eq_nil)%app_eq_nil.
  split_and!.
  - intros Hu. rewrite Hu in H1. simpl in H1.
    destruct (Model.user_phone_taken v pk t); [discriminate | reflexivity].
  - destruct (Nat.ltb_spec (Serializer.max_length f) (String.length v));
      [discriminate | assumption].
  - intros He. rewrite He in H4. simpl in H4.
    destruct (EmailValidator fw v); [reflexivity | discriminate].
Qed.

(** What validation has checked about a string it kept. *)
Lemma is_valid_value (fw : Framework) (t : gmap nat UserRow.t) (pk : option nat)
    (partial : bool) (data : gmap string pyval)
    (validated_data : gmap string (option string)) (f : Serializer.Field) (v : string) :
  Serializer.is_valid fw t pk partial data = Ok (inr validated_data) ->
  f ∈ Serializer.writable_fields ->
  validated_data !! Serializer.field_name f = Some (Some v) ->
  ((v = "" /\ Serializer.allow_blank f = true) \/
   (v <> "" /\ Serializer.run_validators fw t pk f v = [])) /\
  Serializer.validate_method (Serializer.field_name f) (Some v) = Ok (Some v).
Proof.
  unfold Serializer.is_valid.
  destruct (Serializer.to_internal_value _ _ _ _ _ _ _ _) as [[ret errors]|e] eqn:E;
    [|discriminate].
  destruct (bool_decide_reflect (errors = ∅)) as [->|]; intros [= <-]; intros Hf Hv.
  pose proof (to_internal_value_field _ _ _ _ _ _ f _ _ _ _
                writable_fields_NoDup Hf E) as H.
  destruct (Serializer.run_field fw t pk partial data f) as [[|v'|d]|e] eqn:Er.
  - destruct H as [H _]. rewrite H, lookup_empty in Hv. discriminate.
  - destruct H as [H _]. rewrite H in Hv. injection Hv as ->.
    revert Er. unfold Serializer.run_field.
    destruct (Serializer.run_validation _ _ _ _ f _) as [|v0|d] eqn:Ev; try discriminate.
    destruct (Serializer.validate_method _ v0) as [v1|[]] eqn:Em; try discriminate.
    intros [= ->]. pose proof (validate_method_ok _ _ _ Em) as <-.
    split; [|exact Em].
    revert Ev. unfold Serializer.run_validation.
    destruct (data !! Serializer.field_name f) as [[|s]|].
    + destruct (Serializer.allow_null f); discriminate.
    + destruct (String.eqb s "" || String.eqb (Py.strip s) "") eqn:Eb.
      * destruct (Serializer.allow_blank f); [|discriminate]. intros [= <-]. auto.
      * destruct (Serializer.run_validators fw t pk f (Py.strip s)) eqn:Erv;
          [|discriminate].
        intros [= <-]. right. split; [|exact Erv].
        apply orb_false_iff in Eb as [_ Eb]. apply String.eqb_neq in Eb. exact Eb.
    + destruct partial; [discriminate|]. destruct (Serializer.required f); discriminate.
  - destruct H as [_ H]. rewrite lookup_empty in H. discriminate.
  - destruct H.
Qed.

(** What validation has checked about a string the request supplied. *)
Lemma is_valid_supplied (fw : Framework) (t : gmap nat UserRow.t) (pk : option nat)
    (partial : bool) (data : gmap string pyval)
    (validated_data : gmap string (option string)) (f : Serializer.Field) (s : string) :
  Serializer.is_valid fw t pk partial data = Ok (inr validated_data) ->
  f ∈ Serializer.writable_fields ->
  data !! Serializer.field_name f = Some (PStr s) ->
  ((Py.strip s = "" /\ Serializer.allow_blank f = true) \/
   (Py.strip s <> "" /\ Serializer.run_validators fw t pk f (Py.strip s) = [])) /\
  Serializer.validate_method (Serializer.field_name f) (Some (Py.strip s)) =
    Ok (Some (Py.strip s)).
Proof.
  intros Hv Hf Hd. pose proof (is_valid_field _ _ _ _ _ _ f Hv Hf) as H.
  rewrite Hd in H. apply (is_valid_value _ _ _ _ _ _ f _ Hv Hf H).
Qed.

Lemma validate_phone_ok (v : string) :
  Serializer.validate_method "phone_number" (Some v) = Ok (Some v) ->
  Py.isdigit v = true.
Proof.
  unfold Serializer.validate_method. cbn [String.eqb Ascii.eqb Bool.eqb].
  unfold UserSerializer.validate_phone_number.
  destruct (Py.isdigit v); [reflexivity | discriminate].
Qed.

Lemma validate_email_ok (v : string) :
  Serializer.validate_method "email" (Some v) = Ok (Some v) ->
  Py.contains "@example.com" v = false.
Proof.
  unfold Serializer.validate_method. cbn [String.eqb Ascii.eqb Bool.eqb].
  unfold UserSerializer.validate_email.
  destruct (Py.contains "@example.com" v); [discriminate | reflexivity].
Qed.

(** X4: the account a registration answered 201 has created holds a phone
    number that is not empty, made of digits only, at most 15 characters long
    and held by no earlier account; a first name, last name and country code
    that are not empty and at most 50, 50 and 5 characters long; and, if it
    has an email, one in which [@example.com] does not occur. *)
Theorem post_created_valid (fw : Framework) (data : gmap string pyval)
    (w w' : World) (response : Response) :
  UserRegistrationAPIView.post fw data w = (Ok response, w') ->
  status response = 201 ->
  exists u,
    users w' !! next_pk (users w) = Some u /\
    Py.isdigit (UserRow.phone_number u) = true /\
    (String.length (UserRow.phone_number u) <= 15)%nat /\
    (forall k u0, users w !! k = Some u0 ->
       UserRow.phone_number u0 <> UserRow.phone_number u) /\
    (UserRow.first_name u <> "" /\ (String.length (UserRow.first_name u) <= 50)%nat) /\
    (UserRow.last_name u <> "" /\ (String.length (UserRow.last_name u) <= 50)%nat) /\
    (UserRow.country_code u <> "" /\ (String.length (UserRow.country_code u) <= 5)%nat) /\
    (forall e, UserRow.email u = Some e ->
       Py.contains "@example.com" e = false /\ (String.length e <= 254)%nat).
Proof.
  intros Hpost Hstatus.
  apply post_cases in Hpost
    as [(_ & Hr & _)|(_ & [(e & _ & [=] & _)|[(errors & _ & _ & Hr)|(vd & Hv & Hr)]])].
  { injection Hr as ->. discriminate. }
  { destruct (UserRegistrationAPIView.format_serializer_errors errors);
      [injection Hr as ->|]; discriminate. }
  destruct (ModelSerializer.setattrs vd ModelSerializer.blank_user) as [u0|e] eqn:Hset;
    [|destruct Hr as [[=] _]].
  destruct Hr as ([i|e] & Hsave & Hr); [|discriminate].
  apply User_save_users in Hsave as (w1 & Hsave & ->).
  apply save_user_insert in Hsave as [-> ->]. cbn [users clock].
  destruct (registration_row _ _ _ _ _ Hv Hset)
    as ((first & Dfirst & Hfirst) & (last & Dlast & Hlast) & (phone & Dphone & Hphone) &
        (cc & Dcc & Hcc) & _ & _ & Hmail & _).
  assert (forall f, f ∈ Serializer.writable_fields -> forall s,
            data !! Serializer.field_name f = Some (PStr s) ->
            ((Py.strip s = "" /\ Serializer.allow_blank f = true) \/
             (Py.strip s <> "" /\
              Serializer.run_validators fw (users w) None f (Py.strip s) = [])) /\
            Serializer.validate_method (Serializer.field_name f) (Some (Py.strip s)) =
              Ok (Some (Py.strip s))) as Hsup.
  { intros f Hf s Hs. apply (is_valid_supplied _ _ _ _ _ _ f s Hv Hf Hs). }
  rewrite writable_fields_eq in Hsup.
  eexists. split; [apply lookup_insert_eq|].
  cbn [Model.set_date_joined UserRow.phone_number UserRow.first_name UserRow.last_name
       UserRow.country_code UserRow.email].
  rewrite Hfirst, Hlast, Hphone, Hcc, Hmail.
  split_and!.
  - destruct (Hsup _ ltac:(do 4 apply list_elem_of_further; apply list_elem_of_here)
                phone Dphone) as [_ Hm].
    apply validate_phone_ok. exact Hm.
  - destruct (Hsup _ ltac:(do 4 apply list_elem_of_further; apply list_elem_of_here)
                phone Dphone) as [[[_ [=]]|[_ Hrv]] _].
    apply run_validators_nil in Hrv as (_ & Hlen & _). exact Hlen.
  - destruct (Hsup _ ltac:(do 4 apply list_elem_of_further; apply list_elem_of_here)
                phone Dphone) as [[[_ [=]]|[_ Hrv]] _].
    apply run_validators_nil in Hrv as (Hfree & _ & _). specialize (Hfree eq_refl).
    intros k other Hk Hp.
    assert (Model.user_phone_taken (Py.strip phone) None (users w) = true) as E.
    { apply user_phone_taken_true. exists k, other.
      split_and!; [assumption..|discriminate]. }
    congruence.
  - destruct (Hsup _ ltac:(do 1 apply list_elem_of_further; apply list_elem_of_here)
                first Dfirst) as [[[_ [=]]|[Hne _]] _].
    exact Hne.
  - destruct (Hsup _ ltac:(do 1 apply list_elem_of_further; apply list_elem_of_here)
                first Dfirst) as [[[_ [=]]|[_ Hrv]] _].
    apply run_validators_nil in Hrv as (_ & Hlen & _). exact Hlen.
  - destruct (Hsup _ ltac:(do 2 apply list_elem_of_further; apply list_elem_of_here)
                last Dlast) as [[[_ [=]]|[Hne _]] _].
    exact Hne.
  - destruct (Hsup _ ltac:(do 2 apply list_elem_of_further; apply list_elem_of_here)
                last Dlast) as [[[_ [=]]|[_ Hrv]] _].
    apply run_validators_nil in Hrv as (_ & Hlen & _). exact Hlen.
  - destruct (Hsup _ ltac:(do 5 apply list_elem_of_further; apply list_elem_of_here)
                cc Dcc) as [[[_ [=]]|[Hne _]] _].
    exact Hne.
  - destruct (Hsup _ ltac:(do 5 apply list_elem_of_further; apply list_elem_of_here)
                cc Dcc) as [[[_ [=]]|[_ Hrv]] _].
    apply run_validators_nil in Hrv as (_ & Hlen & _). exact Hlen.
  - intros e He. destruct (data !! "email") as [[|s]|] eqn:Dmail; try discriminate.
    injection He as <-.
    destruct (Hsup _ ltac:(do 6 apply list_elem_of_further; apply list_elem_of_here)
                s Dmail) as [Hlen Hm].
    split; [apply validate_email_ok; exact Hm|].
    destruct Hlen as [[-> _]|[_ Hrv]]; [simpl; lia|].
    apply run_validators_nil in Hrv as (_ & Hlen & _). exact Hlen.
Qed.

Lemma post_created_valid_witness :
  exists u,
    ({[ 1 := Sample.ana_saved ]} : gmap nat UserRow.t) !! next_pk (users Sample.empty_world)
      = Some u /\
    Py.isdigit (UserRow.phone_number u) = true /\
    (String.length (UserRow.phone_number u) <= 15)%nat.
Proof.
  destruct (post_created_valid framework0 Sample.ana_request Sample.empty_world
              (mkWorld {[ 1 := Sample.ana_saved ]}
                 {[ 1 := GlobalContactRow.mk "15551234567" "Ana Li" "1" true 0 0 None 100
                           None ]}
                 100 [MakePassword (Some "x"); IsValid; SaveUser 1; SaveGlobalContact 1])
              (mkResponse 201
                 (JObj {[ "message" := JStr "User registered successfully." ]})))
    as (u & H1 & H2 & H3 & _).
  - vm_compute. reflexivity.
  - reflexivity.
  - exists u. split_and!; assumption.
Defined.

(** ** The profile view, case by case *)

(** Every way [patch] can end. *)
Lemma patch_cases (fw : Framework) (user : UserRow.instance)
    (data : gmap string pyval) (w w' : World) (r : result Response) :
  UserProfileAPIView.patch fw user data w = (r, w') ->
  let w0 := mkWorld (users w) (global_contacts w) (clock w) (trace w ++ [IsValid]) in
  (exists e, Serializer.is_valid fw (users w) user.1 true data = Raise e /\
             r = Raise e /\ w' = w0) \/
  (exists errors, Serializer.is_valid fw (users w) user.1 true data = Ok (inl errors) /\
     w' = w0 /\
     r = Ok (mkResponse 400
               (JObj (<[ "error" := JStr "Validation failed." ]>
                        {[ "details" := JNull ]})))) \/
  (exists validated_data,
     Serializer.is_valid fw (users w) user.1 true data = Ok (inr validated_data) /\
     match ModelSerializer.setattrs validated_data user.2 with
     | Ok u =>
         exists r', User.save (user.1, u) w0 = (r', w') /\
           match r' with
           | Ok user' =>
               r = Ok (mkResponse 200
                         (JObj (<[ "message" := JStr "Profile updated successfully." ]>
                                  {[ "data" := ModelSerializer.to_representation user' ]})))
           | Raise e => r = Raise e
           end
     | Raise e => r = Raise e /\ w' = w0
     end).
Proof.
  destruct (Serializer.is_valid fw (users w) user.1 true data)
    as [[errors|validated_data]|e] eqn:Hv.
  - rewrite (patch_invalid fw user data w errors Hv). intros [= <- <-].
    right. left. eauto.
  - unfold UserProfileAPIView.patch.
    cbv [mbind M_bind ask emit lift mret M_ret]. cbn [users global_contacts clock trace].
    rewrite Hv. unfold ModelSerializer.update. cbv [mbind M_bind lift].
    intros H. right. right. exists validated_data. split; [reflexivity|]. revert H.
    destruct (ModelSerializer.setattrs validated_data user.2) as [u|e].
    + destruct (User.save (user.1, u) _) as [[i|e] w3] eqn:Hsave;
        cbv [mret M_ret]; intros [= <- <-]; eexists; (split; [reflexivity|]); reflexivity.
    + intros [= <- <-]. auto.
  - unfold UserProfileAPIView.patch.
    cbv [mbind M_bind ask emit lift mret M_ret]. cbn [users global_contacts clock trace].
    rewrite Hv. intros [= <- <-]. left. eauto.
Qed.

(** An update of a stored account rewrites its row and nothing else. *)
Lemma save_user_update (k : nat) (u old : UserRow.t) (i : UserRow.instance)
    (w w1 : World) :
  users w !! k = Some old ->
  Model.save_user (Some k, u) w = (Ok i, w1) ->
  i = (Some k, u) /\ users w1 = <[k := u]> (users w).
Proof.
  intros Hk. unfold Model.save_user.
  cbv [mbind M_bind ask mret M_ret emit put_users raise]. rewrite Hk.
  destruct (Model.user_phone_taken _ _ _); [discriminate|].
  intros [= <- <-]. auto.
Qed.

(** What a successful partial validation makes of the account: a supplied
    string replaces the field, stripped; a supplied [null] empties a nullable
    field; a field the request does not have keeps its value. *)
Lemma patch_row (fw : Framework) (t : gmap nat UserRow.t) (pk : option nat)
    (data : gmap string pyval) (validated_data : gmap string (option string))
    (u : UserRow.t) :
  Serializer.is_valid fw t pk true data = Ok (inr validated_data) ->
  let kept (name : string) (old : string) : string :=
    match data !! name with
    | Some (PStr s) => Py.strip s
    | _ => old
    end in
  let kept_opt (name : string) (old : option string) : option string :=
    match data !! name with
    | Some (PStr s) => Some (Py.strip s)
    | Some PNone => None
    | None => old
    end in
  ModelSerializer.setattrs validated_data u =
    Ok (UserRow.mk
          (kept_opt "salutation" (UserRow.salutation u))
          (kept "first_name" (UserRow.first_name u))
          (kept "last_name" (UserRow.last_name u))
          (kept_opt "occupation" (UserRow.occupation u))
          (kept "phone_number" (UserRow.phone_number u))
          (kept "country_code" (UserRow.country_code u))
          (kept_opt "email" (UserRow.email u))
          (UserRow.password u)
          (UserRow.date_joined u)).
Proof.
  intros Hv kept kept_opt.
  assert (Forall
            (fun f =>
               match data !! Serializer.field_name f with
               | Some (PStr s) =>
                   validated_data !! Serializer.field_name f = Some (Some (Py.strip s))
               | Some PNone =>
                   validated_data !! Serializer.field_name f = Some None /\
                   Serializer.allow_null f = true
               | None =>
                   validated_data !! Serializer.field_name f = None /\
                   (true = true \/ Serializer.required f = false)
               end) Serializer.writable_fields) as Hall.
  { apply Forall_forall. intros f Hf. apply (is_valid_field _ _ _ _ _ _ f Hv Hf). }
  rewrite writable_fields_eq in Hall.
  apply Forall_cons in Hall as [Hsal Hall]. apply Forall_cons in Hall as [Hfirst Hall].
  apply Forall_cons in Hall as [Hlast Hall]. apply Forall_cons in Hall as [Hocc Hall].
  apply Forall_cons in Hall as [Hphone Hall]. apply Forall_cons in Hall as [Hcc Hall].
  apply Forall_cons in Hall as [Hmail _].
  cbn [Serializer.field_name Serializer.allow_null Serializer.required] in *.
  unfold kept, kept_opt.
  unfold ModelSerializer.setattrs, ModelSerializer.not_null, ModelSerializer.nullable.
  destruct (data !! "first_name") as [[|first]|];
    [destruct Hfirst; discriminate | rewrite Hfirst
     | destruct Hfirst as [-> _]].
  all: destruct (data !! "last_name") as [[|last]|];
    [destruct Hlast; discriminate | rewrite Hlast
     | destruct Hlast as [-> _]].
  all: destruct (data !! "phone_number") as [[|phone]|];
    [destruct Hphone; discriminate | rewrite Hphone
     | destruct Hphone as [-> _]].
  all: destruct (data !! "country_code") as [[|cc]|];
    [destruct Hcc; discriminate | rewrite Hcc
     | destruct Hcc as [-> _]].
  all: destruct (data !! "salutation") as [[|?]|];
    [destruct Hsal as [-> _] | rewrite Hsal | destruct Hsal as [-> _]].
  all: destruct (data !! "occupation") as [[|?]|];
    [destruct Hocc as [-> _] | rewrite Hocc | destruct Hocc as [-> _]].
  all: destruct (data !! "email") as [[|?]|];
    [destruct Hmail as [-> _] | rewrite Hmail | destruct Hmail as [-> _]].
  all: reflexivity.
Qed.

(** After a successful partial validation the account's phone number, as
    updated, is held by no other account. *)
Lemma patch_phone_free (fw : Framework) (t : gmap nat UserRow.t) (pk : nat)
    (data : gmap string pyval) (validated_data : gmap string (option string))
    (u : UserRow.t) :
  users_unique t -> t !! pk = Some u ->
  Serializer.is_valid fw t (Some pk) true data = Ok (inr validated_data) ->
  Model.user_phone_taken
    (match data !! "phone_number" with
     | Some (PStr s) => Py.strip s
     | _ => UserRow.phone_number u
     end) (Some pk) t = false.
Proof.
  intros Hu Hk Hv.
  destruct (data !! "phone_number") as [[|s]|] eqn:Hd.
  1,3: apply not_true_is_false; intros (k' & u' & Hk' & Hp & Hne)%user_phone_taken_true;
       apply Hne; f_equal; apply (Hu k' pk u' u Hk' Hk Hp).
  assert (Serializer.mkField "phone_number" true false false 15 true false
            "Phone number is required." "Not a valid string."
          ∈ Serializer.writable_fields) as Hin.
  { rewrite writable_fields_eq. do 4 apply list_elem_of_further. apply list_elem_of_here. }
  destruct (is_valid_supplied _ _ _ _ _ _ _ s Hv Hin Hd) as [[[_ [=]]|[_ Hrv]] _].
  apply run_validators_nil in Hrv as (Hfree & _). apply Hfree. reflexivity.
Qed.

(** A PATCH of a stored account whose fields pass validation, in a store
    with unique phone numbers. *)
Lemma patch_valid_run (fw : Framework) (pk : nat) (u : UserRow.t)
    (data : gmap string pyval) (w : World)
    (validated_data : gmap string (option string)) :
  users w !! pk = Some u ->
  store_ok w ->
  Serializer.is_valid fw (users w) (Some pk) true data = Ok (inr validated_data) ->
  let kept (name : string) (old : string) : string :=
    match data !! name with
    | Some (PStr s) => Py.strip s
    | _ => old
    end in
  let kept_opt (name : string) (old : option string) : option string :=
    match data !! name with
    | Some (PStr s) => Some (Py.strip s)
    | Some PNone => None
    | None => old
    end in
  let u' :=
    UserRow.mk
      (kept_opt "salutation" (UserRow.salutation u))
      (kept "first_name" (UserRow.first_name u))
      (kept "last_name" (UserRow.last_name u))
      (kept_opt "occupation" (UserRow.occupation u))
      (kept "phone_number" (UserRow.phone_number u))
      (kept "country_code" (UserRow.country_code u))
      (kept_opt "email" (UserRow.email u))
      (UserRow.password u)
      (UserRow.date_joined u) in
  exists w',
    UserProfileAPIView.patch fw (Some pk, u) data w =
      (Ok (mkResponse 200
             (JObj (<[ "message" := JStr "Profile updated successfully." ]>
                      {[ "data" := ModelSerializer.to_representation (Some pk, u') ]}))),
       w') /\
    users w' = <[pk := u']> (users w).
Proof.
  intros Hk [Hu Hd] Hv kept kept_opt u'.
  pose proof (patch_row fw (users w) (Some pk) data validated_data u Hv) as Hset.
  pose proof (patch_phone_free fw (users w) pk data validated_data u Hu Hk Hv) as Hfree.
  cbv zeta in Hset. fold kept kept_opt in Hset. fold u' in Hset.
  set (w0 := mkWorld (users w) (global_contacts w) (clock w) (trace w ++ [IsValid])).
  assert (Model.save_user (Some pk, u') w0 =
            (Ok (Some pk, u'),
             mkWorld (<[pk := u']> (users w)) (global_contacts w) (clock w)
               ((trace w ++ [IsValid]) ++ [SaveUser pk]))) as Hsave.
  { unfold Model.save_user.
    cbv [mbind M_bind ask mret M_ret emit put_users raise]. cbn [users w0].
    change (UserRow.phone_number u') with (kept "phone_number" (UserRow.phone_number u)).
    unfold kept at 1. rewrite Hfree, Hk. reflexivity. }
  destruct (User_save_total (Some pk, u') (Some pk, u') w0 _ Hd Hsave)
    as (w' & _ & _ & Heq & Husers & _).
  exists w'. split; [|exact Husers].
  unfold UserProfileAPIView.patch.
  cbv [mbind M_bind ask emit lift mret M_ret]. cbn [users global_contacts clock trace fst snd].
  rewrite Hv. unfold ModelSerializer.update. cbv [mbind M_bind lift]. cbn [fst snd].
  rewrite Hset. fold w0. rewrite Heq. reflexivity.
Qed.

(** X6: for a stored account, in a store whose phone numbers are unique, a
    PATCH whose fields pass validation is answered 200 with the updated
    profile; the account's row is rewritten in place and no other account
    changes.  In the new row a supplied string replaces its field, with
    surrounding whitespace stripped; a supplied [null] empties salutation,
    occupation or email; every field the request does not have, the password
    and the registration time keep their values. *)
Theorem patch_valid (fw : Framework) (pk : nat) (u : UserRow.t)
    (data : gmap string pyval) (w : World)
    (validated_data : gmap string (option string)) :
  users w !! pk = Some u ->
  store_ok w ->
  Serializer.is_valid fw (users w) (Some pk) true data = Ok (inr validated_data) ->
  let kept (name : string) (old : string) : string :=
    match data !! name with
    | Some (PStr s) => Py.strip s
    | _ => old
    end in
  let kept_opt (name : string) (old : option string) : option string :=
    match data !! name with
    | Some (PStr s) => Some (Py.strip s)
    | Some PNone => None
    | None => old
    end in
  let u' :=
    UserRow.mk
      (kept_opt "salutation" (UserRow.salutation u))
      (kept "first_name" (UserRow.first_name u))
      (kept "last_name" (UserRow.last_name u))
      (kept_opt "occupation" (UserRow.occupation u))
      (kept "phone_number" (UserRow.phone_number u))
      (kept "country_code" (UserRow.country_code u))
      (kept_opt "email" (UserRow.email u))
      (UserRow.password u)
      (UserRow.date_joined u) in
  exists w',
    UserProfileAPIView.patch fw (Some pk, u) data w =
      (Ok (mkResponse 200
             (JObj (<[ "message" := JStr "Profile updated successfully." ]>
                      {[ "data" := ModelSerializer.to_representation (Some pk, u') ]}))),
       w') /\
    users w' = <[pk := u']> (users w).
Proof. exact (patch_valid_run fw pk u data w validated_data). Qed.

Lemma patch_valid_witness :
  let renamed :=
    UserRow.mk None "Anna" "Li" (Some "Engineer") "15551234567" "1" None "" (Some 100%Z) in
  exists w',
    UserProfileAPIView.patch framework0 (Some 1, Sample.ana_saved)
      (<[ "first_name" := PStr " Anna " ]> {[ "occupation" := PStr "Engineer" ]})
      Sample.ana_world =
      (Ok (mkResponse 200
             (JObj (<[ "message" := JStr "Profile updated successfully." ]>
                      {[ "data" := ModelSerializer.to_representation (Some 1, renamed) ]}))),
       w') /\
    users w' = {[ 1 := renamed ]}.
Proof.
  intros renamed.
  destruct (patch_valid framework0 1 Sample.ana_saved
              (<[ "first_name" := PStr " Anna " ]> {[ "occupation" := PStr "Engineer" ]})
              Sample.ana_world
              (<[ "first_name" := Some "Anna" ]> {[ "occupation" := Some "Engineer" ]}))
    as (w' & Hpatch & Husers).
  - reflexivity.
  - split.
    + intros k1 k2 u1 u2 H1 H2 _. cbn [users Sample.ana_world] in H1, H2.
      apply lookup_singleton_Some in H1 as [<- _].
      apply lookup_singleton_Some in H2 as [<- _]. reflexivity.
    + intros k1 k2 c1 c2 H1 H2 _. cbn [global_contacts Sample.ana_world] in H1, H2.
      apply lookup_singleton_Some in H1 as [<- _].
      apply lookup_singleton_Some in H2 as [<- _]. reflexivity.
  - vm_compute. reflexivity.
  - exists w'. split.
    + rewrite Hpatch. vm_compute. reflexivity.
    + rewrite Husers. vm_compute. reflexivity.
Defined.

(** X7: a PATCH whose email is [null] ends in a [TypeError] raised by
    [validate_email], and nothing is written. *)
Theorem patch_null_email (fw : Framework) (user : UserRow.instance)
    (data : gmap string pyval) (w : World) :
  data !! "email" = Some PNone ->
  UserProfileAPIView.patch fw user data w =
    (Raise TypeError,
     mkWorld (users w) (global_contacts w) (clock w) (trace w ++ [IsValid])).
Proof.
  intros Hmail.
  pose proof (is_valid_null_email fw (users w) user.1 true data Hmail) as Hv.
  destruct (UserProfileAPIView.patch fw user data w) as [r w'] eqn:Hpatch.
  apply patch_cases in Hpatch
    as [(e & He & -> & ->)|[(errors & He & _)|(vd & He & _)]]; congruence.
Qed.

Lemma patch_null_email_witness :
  UserProfileAPIView.patch framework0 (Some 1, Sample.ana_saved) {[ "email" := PNone ]}
    Sample.ana_world =
  (Raise TypeError,
   mkWorld (users Sample.ana_world) (global_contacts Sample.ana_world) 100 [IsValid]).
Proof.
  etransitivity.
  - apply (patch_null_email framework0 (Some 1, Sample.ana_saved) {[ "email" := PNone ]}
             Sample.ana_world). reflexivity.
  - reflexivity.
Defined.

(** ** [format_serializer_errors], in full *)

(** X15: the registration view's [format_serializer_errors] returns a map
    with the keys of [errors], each bound to the first element of its list,
    when every list has one; as soon as one list is empty it raises
    [IndexError], and it raises nothing else. *)
Theorem format_serializer_errors_spec (errors : gmap string (list string)) :
  match UserRegistrationAPIView.format_serializer_errors errors with
  | Ok (Some formatted) =>
      (forall n d, errors !! n = Some d -> d <> []) /\
      (forall n, formatted !! n = errors !! n ≫= head)
  | Ok None => False
  | Raise e => e = IndexError /\ exists n, errors !! n = Some []
  end.
Proof.
  unfold UserRegistrationAPIView.format_serializer_errors, first_messages.
  apply (map_fold_weak_ind
           (fun r (m : gmap string (list string)) =>
              match match r with
                    | Ok formatted_errors => Ok (Some formatted_errors)
                    | Raise e => Raise e
                    end with
              | Ok (Some formatted) =>
                  (forall n d, m !! n = Some d -> d <> []) /\
                  (forall n, formatted !! n = m !! n ≫= head)
              | Ok None => False
              | Raise e => e = IndexError /\ exists n, m !! n = Some []
              end)).
  - split; [intros n d H; rewrite lookup_empty in H; discriminate|].
    intros n. rewrite !lookup_empty. reflexivity.
  - intros i x m r Hi IH. destruct r as [formatted|e].
    + destruct IH as [Hne Hfm]. destruct x as [|m0 x].
      * split; [reflexivity|]. exists i. apply lookup_insert_eq.
      * split.
        -- intros n d [[_ <-]|[_ H]]%lookup_insert_Some; [discriminate | eauto].
        -- intros n. destruct (decide (n = i)) as [->|Hn].
           ++ rewrite !lookup_insert_eq. reflexivity.
           ++ rewrite !lookup_insert_ne by auto. apply Hfm.
    + destruct IH as [-> (n & Hn)]. split; [reflexivity|].
      exists n. rewrite lookup_insert_ne; [exact Hn|]. intros <-. congruence.
Qed.

(** X17: the profile a successful PATCH returns is the profile the next
    GET /profile/ returns for the account as it is then stored. *)
Theorem patch_then_get (fw : Framework) (pk : nat) (u : UserRow.t)
    (data : gmap string pyval) (w : World)
    (validated_data : gmap string (option string)) :
  users w !! pk = Some u ->
  store_ok w ->
  Serializer.is_valid fw (users w) (Some pk) true data = Ok (inr validated_data) ->
  exists w' u' profile,
    UserProfileAPIView.patch fw (Some pk, u) data w =
      (Ok (mkResponse 200
             (JObj (<[ "message" := JStr "Profile updated successfully." ]>
                      {[ "data" := profile ]}))),
       w') /\
    users w' !! pk = Some u' /\
    UserProfileAPIView.get (Some pk, u') w' = (Ok (mkResponse 200 profile), w').
Proof.
  intros Hk Hok Hv.
  destruct (patch_valid_run fw pk u data w validated_data Hk Hok Hv) as (w' & Hpatch & Husers).
  exists w'. eexists. eexists. split; [exact Hpatch|].
  split; [rewrite Husers; apply lookup_insert_eq | reflexivity].
Qed.

Lemma patch_then_get_witness :
  exists w' u' profile,
    UserProfileAPIView.patch framework0 (Some 1, Sample.ana_saved)
      {[ "occupation" := PStr "Engineer" ]} Sample.ana_world =
      (Ok (mkResponse 200
             (JObj (<[ "message" := JStr "Profile updated successfully." ]>
                      {[ "data" := profile ]}))),
       w') /\
    users w' !! 1 = Some u' /\
    UserProfileAPIView.get (Some 1, u') w' = (Ok (mkResponse 200 profile), w').
Proof.
  apply (patch_then_get framework0 1 Sample.ana_saved
           {[ "occupation" := PStr "Engineer" ]} Sample.ana_world
           {[ "occupation" := Some "Engineer" ]}).
  - reflexivity.
  - split.
    + intros k1 k2 u1 u2 H1 H2 _. cbn [users Sample.ana_world] in H1, H2.
      apply lookup_singleton_Some in H1 as [<- _].
      apply lookup_singleton_Some in H2 as [<- _]. reflexivity.
    + intros k1 k2 c1 c2 H1 H2 _. cbn [global_contacts Sample.ana_world] in H1, H2.
      apply lookup_singleton_Some in H1 as [<- _].
      apply lookup_singleton_Some in H2 as [<- _]. reflexivity.
  - vm_compute. reflexivity.
Defined.

(** ** The [unique] constraints across the views *)

Lemma post_store_ok (fw : Framework) (data : gmap string pyval) (w w' : World)
    (r : result Response) :
  store_ok w -> UserRegistrationAPIView.post fw data w = (r, w') -> store_ok w'.
Proof.
  intros Hok Hpost.
  apply post_cases in Hpost
    as [(_ & _ & ->)|(_ & [(e & _ & _ & ->)|[(errors & _ & -> & _)|(vd & _ & Hr)]])];
    try assumption; try (apply (store_ok_tables w); [reflexivity..|assumption]).
  destruct (ModelSerializer.setattrs vd ModelSerializer.blank_user) as [u|e].
  - destruct Hr as (r' & Hsave & _).
    eapply User_save_store_ok; [|exact Hsave].
    apply (store_ok_tables w); [reflexivity..|exact Hok].
  - destruct Hr as [_ ->]. apply (store_ok_tables w); [reflexivity..|assumption].
Qed.

Lemma patch_store_ok (fw : Framework) (user : UserRow.instance)
    (data : gmap string pyval) (w w' : World) (r : result Response) :
  store_ok w -> UserProfileAPIView.patch fw user data w = (r, w') -> store_ok w'.
Proof.
  intros Hok Hpatch.
  apply patch_cases in Hpatch
    as [(e & _ & _ & ->)|[(errors & _ & -> & _)|(vd & _ & Hr)]];
    try (apply (store_ok_tables w); [reflexivity..|assumption]).
  destruct (ModelSerializer.setattrs vd user.2) as [u|e].
  - destruct Hr as (r' & Hsave & _).
    eapply User_save_store_ok; [|exact Hsave].
    apply (store_ok_tables w); [reflexivity..|exact Hok].
  - destruct Hr as [_ ->]. apply (store_ok_tables w); [reflexivity..|assumption].
Qed.

(** Every way [create_user] can end. *)
Lemma create_user_cases (fw : Framework) (phone_number password : option string)
    (extra : extra_fields) (w w' : World) (r : raised + UserRow.instance) :
  CustomUserManager.create_user fw phone_number password extra w = (r, w') ->
  w' = w \/
  (users w' = users w /\ global_contacts w' = global_contacts w) \/
  exists self r' w0,
    users w0 = users w /\ global_contacts w0 = global_contacts w /\
    User.save self w0 = (r', w').
Proof.
  unfold CustomUserManager.create_user.
  destruct (CustomUserManager.falsy phone_number); [intros [= _ <-]; auto|].
  unfold CustomUserManager.model. cbv [mbind M_bind emit raise mret M_ret].
  destruct (bool_decide (unexpected extra = ∅)); [|intros [= _ <-]; auto].
  destruct (CustomUserManager.not_null_kw Column.first_name _);
    [|intros [= _ <-]; right; left; auto].
  destruct (CustomUserManager.not_null_kw Column.last_name _);
    [|intros [= _ <-]; right; left; auto].
  destruct (CustomUserManager.not_null_kw Column.country_code _);
    [|intros [= _ <-]; right; left; auto].
  destruct (User.save _ _) as [r' w1] eqn:Hsave.
  intros H. assert (w1 = w') as -> by (destruct r'; injection H; auto).
  right. right. eexists. exists r'. eexists.
  split; [|split; [|exact Hsave]]; reflexivity.
Qed.

Lemma create_user_store_ok (fw : Framework) (phone_number password : option string)
    (extra : extra_fields) (w w' : World) (r : raised + UserRow.instance) :
  store_ok w ->
  CustomUserManager.create_user fw phone_number password extra w = (r, w') ->
  store_ok w'.
Proof.
  intros Hok Hcreate.
  apply create_user_cases in Hcreate
    as [->|[[Hu Hd]|(self & r' & w0 & Hu & Hd & Hsave)]]; [assumption| |].
  - apply (store_ok_tables w); assumption.
  - eapply User_save_store_ok; [|exact Hsave].
    apply (store_ok_tables w); assumption.
Qed.

(** X10: registration, profile update and [create_user] keep both [unique]
    constraints, however they end: if no two accounts and no two directory
    entries shared a phone number before, none do afterwards. *)
Theorem unique_phones_kept :
  (forall fw data w w' r,
     store_ok w -> UserRegistrationAPIView.post fw data w = (r, w') -> store_ok w') /\
  (forall fw user data w w' r,
     store_ok w -> UserProfileAPIView.patch fw user data w = (r, w') -> store_ok w') /\
  (forall fw phone_number password extra w w' r,
     store_ok w ->
     CustomUserManager.create_user fw phone_number password extra w = (r, w') ->
     store_ok w').
Proof.
  split_and!.
  - intros fw data w w' r. apply post_store_ok.
  - intros fw user data w w' r. apply patch_store_ok.
  - intros fw phone_number password extra w w' r. apply create_user_store_ok.
Qed.

Lemma unique_phones_kept_witness :
  store_ok
    (mkWorld {[ 1 := Sample.ana_saved ]}
       {[ 1 := GlobalContactRow.mk "15551234567" "Ana Li" "1" true 0 0 None 100 None ]}
       100 [MakePassword (Some "x"); IsValid; SaveUser 1; SaveGlobalContact 1]).
Proof.
  apply (proj1 unique_phones_kept framework0 Sample.ana_request Sample.empty_world _
           (Ok (mkResponse 201
                  (JObj {[ "message" := JStr "User registered successfully." ]})))).
  - split.
    + intros k1 k2 u1 u2 H1. cbn [users Sample.empty_world] in H1.
      rewrite lookup_empty in H1. discriminate.
    + intros k1 k2 c1 c2 H1. cbn [global_contacts Sample.empty_world] in H1.
      rewrite lookup_empty in H1. discriminate.
  - vm_compute. reflexivity.
Defined.

(** ** [CustomUserManager] *)

(** X12: [create_user] with a phone number that is not empty and held by no
    account, no keyword that [User] does not know, and no [None] for first
    name, last name or country code, in a directory with unique phone
    numbers, returns the new account.  The account is inserted under a free
    key with the phone number exactly as given (it is neither stripped nor
    checked for digits), the digest of the password as its password and the
    clock as its registration time, and the directory holds an entry that
    mirrors it. *)
Theorem create_user_created (fw : Framework) (p : string) (password : option string)
    (extra : extra_fields) (w : World) :
  p <> "" ->
  unexpected extra = ∅ ->
  columns extra !! Column.first_name <> Some PNone ->
  columns extra !! Column.last_name <> Some PNone ->
  columns extra !! Column.country_code <> Some PNone ->
  (forall k u0, users w !! k = Some u0 -> UserRow.phone_number u0 <> p) ->
  directory_unique (global_contacts w) ->
  exists u w' k c,
    CustomUserManager.create_user fw (Some p) password extra w =
      (inr (Some (next_pk (users w)), u), w') /\
    users w' = <[next_pk (users w) := u]> (users w) /\
    UserRow.phone_number u = p /\
    UserRow.password u = make_password fw password /\
    UserRow.date_joined u = Some (clock w) /\
    global_contacts w' !! k = Some c /\
    mirrors c u.
Proof.
  intros Hp Hextra Hfirst Hlast Hcc Hfree Hd.
  unfold CustomUserManager.create_user, CustomUserManager.model.
  assert (CustomUserManager.falsy (Some p) = false) as ->.
  { simpl. apply String.eqb_neq. exact Hp. }
  rewrite bool_decide_eq_true_2 by exact Hextra.
  cbv [mbind M_bind emit raise mret M_ret]. cbn [default].
  unfold CustomUserManager.not_null_kw.
  set (first := match columns extra !! Column.first_name with
                | Some (PStr s) => s | _ => "" end).
  set (last := match columns extra !! Column.last_name with
               | Some (PStr s) => s | _ => "" end).
  set (cc := match columns extra !! Column.country_code with
             | Some (PStr s) => s | _ => "" end).
  replace (match columns extra !! Column.first_name with
           | Some PNone => Raise IntegrityError
           | Some (PStr s) => Ok s
           | None => Ok ""
           end) with (Ok first : result string)
    by (unfold first; destruct (columns extra !! Column.first_name) as [[|?]|]; congruence).
  replace (match columns extra !! Column.last_name with
           | Some PNone => Raise IntegrityError
           | Some (PStr s) => Ok s
           | None => Ok ""
           end) with (Ok last : result string)
    by (unfold last; destruct (columns extra !! Column.last_name) as [[|?]|]; congruence).
  replace (match columns extra !! Column.country_code with
           | Some PNone => Raise IntegrityError
           | Some (PStr s) => Ok s
           | None => Ok ""
           end) with (Ok cc : result string)
    by (unfold cc; destruct (columns extra !! Column.country_code) as [[|?]|]; congruence).
  cbv beta iota. change (id p) with p.
  set (u0 := UserRow.mk (CustomUserManager.nullable_kw Column.salutation (columns extra))
               first last
               (CustomUserManager.nullable_kw Column.occupation (columns extra))
               p cc
               (CustomUserManager.nullable_kw Column.email (columns extra))
               (make_password fw password) None).
  set (w0 := mkWorld (users w) (global_contacts w) (clock w)
               (trace w ++ [MakePassword password])).
  assert (Model.save_user (None, u0) w0 =
            (Ok (Some (next_pk (users w)), Model.set_date_joined (clock w) u0),
             mkWorld (<[next_pk (users w) := Model.set_date_joined (clock w) u0]> (users w))
               (global_contacts w) (clock w)
               ((trace w ++ [MakePassword password]) ++ [SaveUser (next_pk (users w))])))
    as Hsave.
  { unfold Model.save_user.
    cbv [mbind M_bind ask mret M_ret emit put_users raise]. cbn [users w0 u0 UserRow.phone_number].
    replace (Model.user_phone_taken p None (users w)) with false; [reflexivity|].
    symmetry. apply not_true_is_false.
    intros (k & other & Hk & Hother & _)%user_phone_taken_true.
    apply (Hfree k other Hk Hother). }
  destruct (User_save_total (None, u0) _ w0 _ Hd Hsave)
    as (w' & k & c & Heq & Husers & _ & Hk & Hmirror).
  exists (Model.set_date_joined (clock w) u0), w', k, c.
  rewrite Heq. split_and!; try reflexivity; assumption.
Qed.

Lemma create_user_created_witness :
  exists u w' k c,
    CustomUserManager.create_user framework0 (Some "+1 555") (Some "x")
      (mkExtra {[ Column.first_name := PStr "Ana" ]} ∅) Sample.empty_world =
      (inr (Some 1, u), w') /\
    UserRow.phone_number u = "+1 555" /\
    UserRow.password u = "!" /\
    global_contacts w' !! k = Some c /\
    mirrors c u.
Proof.
  destruct (create_user_created framework0 "+1 555" (Some "x")
              (mkExtra {[ Column.first_name := PStr "Ana" ]} ∅) Sample.empty_world)
    as (u & w' & k & c & H1 & _ & H3 & H4 & _ & H6 & H7).
  - discriminate.
  - reflexivity.
  - discriminate.
  - discriminate.
  - discriminate.
  - intros k u0 H. cbn [users Sample.empty_world] in H. rewrite lookup_empty in H.
    discriminate.
  - intros k1 k2 c1 c2 H. cbn [global_contacts Sample.empty_world] in H.
    rewrite lookup_empty in H. discriminate.
  - exists u, w', k, c. split_and!; assumption.
Defined.

(** X13: [create_superuser] never returns a user and writes nothing.  With a
    missing or empty phone number it raises [ValueError]; otherwise the two
    keywords it adds, [is_staff] and [is_superuser], are no fields of [User],
    and the constructor raises [TypeError]. *)
Theorem create_superuser_raises (fw : Framework) (phone_number password : option string)
    (extra : extra_fields) (w : World) :
  CustomUserManager.create_superuser fw phone_number password extra w =
    (inl (if CustomUserManager.falsy phone_number
          then ValueError "The Phone Number must be set"
          else Uncaught TypeError),
     w).
Proof.
  unfold CustomUserManager.create_superuser, CustomUserManager.create_user.
  destruct (CustomUserManager.falsy phone_number); [reflexivity|].
  unfold CustomUserManager.model. cbn [unexpected columns].
  rewrite bool_decide_eq_false_2; [reflexivity|].
  intros H. apply (f_equal (fun s : gset string => bool_decide ("is_superuser" ∈ s))) in H.
  rewrite bool_decide_eq_true_2 in H by set_solver.
  rewrite bool_decide_eq_false_2 in H by set_solver. discriminate.
Qed.

(** ** [__str__] *)

Lemma append_assoc (a b c : string) :
  String.append (String.append a b) c = String.append a (String.append b c).
Proof. induction a as [|x a IH]; simpl; [reflexivity | rewrite IH; reflexivity]. Qed.

(** X14: a directory entry that mirrors an account prints as the account
    does: "first last (country phone)". *)
Theorem str_mirrors (c : GlobalContactRow.t) (u : UserRow.t) :
  mirrors c u -> Str.GlobalContact c = Str.User u.
Proof.
  intros (Hphone & Hname & _ & Hcc & _).
  unfold Str.GlobalContact, Str.User. rewrite Hphone, Hname, Hcc.
  unfold User.full_name. rewrite !append_assoc. reflexivity.
Qed.

Lemma str_mirrors_witness :
  Str.GlobalContact
    (GlobalContactRow.mk "15551234567" "Ana Li" "1" true 0 0 None 100 None) =
  Str.User Sample.ana_saved.
Proof.
  apply (str_mirrors
           (GlobalContactRow.mk "15551234567" "Ana Li" "1" true 0 0 None 100 None)
           Sample.ana_saved).
  repeat split.
Defined.

(** ** [spam_likelihood], bounds *)

Section UnitInterval.

Local Open Scope Z_scope.

(** [iter_pos] is iteration over a natural number. *)
Lemma iter_pos_nat {A : Type} (f : A -> A) (p : positive) (x : A) :
  SpecFloat.iter_pos f p x = Nat.iter (Pos.to_nat p) f x.
Proof.
  revert x. induction p as [p IH|p IH|]; intros x; cbn [SpecFloat.iter_pos].
  - rewrite !IH, Pos2Nat.inj_xI.
    replace (S (2 * Pos.to_nat p))%nat with (Pos.to_nat p + S (Pos.to_nat p))%nat by lia.
    rewrite Nat.iter_add, Nat.iter_succ_r. reflexivity.
  - rewrite !IH, Pos2Nat.inj_xO.
    replace (2 * Pos.to_nat p)%nat with (Pos.to_nat p + Pos.to_nat p)%nat by lia.
    rewrite Nat.iter_add. reflexivity.
  - reflexivity.
Qed.

Lemma shr_1_div (mrs : shr_record) :
  0 <= shr_m mrs -> shr_m (shr_1 mrs) = shr_m mrs / 2.
Proof.
  destruct mrs as [m r s]. simpl. intros H.
  destruct m as [|[p|p|]|p]; simpl; try lia; try reflexivity.
  - rewrite Pos2Z.inj_xI. apply Z.div_unique with 1; lia.
  - rewrite Pos2Z.inj_xO. apply Z.div_unique with 0; lia.
Qed.

Lemma iter_shr_1_div (n : nat) (mrs : shr_record) :
  0 <= shr_m mrs ->
  shr_m (Nat.iter n shr_1 mrs) = shr_m mrs / 2 ^ Z.of_nat n.
Proof.
  intros H. induction n as [|n IH].
  - simpl. rewrite Z.div_1_r. reflexivity.
  - rewrite Nat.iter_succ, shr_1_div, IH.
    + rewrite Nat2Z.inj_succ, Z.pow_succ_r by lia.
      rewrite Z.div_div by (try apply Z.pow_pos_nonneg; lia).
      f_equal. lia.
    + rewrite IH. apply Z.div_pos; [lia | apply Z.pow_pos_nonneg; lia].
Qed.

Lemma iter_shr_1_exact (n : nat) (j : Z) :
  0 <= j ->
  Nat.iter n shr_1 (Build_shr_record (j * 2 ^ Z.of_nat n) false false) =
  Build_shr_record j false false.
Proof.
  intros Hj. induction n as [|n IH].
  - simpl. rewrite Z.mul_1_r. reflexivity.
  - rewrite Nat.iter_succ_r.
    assert (shr_1 (Build_shr_record (j * 2 ^ Z.of_nat (S n)) false false) =
            Build_shr_record (j * 2 ^ Z.of_nat n) false false) as ->; [|exact IH].
    rewrite Nat2Z.inj_succ, Z.pow_succ_r by lia.
    assert (0 <= j * 2 ^ Z.of_nat n) as H by (apply Z.mul_nonneg_nonneg; [|apply Z.pow_nonneg]; lia).
    replace (j * (2 * 2 ^ Z.of_nat n)) with (2 * (j * 2 ^ Z.of_nat n)) by lia.
    destruct (j * 2 ^ Z.of_nat n) as [|p|p]; [reflexivity|reflexivity|lia].
Qed.

(** Rounding a mantissa and exponent whose value is at most 1: the value
    stays at most 1 and the exponent stays non-positive.  When the value is
    exactly 1 the location has to be exact, or rounding would go up. *)
Lemma shr_fexp_unit (m e : Z) (l : location) :
  e <= 0 -> 0 <= m ->
  m < 2 ^ (- e) \/ (m = 2 ^ (- e) /\ l = loc_Exact) ->
  let '(mrs, e1) := shr_fexp 53 1024 m e l in
  e1 <= 0 /\
  0 <= round_nearest_even (shr_m mrs) (loc_of_shr_record mrs) <= 2 ^ (- e1).
Proof.
  intros He Hm Hle.
  assert (m <= 2 ^ (- e)) as Hle' by (destruct Hle as [|[-> _]]; lia).
  assert (0 < 2 ^ (- e)) as Hpow by (apply Z.pow_pos_nonneg; lia).
  assert (Zdigits2 m <= - e + 1) as Hd.
  { apply Zdigits2_le; [lia|]. rewrite Z.pow_add_r, Z.pow_1_r by lia. lia. }
  unfold shr_fexp, shr.
  destruct (fexp 53 1024 (Zdigits2 m + e) - e) as [|p|p] eqn:En.
  - split; [lia|].
    destruct Hle as [Hlt|[-> ->]]; [|cbn [shr_record_of_loc shr_m loc_of_shr_record round_nearest_even]; lia].
    destruct l as [|[]]; cbn [shr_record_of_loc shr_m loc_of_shr_record round_nearest_even]; try lia. destruct (Z.even m); lia.
  - assert (e + Z.pos p <= 0) as He1 by (unfold fexp, emin in En; lia).
    split; [exact He1|].
    rewrite iter_pos_nat.
    assert (0 < 2 ^ Z.pos p) as Hpp by (apply Z.pow_pos_nonneg; lia).
    assert (2 ^ (- e) = 2 ^ (- (e + Z.pos p)) * 2 ^ Z.pos p) as Hsplit.
    { rewrite <- Z.pow_add_r by lia. f_equal. lia. }
    destruct Hle as [Hlt|[-> ->]].
    + pose proof (iter_shr_1_div (Pos.to_nat p) (shr_record_of_loc m l)) as Hdiv.
      assert (shr_m (shr_record_of_loc m l) = m) as Hsm by (destruct l as [|[]]; reflexivity).
      rewrite Hsm, positive_nat_Z in Hdiv. specialize (Hdiv Hm).
      set (mrs := Nat.iter (Pos.to_nat p) shr_1 (shr_record_of_loc m l)) in *.
      assert (0 <= m / 2 ^ Z.pos p < 2 ^ (- (e + Z.pos p))) as Hq.
      { split; [apply Z.div_pos; lia|]. apply Z.div_lt_upper_bound; lia. }
      rewrite <- Hdiv in Hq.
      destruct (loc_of_shr_record mrs) as [|[]]; cbn [round_nearest_even]; try lia.
      destruct (Z.even (shr_m mrs)); lia.
    + pose proof (iter_shr_1_exact (Pos.to_nat p) (2 ^ (- (e + Z.pos p)))
                    ltac:(apply Z.pow_nonneg; lia)) as Hit.
      rewrite positive_nat_Z, <- Hsplit in Hit.
      cbn [shr_record_of_loc]. rewrite Hit.
      cbn [shr_m loc_of_shr_record round_nearest_even].
      pose proof (Z.pow_nonneg 2 (- (e + Z.pos p)) ltac:(lia)). lia.
  - split; [lia|].
    destruct Hle as [Hlt|[-> ->]]; [|cbn [shr_record_of_loc shr_m loc_of_shr_record round_nearest_even]; lia].
    destruct l as [|[]]; cbn [shr_record_of_loc shr_m loc_of_shr_record round_nearest_even]; try lia. destruct (Z.even m); lia.
Qed.

Lemma shr_fexp_unit_exact (m e : Z) :
  e <= 0 -> 0 <= m <= 2 ^ (- e) ->
  let '(mrs, e1) := shr_fexp 53 1024 m e loc_Exact in
  e1 <= 0 /\ 0 <= shr_m mrs <= 2 ^ (- e1).
Proof.
  intros He [Hm Hle].
  assert (0 < 2 ^ (- e)) as Hpow by (apply Z.pow_pos_nonneg; lia).
  assert (Zdigits2 m <= - e + 1) as Hd.
  { apply Zdigits2_le; [lia|]. rewrite Z.pow_add_r, Z.pow_1_r by lia. lia. }
  unfold shr_fexp, shr.
  destruct (fexp 53 1024 (Zdigits2 m + e) - e) as [|p|p] eqn:En; simpl; try lia.
  assert (e + Z.pos p <= 0) as He1 by (unfold fexp, emin in En; lia).
  split; [exact He1|].
  rewrite iter_pos_nat.
  pose proof (iter_shr_1_div (Pos.to_nat p) (Build_shr_record m false false) Hm) as Hdiv.
  simpl shr_m in Hdiv at 2. rewrite positive_nat_Z in Hdiv. rewrite Hdiv.
  assert (0 < 2 ^ Z.pos p) as Hpp by (apply Z.pow_pos_nonneg; lia).
  assert (2 ^ (- e) = 2 ^ (- (e + Z.pos p)) * 2 ^ Z.pos p) as Hsplit.
  { rewrite <- Z.pow_add_r by lia. f_equal. lia. }
  split; [apply Z.div_pos; lia|].
  apply Z.div_le_upper_bound; lia.
Qed.

Lemma binary_round_aux_unit (m e : Z) (l : location) :
  e <= 0 -> 0 <= m ->
  m < 2 ^ (- e) \/ (m = 2 ^ (- e) /\ l = loc_Exact) ->
  in_unit_interval (binary_round_aux 53 1024 false m e l) = true.
Proof.
  intros He Hm Hle. unfold binary_round_aux.
  pose proof (shr_fexp_unit m e l He Hm Hle) as H1.
  destruct (shr_fexp 53 1024 m e l) as [mrs1 e1]. destruct H1 as [He1 Hm1].
  pose proof (shr_fexp_unit_exact _ e1 He1 Hm1) as H2.
  destruct (shr_fexp 53 1024 _ e1 loc_Exact) as [mrs2 e2]. destruct H2 as [He2 Hm2].
  destruct (shr_m mrs2) as [|p|p]; [reflexivity| |lia].
  destruct (Z.leb_spec e2 (1024 - 53)); [|lia].
  simpl. apply andb_true_iff. split; [apply Z.leb_le | apply Z.leb_le]; lia.
Qed.

Lemma SFdiv_core_unit (m1 m2 : positive) :
  (m1 <= m2)%positive ->
  let '(q, e, l) := SFdiv_core_binary 53 1024 (Z.pos m1) 0 (Z.pos m2) 0 in
  e <= 0 /\ 0 <= q /\ (q < 2 ^ (- e) \/ (q = 2 ^ (- e) /\ l = loc_Exact)).
Proof.
  intros Hle. unfold SFdiv_core_binary.
  set (e' := Z.min (fexp 53 1024 (Zdigits2 (Z.pos m1) + 0 - (Zdigits2 (Z.pos m2) + 0))) (0 - 0)).
  assert (e' <= 0) as He' by (unfold e'; lia).
  set (m' := match 0 - 0 - e' with
             | 0 => Z.pos m1
             | Z.pos _ => Z.shiftl (Z.pos m1) (0 - 0 - e')
             | Z.neg _ => 0
             end).
  assert (m' = Z.pos m1 * 2 ^ (- e')) as Hm'.
  { unfold m'. destruct (0 - 0 - e') as [|p|p] eqn:E; [| |lia].
    - replace (- e') with 0 by lia. lia.
    - rewrite Z.shiftl_mul_pow2 by lia. f_equal. f_equal. lia. }
  assert (0 < 2 ^ (- e')) as Hpow by (apply Z.pow_pos_nonneg; lia).
  pose proof (Z.div_eucl_eq m' (Z.pos m2) ltac:(lia)) as Heq.
  pose proof (Z.mod_pos_bound m' (Z.pos m2) ltac:(lia)) as Hmod.
  unfold Z.modulo in Hmod.
  destruct (Z.div_eucl m' (Z.pos m2)) as [q r].
  assert (0 <= q) as Hq by nia.
  assert (q <= 2 ^ (- e')) as Hq' by nia.
  split; [exact He'|]. split; [exact Hq|].
  destruct (Z.eq_dec q (2 ^ (- e'))) as [E|E]; [right | left; lia].
  split; [exact E|].
  assert (r = 0) as -> by nia.
  unfold new_location, new_location_even, new_location_odd.
  destruct (Z.even (Z.pos m2)); reflexivity.
Qed.

(** The quotient of [a] by [b], for [0 <= a <= b] and [0 < b], rounds to a
    [float] between 0 and 1, whatever the size of the two integers. *)
Lemma float_quotient_unit (a b : Z) :
  0 <= a <= b -> 0 < b -> in_unit_interval (float_quotient a b) = true.
Proof.
  intros Ha Hb. unfold float_quotient, SFdiv.
  destruct a as [|m1|m1], b as [|m2|m2]; try lia; cbn [int_operand]; [reflexivity|].
  pose proof (SFdiv_core_unit m1 m2 ltac:(lia)) as Hc.
  destruct (SFdiv_core_binary 53 1024 (Z.pos m1) 0 (Z.pos m2) 0) as [[q e] l].
  destruct Hc as (He & Hq & Hle). cbn [xorb].
  apply binary_round_aux_unit; assumption.
Qed.

End UnitInterval.

(** X11: when the spam reports are counted among the reports
    ([0 <= spam_count <= total_reports]) and there is at least one report,
    [spam_likelihood] returns a [float] between 0 and 1: the rounding of the
    quotient does not leave the interval, and the division does not
    overflow, however large the counts are. *)
Theorem spam_likelihood_unit_interval (self : GlobalContactRow.t) :
  (0 <= GlobalContactRow.spam_count self)%Z ->
  (GlobalContactRow.spam_count self <= GlobalContactRow.total_reports self)%Z ->
  (0 < GlobalContactRow.total_reports self)%Z ->
  exists f, GlobalContact.spam_likelihood self = Ok (PyFloat f) /\
            f = float_quotient (GlobalContactRow.spam_count self)
                  (GlobalContactRow.total_reports self) /\
            in_unit_interval f = true.
Proof.
  intros H0 Hle Hpos. unfold GlobalContact.spam_likelihood, truediv.
  destruct (Z.eqb_spec (GlobalContactRow.total_reports self) 0) as [E|_]; [lia|].
  pose proof (float_quotient_unit _ _ (conj H0 Hle) Hpos) as Hunit.
  destruct (float_quotient _ _) as [s|s| |s m e]; try discriminate Hunit;
    eexists; (split; [reflexivity|]); (split; [reflexivity | exact Hunit]).
Qed.

Lemma spam_likelihood_unit_interval_witness :
  exists f, GlobalContact.spam_likelihood Sample.reported = Ok (PyFloat f) /\
            f = S754_finite false 5404319552844595 (-53) /\
            in_unit_interval f = true.
Proof.
  destruct (spam_likelihood_unit_interval Sample.reported) as (f & Hf & Hq & Hunit).
  - simpl. lia.
  - simpl. lia.
  - simpl. lia.
  - exists f. split; [exact Hf|]. split; [rewrite Hq; vm_compute; reflexivity | exact Hunit].
Defined.

(** ** Registration: the directory, and a phone number with padding *)

(** X18: in a directory with unique phone numbers, a registration answered
    201 leaves a directory entry that mirrors the new account, and the
    directory's phone numbers are still unique.  Every entry of another phone
    number is as before. *)
Theorem post_created_mirrors (fw : Framework) (data : gmap string pyval)
    (w w' : World) (response : Response) :
  directory_unique (global_contacts w) ->
  UserRegistrationAPIView.post fw data w = (Ok response, w') ->
  status response = 201 ->
  exists u k c,
    users w' !! next_pk (users w) = Some u /\
    global_contacts w' !! k = Some c /\
    mirrors c u /\
    directory_unique (global_contacts w') /\
    (forall k' c', global_contacts w !! k' = Some c' ->
       GlobalContactRow.phone_number c' <> UserRow.phone_number u ->
       global_contacts w' !! k' = Some c').
Proof.
  intros Hd Hpost Hstatus.
  apply post_cases in Hpost
    as [(_ & Hr & _)|(_ & [(e & _ & [=] & _)|[(errors & _ & _ & Hr)|(vd & Hv & Hr)]])].
  { injection Hr as ->. discriminate. }
  { destruct (UserRegistrationAPIView.format_serializer_errors errors);
      [injection Hr as ->|]; discriminate. }
  destruct (ModelSerializer.setattrs vd ModelSerializer.blank_user) as [u0|e] eqn:Hset;
    [|destruct Hr as [[=] _]].
  destruct Hr as ([i|e] & Hsave & Hr); [|discriminate].
  set (w0 := mkWorld (users w) (global_contacts w) (clock w)
               (trace w ++ [MakePassword (UserRegistrationAPIView.get_str "password" data);
                            IsValid])) in Hsave.
  pose proof (User_save_users _ _ _ _ Hsave) as (w1 & Hsu & Husers).
  pose proof (save_user_insert _ _ _ _ Hsu) as [-> Hw1].
  destruct (User_save_total (None, u0) _ w0 w1 Hd Hsu)
    as (w'' & k & c & Heq & _ & Hd' & Hk & Hm).
  assert (w'' = w') as -> by congruence.
  eexists. exists k, c. split_and!.
  - rewrite Husers, Hw1. apply lookup_insert_eq.
  - exact Hk.
  - exact Hm.
  - exact Hd'.
  - intros k' c' Hk' Hp'. cbn [snd Model.set_date_joined UserRow.phone_number] in Hp'.
    apply User_save_cases in Hsave
      as [(e & _ & -> & _)|(i & w2 & _ & _ & [(e & _ & ->)|[(_ & _ & ->)|(_ & k1 & c1 & Hf & ->)]])];
      try assumption.
    + rewrite lookup_insert_ne; [assumption|].
      intros <-. cbn [global_contacts w0] in Hk'. rewrite next_pk_fresh in Hk'.
      discriminate.
    + destruct (filter_phone_elem (UserRow.phone_number u0) (global_contacts w) k1 c1)
        as [Hk1 Hp1].
      { cbn [global_contacts fst snd w0] in Hf. rewrite Hf. apply list_elem_of_here. }
      rewrite lookup_insert_ne; [assumption|]. intros <-. congruence.
Qed.

Lemma post_created_mirrors_witness :
  exists u k c,
    ({[ 1 := Sample.ana_saved ]} : gmap nat UserRow.t) !! next_pk (users Sample.reported_world)
      = Some u /\
    (<[ 7 := GlobalContactRow.mk "15551234567" "Ana Li" "1" true 3 5 None 100 (Some 1) ]>
       {[ 7 := Sample.reported ]} : gmap nat GlobalContactRow.t) !! k = Some c /\
    mirrors c u.
Proof.
  destruct (post_created_mirrors framework0 Sample.ana_request Sample.reported_world
              (mkWorld {[ 1 := Sample.ana_saved ]}
                 (<[ 7 := GlobalContactRow.mk "15551234567" "Ana Li" "1" true 3 5 None 100
                           (Some 1) ]> {[ 7 := Sample.reported ]})
                 100 [MakePassword (Some "x"); IsValid; SaveUser 1; SaveGlobalContact 7])
              (mkResponse 201
                 (JObj {[ "message" := JStr "User registered successfully." ]})))
    as (u & k & c & H1 & H2 & H3 & _).
  - intros k1 k2 c1 c2 H1 H2 _. cbn [global_contacts Sample.reported_world] in H1, H2.
    apply lookup_singleton_Some in H1 as [<- _].
    apply lookup_singleton_Some in H2 as [<- _]. reflexivity.
  - vm_compute. reflexivity.
  - reflexivity.
  - exists u, k, c. split_and!; assumption.
Defined.

(** X16: the duplicate check of [post] compares the phone number as sent,
    the serializer compares it stripped.  A registration whose email is not
    [null] and whose phone number, once stripped, is not empty and belongs to
    an account, while the number as sent belongs to none, is not answered
    with the duplicate message: it fails validation, and its details give
    [phone_number] the message of the unique constraint.  Nothing is
    written. *)
Theorem post_padded_duplicate (fw : Framework) (data : gmap string pyval) (w : World)
    (s : string) (k : nat) (u : UserRow.t) :
  data !! "phone_number" = Some (PStr s) ->
  UserRegistrationAPIView.phone_exists (data !! "phone_number") (users w) = false ->
  users w !! k = Some u ->
  UserRow.phone_number u = Py.strip s ->
  Py.strip s <> "" ->
  data !! "email" <> Some PNone ->
  exists details : gmap string string,
    UserRegistrationAPIView.post fw data w =
      (Ok (mkResponse 400
             (JObj (<[ "error" := JStr "Validation failed." ]>
                      {[ "details" := JObj (JStr <$> details) ]}))),
       mkWorld (users w) (global_contacts w) (clock w)
         (trace w ++ [MakePassword (UserRegistrationAPIView.get_str "password" data);
                      IsValid]))
    /\ details !! "phone_number" = Some "user with this phone number already exists.".
Proof.
  intros Hdata Hnew Hk Hp Hstrip Hmail.
  destruct (to_internal_value_total fw (users w) None false data
              Serializer.writable_fields ∅ ∅) as (ret & errors & Htiv).
  { intros g e Hg. apply registration_no_raise; assumption. }
  assert (Serializer.mkField "phone_number" true false false 15 true false
            "Phone number is required." "Not a valid string."
          ∈ Serializer.writable_fields) as Hin.
  { rewrite writable_fields_eq. do 4 apply list_elem_of_further. apply list_elem_of_here. }
  pose proof (to_internal_value_field _ _ _ _ _ _ _ _ _ _ _
                writable_fields_NoDup Hin Htiv) as Hfield.
  assert (exists rest,
            Serializer.run_field fw (users w) None false data
              (Serializer.mkField "phone_number" true false false 15 true false
                 "Phone number is required." "Not a valid string.") =
            Ok (Serializer.Invalid ("user with this phone number already exists." :: rest)))
    as [rest Hrun].
  { unfold Serializer.run_field, Serializer.run_validation.
    cbn [Serializer.field_name]. rewrite Hdata.
    assert (String.eqb s "" || String.eqb (Py.strip s) "" = false) as ->.
    { apply orb_false_iff. split; apply String.eqb_neq; [|exact Hstrip].
      intros ->. apply Hstrip. reflexivity. }
    unfold Serializer.run_validators. cbn [Serializer.unique].
    replace (Model.user_phone_taken (Py.strip s) None (users w)) with true.
    - cbn [andb app]. eexists. reflexivity.
    - symmetry. apply user_phone_taken_true. exists k, u.
      split_and!; [assumption..|discriminate]. }
  rewrite Hrun in Hfield. destruct Hfield as [_ Herr]. cbn [Serializer.field_name] in Herr.
  assert (Serializer.is_valid fw (users w) None false data = Ok (inl errors)) as Hv.
  { unfold Serializer.is_valid. rewrite Htiv. rewrite bool_decide_eq_false_2; [reflexivity|].
    intros ->. rewrite lookup_empty in Herr. discriminate. }
  destruct (first_messages_ok errors (is_valid_errors_nonempty _ _ _ _ _ _ Hv))
    as (details & Hfm & Hlook).
  exists details.
  destruct (UserRegistrationAPIView.post fw data w) as [r w'] eqn:Hpost.
  apply post_cases in Hpost
    as [(Hdup & _)|(_ & [(e & He & _)|[(errors' & He & -> & Hr)|(vd & He & _)]])];
    try congruence.
  assert (errors' = errors) as -> by congruence.
  unfold UserRegistrationAPIView.format_serializer_errors in Hr. rewrite Hfm in Hr.
  subst r. split; [reflexivity|]. rewrite Hlook, Herr. reflexivity.
Qed.

Lemma post_padded_duplicate_witness :
  exists details : gmap string string,
    UserRegistrationAPIView.post framework0
      (<[ "phone_number" := PStr " 15551234567" ]> Sample.ana_request) Sample.ana_world =
      (Ok (mkResponse 400
             (JObj (<[ "error" := JStr "Validation failed." ]>
                      {[ "details" := JObj (JStr <$> details) ]}))),
       mkWorld (users Sample.ana_world) (global_contacts Sample.ana_world) 100
         [MakePassword (Some "x"); IsValid])
    /\ details !! "phone_number" = Some "user with this phone number already exists.".
Proof.
  destruct (post_padded_duplicate framework0
              (<[ "phone_number" := PStr " 15551234567" ]> Sample.ana_request)
              Sample.ana_world " 15551234567" 1 Sample.ana_saved)
    as (details & Hpost & Hlook).
  - reflexivity.
  - reflexivity.
  - reflexivity.
  - reflexivity.
  - discriminate.
  - discriminate.
  - exists details. split; [rewrite Hpost; vm_compute; reflexivity | exact Hlook].
Defined.


(** ** The phone number through the serializer (C6, C10) *)

Lemma isdigit_true_iff (v : string) :
  Py.isdigit v = true <->
  v <> "" /\ forall c, In c (list_ascii_of_string v) -> Py.char_isdigit c = true.
Proof.
  destruct v as [|d v].
  - simpl. split; [discriminate | intros [H _]; contradiction].
  - change (Py.isdigit (String d v)) with (Py.all_chars Py.char_isdigit (String d v)).
    rewrite all_chars_forall. split; [intros H; split; [discriminate | exact H]|].
    intros [_ H]. exact H.
Qed.

Lemma isdigit_false_iff (v : string) :
  Py.isdigit v = false <->
  v = "" \/ exists c, In c (list_ascii_of_string v) /\ Py.char_isdigit c = false.
Proof.
  destruct v as [|d v].
  - simpl. split; [intros _; left; reflexivity | reflexivity].
  - change (Py.isdigit (String d v)) with (Py.all_chars Py.char_isdigit (String d v)).
    rewrite all_chars_exists. split; [intros H; right; exact H|].
    intros [[=]|H]. exact H.
Qed.

(** A string without white space is its own [strip()]. *)
Lemma rstrip_no_space (s : string) :
  Py.all_chars (fun c => negb (Py.char_isspace c)) s = true -> Py.rstrip s = s.
Proof.
  induction s as [|c s IH]; [reflexivity|].
  simpl. intros [Hc Hs]%andb_true_iff. rewrite (IH Hs).
  destruct s; [|reflexivity].
  destruct (Py.char_isspace c); [discriminate | reflexivity].
Qed.

Lemma strip_no_space (s : string) :
  Py.all_chars (fun c => negb (Py.char_isspace c)) s = true -> Py.strip s = s.
Proof.
  intros H. unfold Py.strip.
  assert (Py.lstrip s = s) as ->; [|apply rstrip_no_space, H].
  destruct s as [|c s]; [reflexivity|].
  simpl in *. apply andb_true_iff in H as [Hc _].
  destruct (Py.char_isspace c); [discriminate | reflexivity].
Qed.

Lemma decimal_no_space (c : ascii) :
  Py.char_isdecimal c = true -> negb (Py.char_isspace c) = true.
Proof.
  unfold Py.char_isdecimal, Py.char_isspace. cbv zeta.
  intros [H1 H2]%andb_true_iff.
  apply Nat.leb_le in H1. apply Nat.leb_le in H2.
  apply negb_true_iff.
  repeat (apply orb_false_iff; split); try (apply andb_false_iff);
    try (left; apply Nat.leb_gt; lia); try (right; apply Nat.leb_gt; lia);
    apply Nat.eqb_neq; lia.
Qed.

Lemma strip_decimal (s : string) :
  Py.all_chars Py.char_isdecimal s = true -> Py.strip s = s.
Proof.
  intros H. apply strip_no_space. apply all_chars_forall.
  intros c Hc. apply decimal_no_space. revert c Hc. apply all_chars_forall, H.
Qed.

Section PhoneNumber.

Variable fw : Framework.
Variable t : gmap nat UserRow.t.
Variable instance_pk : option nat.
Variable partial : bool.
Variable data : gmap string pyval.

(** The field [ModelSerializer] builds for the column [phone_number]. *)
Local Abbreviation phone_number_field :=
  (Serializer.mkField "phone_number" true false false 15 true false
     "Phone number is required." "Not a valid string.").

Lemma phone_number_field_writable : phone_number_field ∈ Serializer.writable_fields.
Proof.
  rewrite writable_fields_eq. do 4 apply list_elem_of_further. apply list_elem_of_here.
Qed.

(** The validators of the field: the unique constraint of the column, its
    maximal length, and the ban of NUL characters. *)
Lemma run_validators_phone_nil (v : string) :
  Serializer.run_validators fw t instance_pk phone_number_field v = [] <->
  (String.length v <= 15)%nat /\ Py.has_char "000"%char v = false /\
  Model.user_phone_taken v instance_pk t = false.
Proof.
  unfold Serializer.run_validators.
  cbn [Serializer.unique Serializer.max_length Serializer.is_email andb].
  split.
  - intros H.
    destruct (Model.user_phone_taken v instance_pk t); [discriminate|].
    destruct (Nat.ltb_spec 15 (String.length v)); [discriminate|].
    destruct (Py.has_char "000"%char v); [discriminate|]. auto.
  - intros (H1 & -> & ->).
    destruct (Nat.ltb_spec 15 (String.length v)); [lia | reflexivity].
Qed.

(** None of their messages is the message of [validate_phone_number]. *)
Lemma run_validators_phone_other (v : string) :
  Serializer.run_validators fw t instance_pk phone_number_field v <>
  [ "Phone number must be numeric." ].
Proof.
  unfold Serializer.run_validators.
  cbn [Serializer.unique Serializer.max_length Serializer.is_email andb].
  destruct (Model.user_phone_taken v instance_pk t);
    destruct (15 <? String.length v)%nat;
    destruct (Py.has_char "000"%char v); cbn [app];
    vm_compute; discriminate.
Qed.

(** What the serializer does with a phone number sent as a string: blank
    check on the stripped string, then the validators of the field, then
    [validate_phone_number]. *)
Lemma run_field_phone (s : string) :
  data !! "phone_number" = Some (PStr s) ->
  Serializer.run_field fw t instance_pk partial data phone_number_field =
  Ok (if String.eqb (Py.strip s) "" then Serializer.Invalid [Serializer.msg_blank]
      else
        match Serializer.run_validators fw t instance_pk phone_number_field (Py.strip s) with
        | [] =>
            if Py.isdigit (Py.strip s) then Serializer.Validated (Some (Py.strip s))
            else Serializer.Invalid [UserSerializer.phone_not_numeric]
        | detail => Serializer.Invalid detail
        end).
Proof.
  intros Hd. unfold Serializer.run_field, Serializer.run_validation.
  cbn [Serializer.field_name Serializer.allow_blank]. rewrite Hd.
  assert (String.eqb s "" || String.eqb (Py.strip s) "" = String.eqb (Py.strip s) "")
    as ->.
  { destruct (String.eqb_spec s "") as [->|]; reflexivity. }
  destruct (String.eqb (Py.strip s) ""); [reflexivity|].
  destruct (Serializer.run_validators _ _ _ _ _); [|reflexivity].
  unfold Serializer.validate_method. cbn [String.eqb Ascii.eqb Bool.eqb].
  unfold UserSerializer.validate_phone_number.
  destruct (Py.isdigit (Py.strip s)); reflexivity.
Qed.

(** What [is_valid] reports for the phone number, when validation ends
    normally. *)
Lemma is_valid_phone (s : string) :
  data !! "phone_number" = Some (PStr s) ->
  data !! "email" <> Some PNone ->
  exists v, Serializer.is_valid fw t instance_pk partial data = Ok v /\
    match Serializer.run_field fw t instance_pk partial data phone_number_field with
    | Ok (Serializer.Invalid detail) =>
        Serializer.errors v !! "phone_number" = Some detail /\
        exists serializer_errors, v = inl serializer_errors
    | Ok (Serializer.Validated value) =>
        Serializer.errors v !! "phone_number" = None /\
        forall validated_data, v = inr validated_data ->
          validated_data !! "phone_number" = Some value
    | _ => False
    end.
Proof.
  intros Hd Hmail.
  destruct (to_internal_value_total fw t instance_pk partial data
              Serializer.writable_fields ∅ ∅) as (ret & errs & Htiv).
  { intros g e Hg. apply registration_no_raise; assumption. }
  pose proof (to_internal_value_field _ _ _ _ _ _ _ _ _ _ _
                writable_fields_NoDup phone_number_field_writable Htiv) as Hfield.
  cbn [Serializer.field_name] in Hfield.
  unfold Serializer.is_valid. rewrite Htiv.
  rewrite (run_field_phone s Hd) in *.
  destruct (String.eqb (Py.strip s) "");
    [|destruct (Serializer.run_validators _ _ _ _ _);
      [destruct (Py.isdigit (Py.strip s))|]].
  all: destruct Hfield as [Hret Herr]; rewrite ?lookup_empty in *.
  all: destruct (bool_decide_reflect (errs = ∅)) as [->|Hne];
    eexists; (split; [reflexivity|]); cbn [Serializer.errors];
    rewrite ?lookup_empty in *; try discriminate.
  all: try (split; [exact Herr | eexists; reflexivity]).
  - split; [reflexivity|]. intros vd [= <-]. exact Hret.
  - split; [exact Herr|]. intros vd [=].
Qed.

End PhoneNumber.

(** C6, as stated, fails.  A phone number padded with spaces
    contains characters that are no decimal digits, and the registration is
    accepted: the serializer strips it first.  So is the superscript two,
    which [str.isdigit] counts as a digit.  And a number of sixteen
    characters that ends in a letter is rejected with the message of the
    length limit alone: [validate_phone_number] is not reached. *)
Lemma phone_number_not_iff_nondecimal :
  (Py.all_chars Py.char_isdecimal " 15551234567 " = false /\
   UserRegistrationAPIView.post framework0
     (<[ "phone_number" := PStr " 15551234567 " ]> Sample.ana_request)
     Sample.empty_world =
   (Ok (mkResponse 201 (JObj {[ "message" := JStr "User registered successfully." ]})),
    mkWorld {[ 1 := Sample.ana_saved ]}
      {[ 1 := GlobalContactRow.mk "15551234567" "Ana Li" "1" true 0 0 None 100 None ]}
      100 [MakePassword (Some "x"); IsValid; SaveUser 1; SaveGlobalContact 1]))
  /\
  (let s := String (ascii_of_nat 178) EmptyString in
   Py.all_chars Py.char_isdecimal s = false /\
   (UserRegistrationAPIView.post framework0
      (<[ "phone_number" := PStr s ]> Sample.ana_request) Sample.empty_world).1 =
   Ok (mkResponse 201 (JObj {[ "message" := JStr "User registered successfully." ]})))
  /\
  (Py.all_chars Py.char_isdecimal "123456789012345a" = false /\
   UserRegistrationAPIView.post framework0
     (<[ "phone_number" := PStr "123456789012345a" ]> Sample.ana_request)
     Sample.empty_world =
   (Ok (mkResponse 400
          (JObj (<[ "error" := JStr "Validation failed." ]>
                   {[ "details" :=
                        JObj {[ "phone_number" :=
                                  JStr "Ensure this field has no more than 15 characters." ]} ]}))),
    mkWorld ∅ ∅ 100 [MakePassword (Some "x"); IsValid])).
Proof. vm_compute. repeat split. Qed.

(** C6 (amended): for a request that supplies the phone number as a string
    and whose email is not [null], validation ends normally, and what it
    reports for the phone number depends on the stripped string alone.  The
    failure "Phone number must be numeric." is reported exactly when the
    stripped string passes the checks of the field (it is not empty, has at
    most 15 characters and no NUL character, and no other account holds it)
    and has a character that [str.isdigit] does not count as a digit.  No
    failure is reported exactly when it passes those checks and every
    character is such a digit; the value kept is the stripped string, which
    is the string as sent when that consists of decimal digits only. *)
Theorem phone_number_validation
    (fw : Framework) (t : gmap nat UserRow.t) (instance_pk : option nat)
    (partial : bool) (data : gmap string pyval) (s : string) :
  data !! "phone_number" = Some (PStr s) ->
  data !! "email" <> Some PNone ->
  let value := Py.strip s in
  let checked :=
    value <> "" /\ (String.length value <= 15)%nat /\
    Py.has_char "000"%char value = false /\
    Model.user_phone_taken value instance_pk t = false in
  exists v, Serializer.is_valid fw t instance_pk partial data = Ok v /\
    (Serializer.errors v !! "phone_number" = Some [ "Phone number must be numeric." ] <->
     checked /\
     exists c, In c (list_ascii_of_string value) /\ Py.char_isdigit c = false) /\
    (Serializer.errors v !! "phone_number" = None <->
     checked /\
     forall c, In c (list_ascii_of_string value) -> Py.char_isdigit c = true) /\
    (forall validated_data, v = inr validated_data ->
       validated_data !! "phone_number" = Some (Some value)) /\
    (Py.all_chars Py.char_isdecimal s = true -> value = s).
Proof.
  intros Hd Hmail value checked.
  destruct (is_valid_phone fw t instance_pk partial data s Hd Hmail) as (v & Hv & H).
  exists v. split; [exact Hv|].
  rewrite (run_field_phone fw t instance_pk partial data s Hd) in H. fold value in H.
  pose proof (run_validators_phone_nil fw t instance_pk value) as Hnil.
  pose proof (run_validators_phone_other fw t instance_pk value) as Hother.
  assert (forall validated_data, v = inr validated_data ->
            validated_data !! "phone_number" = Some (Some value)) as Hkept.
  { intros vd ->.
    pose proof (is_valid_field fw t instance_pk partial data vd _ Hv
                  (phone_number_field_writable)) as Hf.
    cbn [Serializer.field_name] in Hf. rewrite Hd in Hf. exact Hf. }
  split_and!; [| |exact Hkept|apply strip_decimal].
  - destruct (String.eqb_spec value "") as [E|E].
    { destruct H as [-> _]. split; [discriminate|]. intros [[Hne _] _]. contradiction. }
    destruct (Serializer.run_validators fw t instance_pk _ value) as [|m ms] eqn:Erv.
    + destruct (Py.isdigit value) eqn:Edig.
      * destruct H as [-> _]. split; [discriminate|].
        intros [_ (c & Hc & Hp)]. apply isdigit_true_iff in Edig as [_ Hall].
        rewrite (Hall c Hc) in Hp. discriminate.
      * destruct H as [-> _]. split; [intros _|reflexivity].
        destruct (proj1 Hnil eq_refl) as (H1 & H2 & H3).
        split; [unfold checked; auto|].
        apply isdigit_false_iff in Edig as [Hempty|Hex]; [contradiction | exact Hex].
    + destruct H as [-> _]. split.
      * intros Heq. exfalso. apply Hother. congruence.
      * intros [(_ & H1 & H2 & H3) _].
        assert (m :: ms = []) as Habs by (apply Hnil; auto). discriminate.
  - destruct (String.eqb_spec value "") as [E|E].
    { destruct H as [-> _]. split; [discriminate|]. intros [[Hne _] _]. contradiction. }
    destruct (Serializer.run_validators fw t instance_pk _ value) as [|m ms] eqn:Erv.
    + destruct (Py.isdigit value) eqn:Edig.
      * destruct H as [-> _]. split; [intros _|reflexivity].
        destruct (proj1 Hnil eq_refl) as (H1 & H2 & H3).
        split; [unfold checked; auto|]. apply isdigit_true_iff in Edig as [_ Hall]. exact Hall.
      * destruct H as [-> _]. split; [discriminate|].
        intros [_ Hall]. apply isdigit_false_iff in Edig as [Hempty|(c & Hc & Hp)]; [contradiction|].
        rewrite (Hall c Hc) in Hp. discriminate.
    + destruct H as [-> _]. split; [discriminate|].
      intros [(_ & H1 & H2 & H3) _].
      assert (m :: ms = []) as Habs by (apply Hnil; auto). discriminate.
Qed.

Lemma phone_number_validation_witness :
  exists v,
    Serializer.is_valid framework0 (users Sample.ana_world) None false
      (<[ "phone_number" := PStr " 12a " ]> Sample.ana_request) = Ok v /\
    Serializer.errors v !! "phone_number" = Some [ "Phone number must be numeric." ].
Proof.
  destruct (phone_number_validation framework0 (users Sample.ana_world) None false
              (<[ "phone_number" := PStr " 12a " ]> Sample.ana_request) " 12a ")
    as (v & Hv & Hnumeric & _).
  - reflexivity.
  - discriminate.
  - exists v. split; [exact Hv|]. apply Hnumeric. split.
    + split_and!; [discriminate | vm_compute; lia | reflexivity | reflexivity].
    + exists "a"%char. split; [vm_compute; auto | reflexivity].
Defined.

(** C10, as stated, fails: a registration whose phone number is the empty
    string is answered with "This field may not be blank." for the phone
    number, not with "Phone number must be numeric.". *)
Lemma post_blank_phone_number :
  UserRegistrationAPIView.post framework0
    (<[ "phone_number" := PStr "" ]> Sample.ana_request) Sample.empty_world =
  (Ok (mkResponse 400
         (JObj (<[ "error" := JStr "Validation failed." ]>
                  {[ "details" :=
                       JObj {[ "phone_number" := JStr "This field may not be blank." ]} ]}))),
   mkWorld ∅ ∅ 100 [MakePassword (Some "x"); IsValid])
  /\ "This field may not be blank." <> "Phone number must be numeric.".
Proof. split; [vm_compute; reflexivity | discriminate]. Qed.

(** C10 (amended): for a request whose phone number is the empty string and
    whose email is not [null], validation fails, for a registration as for
    an update, and reports "This field may not be blank." for the phone
    number: the blank check of the field rejects it, and
    [validate_phone_number] is not called.  A registration is answered 400
    with that message in the details, unless an account holds the empty
    phone number; an update is answered 400; neither writes anything.
    [validate_phone_number] itself rejects the empty string with "Phone
    number must be numeric.". *)
Theorem empty_phone_number_blank
    (fw : Framework) (data : gmap string pyval) (w : World) :
  data !! "phone_number" = Some (PStr "") ->
  data !! "email" <> Some PNone ->
  (forall instance_pk partial,
     exists serializer_errors,
       Serializer.is_valid fw (users w) instance_pk partial data =
         Ok (inl serializer_errors) /\
       serializer_errors !! "phone_number" = Some [ "This field may not be blank." ]) /\
  (Model.user_phone_taken "" None (users w) = false ->
   exists details : gmap string string,
     UserRegistrationAPIView.post fw data w =
       (Ok (mkResponse 400
              (JObj (<[ "error" := JStr "Validation failed." ]>
                       {[ "details" := JObj (JStr <$> details) ]}))),
        mkWorld (users w) (global_contacts w) (clock w)
          (trace w ++ [MakePassword (UserRegistrationAPIView.get_str "password" data);
                       IsValid]))
     /\ details !! "phone_number" = Some "This field may not be blank.") /\
  (forall user,
     UserProfileAPIView.patch fw user data w =
       (Ok (mkResponse 400
              (JObj (<[ "error" := JStr "Validation failed." ]> {[ "details" := JNull ]}))),
        mkWorld (users w) (global_contacts w) (clock w) (trace w ++ [IsValid]))) /\
  UserSerializer.validate_phone_number "" =
    Raise (ValidationError "Phone number must be numeric.").
Proof.
  intros Hd Hmail.
  assert (forall instance_pk partial,
            exists serializer_errors,
              Serializer.is_valid fw (users w) instance_pk partial data =
                Ok (inl serializer_errors) /\
              serializer_errors !! "phone_number" = Some [ "This field may not be blank." ])
    as Hblank.
  { intros pk partial.
    destruct (is_valid_phone fw (users w) pk partial data "" Hd Hmail) as (v & Hv & H).
    rewrite (run_field_phone fw (users w) pk partial data "" Hd) in H.
    cbn in H. destruct H as [Herr [errors ->]].
    exists errors. split; [exact Hv | exact Herr]. }
  split_and!; [exact Hblank| | |reflexivity].
  - intros Hfree. destruct (Hblank None false) as (errors & Hv & Herr).
    destruct (first_messages_ok errors (is_valid_errors_nonempty _ _ _ _ _ _ Hv))
      as (details & Hfm & Hlook).
    exists details.
    destruct (UserRegistrationAPIView.post fw data w) as [r w'] eqn:Hpost.
    apply post_cases in Hpost
      as [(Hdup & _)|(_ & [(e & He & _)|[(errors' & He & -> & Hr)|(vd & He & _)]])];
      try congruence.
    + rewrite Hd in Hdup. cbn [UserRegistrationAPIView.phone_exists] in Hdup. congruence.
    + assert (errors' = errors) as -> by congruence.
      unfold UserRegistrationAPIView.format_serializer_errors in Hr. rewrite Hfm in Hr.
      subst r. split; [reflexivity|]. rewrite Hlook, Herr. reflexivity.
  - intros user. destruct (Hblank user.1 true) as (errors & Hv & _).
    apply (patch_invalid fw user data w errors Hv).
Qed.

Lemma empty_phone_number_blank_witness :
  exists serializer_errors,
    Serializer.is_valid framework0 ∅ None false
      (<[ "phone_number" := PStr "" ]> Sample.ana_request) = Ok (inl serializer_errors) /\
    serializer_errors !! "phone_number" = Some [ "This field may not be blank." ].
Proof.
  destruct (empty_phone_number_blank framework0
              (<[ "phone_number" := PStr "" ]> Sample.ana_request) Sample.empty_world)
    as (Hblank & _).
  - reflexivity.
  - discriminate.
  - exact (Hblank None false).
Defined.
